(** * OpenCut: the timeline widget and playback clock of [main.py]

    A shallow embedding of the timeline core of the PyQt video trimmer:
    the coordinate mapper, the tick generator, the pointer state machine,
    the zoom controls, the playback clock and the export guard.

    Numbers.  Python's [float] values (seconds, pixels, zoom) are embedded
    as exact rationals [Q]; NaN, infinities and rounding are outside the
    model, and equalities between times are stated up to [==].  Python's
    [int] values (widget width, paddings, the tick steps) are [Z].  The
    wall clock [time.time()] is an input of every handler that reads it.

    State.  The two objects are records, [Timeline] for [TimelineWidget]
    and [Window] for [VideoEditorWindow], and every method is a function
    from the record before the call to the record after it.  A signal
    emitted by the widget runs the slot connected to it before the handler
    returns, so a pointer event of the window is the widget's handler
    followed by the slots of the signals it emitted.  Calls that leave the
    program (dialogs, the clip service) are logged in [calls]; what they
    answer is an argument of the method.  Painting, pixmaps and the slider
    widgets are left out. *)

From Stdlib Require Import ZArith QArith Qround Qabs Lia Lqa Bool List String Ascii.
From Stdlib Require Import DecimalString.
Import ListNotations.

Open Scope Q_scope.

(** ** Python's numeric builtins on rationals *)

Module Py.

Definition ltb (x y : Q) : bool := negb (Qle_bool y x).
Definition leb (x y : Q) : bool := Qle_bool x y.

(** [min(a, b)]: the first argument unless the second is strictly smaller. *)
Definition min (a b : Q) : Q := if ltb b a then b else a.

(** [max(a, b)]: the first argument unless the second is strictly greater. *)
Definition max (a b : Q) : Q := if ltb a b then b else a.

(** [int(x)] on a float: truncation toward zero. *)
Definition int (x : Q) : Z := if ltb x 0 then Qceiling x else Qfloor x.

(** [x // y] and [x % y] on floats. *)
Definition floordiv (x y : Q) : Q := inject_Z (Qfloor (x / y)).
Definition mod_ (x y : Q) : Q := x - y * inject_Z (Qfloor (x / y)).

(** [min(l, key=k)] over a non-empty list [x :: l]: the first element whose
    key is minimal. *)
Fixpoint min_key (key : Z -> Q) (best : Z) (l : list Z) : Z :=
  match l with
  | [] => best
  | x :: r => min_key key (if ltb (key x) (key best) then x else best) r
  end.

(** [f"{n}"] and [f"{n:02d}"] for an [int]. *)
Definition str (n : Z) : string := NilZero.string_of_int (Z.to_int n).
Definition str02 (n : Z) : string :=
  let s := str n in
  if (String.length s <? 2)%nat then String "0" s else s.

End Py.

(** ** Utility functions *)

(** [sec_to_hms(t)]; [None] is Python's [None]. *)
Definition sec_to_hms (t : option Q) : string :=
  match t with
  | None => "0:00"
  | Some t =>
      let t := Py.max 0 t in
      let hrs := Py.int (Py.floordiv t 3600) in
      let mins := Py.int (Py.floordiv (Py.mod_ t 3600) 60) in
      let secs := Py.int (Py.mod_ t 60) in
      if (0 <? hrs)%Z
      then Py.str hrs ++ ":" ++ Py.str02 mins ++ ":" ++ Py.str02 secs
      else Py.str mins ++ ":" ++ Py.str02 secs
  end%string.

(** ** Timeline widget *)

Inductive Drag := DragStart | DragEnd | DragPlayhead.

(** The signals of [TimelineWidget]. *)
Inductive Signal :=
| range_changed (start_sec end_sec : Q)
| seek_requested (sec : Q).

Record Timeline := mkTimeline {
  width : Z;                 (* self.width(), the widget's geometry *)
  clip_duration : Q;
  playhead : Q;
  start_marker : Q;
  end_marker : Q;
  left_padding : Z;
  right_padding : Z;
  dragging : option Drag;
  drag_offset : Q;
  pixels_per_second : Q;
  min_pps : Q;
  max_pps : Q
}.

(** [TimelineWidget.__init__] at a given widget width. *)
Definition init_timeline (w : Z) : Timeline :=
  {| width := w; clip_duration := 0; playhead := 0;
     start_marker := 0; end_marker := 0;
     left_padding := 50; right_padding := 50;
     dragging := None; drag_offset := 0;
     pixels_per_second := 120; min_pps := 40; max_pps := 1000 |}.

Definition with_playhead (tl : Timeline) (p : Q) : Timeline :=
  {| width := width tl; clip_duration := clip_duration tl; playhead := p;
     start_marker := start_marker tl; end_marker := end_marker tl;
     left_padding := left_padding tl; right_padding := right_padding tl;
     dragging := dragging tl; drag_offset := drag_offset tl;
     pixels_per_second := pixels_per_second tl;
     min_pps := min_pps tl; max_pps := max_pps tl |}.

Definition with_start_marker (tl : Timeline) (s : Q) : Timeline :=
  {| width := width tl; clip_duration := clip_duration tl; playhead := playhead tl;
     start_marker := s; end_marker := end_marker tl;
     left_padding := left_padding tl; right_padding := right_padding tl;
     dragging := dragging tl; drag_offset := drag_offset tl;
     pixels_per_second := pixels_per_second tl;
     min_pps := min_pps tl; max_pps := max_pps tl |}.

Definition with_end_marker (tl : Timeline) (e : Q) : Timeline :=
  {| width := width tl; clip_duration := clip_duration tl; playhead := playhead tl;
     start_marker := start_marker tl; end_marker := e;
     left_padding := left_padding tl; right_padding := right_padding tl;
     dragging := dragging tl; drag_offset := drag_offset tl;
     pixels_per_second := pixels_per_second tl;
     min_pps := min_pps tl; max_pps := max_pps tl |}.

Definition with_drag (tl : Timeline) (d : option Drag) (off : Q) : Timeline :=
  {| width := width tl; clip_duration := clip_duration tl; playhead := playhead tl;
     start_marker := start_marker tl; end_marker := end_marker tl;
     left_padding := left_padding tl; right_padding := right_padding tl;
     dragging := d; drag_offset := off;
     pixels_per_second := pixels_per_second tl;
     min_pps := min_pps tl; max_pps := max_pps tl |}.

Definition with_pps (tl : Timeline) (pps : Q) : Timeline :=
  {| width := width tl; clip_duration := clip_duration tl; playhead := playhead tl;
     start_marker := start_marker tl; end_marker := end_marker tl;
     left_padding := left_padding tl; right_padding := right_padding tl;
     dragging := dragging tl; drag_offset := drag_offset tl;
     pixels_per_second := pps;
     min_pps := min_pps tl; max_pps := max_pps tl |}.

(** [set_clip_duration(duration)] *)
Definition set_clip_duration (tl : Timeline) (duration : Q) : Timeline :=
  let d := Py.max 0 duration in
  {| width := width tl; clip_duration := d; playhead := 0;
     start_marker := 0; end_marker := d;
     left_padding := left_padding tl; right_padding := right_padding tl;
     dragging := dragging tl; drag_offset := drag_offset tl;
     pixels_per_second := pixels_per_second tl;
     min_pps := min_pps tl; max_pps := max_pps tl |}.

(** [usable = max(10, self.width() - (self.left_padding + self.right_padding))] *)
Definition usable (tl : Timeline) : Z :=
  let w := (width tl - (left_padding tl + right_padding tl))%Z in
  if (10 <? w)%Z then w else 10%Z.

(** [total_width = self.pixels_per_second * max(1.0, self.clip_duration)] *)
Definition total_width (tl : Timeline) : Q :=
  pixels_per_second tl * Py.max 1 (clip_duration tl).

(** The branch both mappers take: [total_width <= usable]. *)
Definition fit_mode (tl : Timeline) : bool :=
  Py.leb (total_width tl) (inject_Z (usable tl)).

(** [usable / (self.clip_duration if self.clip_duration > 0 else 1)] *)
Definition scroll_scale (tl : Timeline) : Q :=
  inject_Z (usable tl) /
  (if Py.ltb 0 (clip_duration tl) then clip_duration tl else 1).

Definition eps6 : Q := 1e-6.

Definition seconds_to_x (tl : Timeline) (seconds : Q) : Q :=
  if fit_mode tl then
    let start_x :=
      inject_Z (left_padding tl) + (inject_Z (usable tl) - total_width tl) / 2 in
    start_x + seconds * pixels_per_second tl
  else
    let scale := scroll_scale tl in
    let start_x := inject_Z (left_padding tl) in
    start_x + seconds * scale.

Definition x_to_seconds (tl : Timeline) (x : Q) : Q :=
  if fit_mode tl then
    let start_x :=
      inject_Z (left_padding tl) + (inject_Z (usable tl) - total_width tl) / 2 in
    Py.max 0 (Py.min (clip_duration tl)
                     ((x - start_x) / Py.max eps6 (pixels_per_second tl)))
  else
    let start_x := inject_Z (left_padding tl) in
    let scale := scroll_scale tl in
    Py.max 0 (Py.min (clip_duration tl) ((x - start_x) / Py.max eps6 scale)).

(** *** [paintEvent]: the tick marks

    Only the part of [paintEvent] that chooses the tick step and walks the
    ticks is embedded; the painter calls are kept as the values they are
    given: the tick's time, the pixel column [int(tx)] and the label. *)

Record Tick := mkTick { tick_time : Q; tick_x : Z; tick_label : string }.

(** [clip_w]: [int(total_width)] when the clip box fits, else [usable_w]. *)
Definition clip_w (tl : Timeline) : Z :=
  if fit_mode tl then Py.int (total_width tl) else usable tl.

(** [duration = max(1.0, self.clip_duration)] *)
Definition paint_duration (tl : Timeline) : Q := Py.max 1 (clip_duration tl).

Definition target_px : Q := 120.

(** [max(1.0, target_px / max(1e-6, (usable_clip_w / duration)))] *)
Definition raw_seconds_per_tick (tl : Timeline) : Q :=
  Py.max 1 (target_px / Py.max eps6 (inject_Z (clip_w tl) / paint_duration tl)).

Definition nice : list Z := [1; 2; 5; 10; 15; 30; 60; 120; 300; 600]%Z.

(** [min(nice, key=lambda x: abs(x - seconds_per_tick))] *)
Definition snap (raw : Q) : Z :=
  match nice with
  | [] => 0%Z
  | x :: rest => Py.min_key (fun y => Qabs (inject_Z y - raw)) x rest
  end.

Definition seconds_per_tick (tl : Timeline) : Z := snap (raw_seconds_per_tick tl).

Definition tick_eps : Q := 0.0001.

Definition tick_at (tl : Timeline) (t : Q) : Tick :=
  {| tick_time := t;
     tick_x := Py.int (seconds_to_x tl t);
     tick_label := sec_to_hms (Some t) |}.

(** [while t <= duration + 0.0001: ...; t += seconds_per_tick], with the
    number of iterations bounded by [fuel]; [None] when the fuel runs out. *)
Fixpoint tick_loop (fuel : nat) (tl : Timeline) (bound step t : Q) : option (list Tick) :=
  match fuel with
  | O => None
  | S fuel' =>
      if Py.leb t bound then
        match tick_loop fuel' tl bound step (t + step) with
        | Some r => Some (tick_at tl t :: r)
        | None => None
        end
      else Some []
  end.

Definition paint_ticks (fuel : nat) (tl : Timeline) : option (list Tick) :=
  tick_loop fuel tl (paint_duration tl + tick_eps)
            (inject_Z (seconds_per_tick tl)) 0.

(** *** Pointer events

    Each handler returns the widget after the event and the signals it
    emitted, in order. *)

Definition hit_radius : Q := 10.

Definition mousePressEvent (tl : Timeline) (x : Q) : Timeline * list Signal :=
  let start_x := seconds_to_x tl (start_marker tl) in
  let end_x := seconds_to_x tl (end_marker tl) in
  if Py.leb (Qabs (x - start_x)) hit_radius then
    (with_drag tl (Some DragStart) (x - start_x), [])
  else if Py.leb (Qabs (x - end_x)) hit_radius then
    (with_drag tl (Some DragEnd) (x - end_x), [])
  else
    let ph_x := seconds_to_x tl (playhead tl) in
    if Py.leb (Qabs (x - ph_x)) hit_radius then
      (with_drag tl (Some DragPlayhead) (x - ph_x), [])
    else
      let sec := x_to_seconds tl x in
      (with_playhead tl sec, [seek_requested sec]).

(** The time a move at pixel [x] stands for:
    [max(0.0, min(self.clip_duration, x_to_seconds(x - self.drag_offset)))]. *)
Definition move_seconds (tl : Timeline) (x : Q) : Q :=
  Py.max 0 (Py.min (clip_duration tl) (x_to_seconds tl (x - drag_offset tl))).

Definition mouseMoveEvent (tl : Timeline) (x : Q) : Timeline * list Signal :=
  match dragging tl with
  | None => (tl, [])
  | Some d =>
      let sec := move_seconds tl x in
      match d with
      | DragStart =>
          let s := Py.min sec (end_marker tl) in
          (with_start_marker tl s, [range_changed s (end_marker tl)])
      | DragEnd =>
          let e := Py.max sec (start_marker tl) in
          (with_end_marker tl e, [range_changed (start_marker tl) e])
      | DragPlayhead =>
          (with_playhead tl sec, [seek_requested sec])
      end
  end.

Definition mouseReleaseEvent (tl : Timeline) : Timeline :=
  with_drag tl None (drag_offset tl).

Definition zoom_factor : Q := 1.15.

(** [wheelEvent]; [delta] is [event.angleDelta().y()]. *)
Definition wheelEvent (tl : Timeline) (delta : Z) : Timeline :=
  if (0 <? delta)%Z then
    with_pps tl (Py.min (max_pps tl) (pixels_per_second tl * zoom_factor))
  else
    with_pps tl (Py.max (min_pps tl) (pixels_per_second tl / zoom_factor)).

(** ** Main editor window *)

(** What the window uses of a loaded [VideoFileClip]: its duration. *)
Record Clip := mkClip { duration : Q }.

(** The texts [status_label] is given; the file name and the number the
    code formats into two of them are kept as arguments. *)
Inductive Status :=
| Ready | Loading | Loaded (path : string) (d : Q) | Playing | Paused
| Exporting | Exported (path : string) | ExportFailed | CutApplied.

(** Calls that leave the window: dialogs and the clip service. *)
Inductive Call :=
| SaveFileDialog
| MsgInformation (title : string)
| MsgWarning (title : string)
| MsgCritical (title : string)
| GetFrame (t : Q)
| Subclip (start_sec end_sec : Q)
| WriteVideofile (path : string)
| CloseClip.

Record Window := mkWindow {
  clip : option Clip;
  clip_path : option string;
  is_playing : bool;
  preview_fps : Z;
  last_preview_time : Q;
  play_start_sys : option Q;
  play_offset : Q;
  timeline : Timeline;
  play_btn : string;
  status_label : Status;
  current_time_label : string;
  duration_label : string;
  start_label : string;
  end_label : string;
  calls : list Call          (* the calls made so far, latest first *)
}.

(** [VideoEditorWindow.__init__] with a timeline widget of width [w]. *)
Definition init_window (w : Z) : Window :=
  {| clip := None; clip_path := None; is_playing := false;
     preview_fps := 12; last_preview_time := 0;
     play_start_sys := None; play_offset := 0;
     timeline := init_timeline w;
     play_btn := "Play ▶"; status_label := Ready;
     current_time_label := "0:00"; duration_label := "/ 0:00";
     start_label := "Start: 0:00"; end_label := "End: 0:00";
     calls := [] |}.

Definition with_timeline (w : Window) (tl : Timeline) : Window :=
  {| clip := clip w; clip_path := clip_path w; is_playing := is_playing w;
     preview_fps := preview_fps w; last_preview_time := last_preview_time w;
     play_start_sys := play_start_sys w; play_offset := play_offset w;
     timeline := tl;
     play_btn := play_btn w; status_label := status_label w;
     current_time_label := current_time_label w;
     duration_label := duration_label w;
     start_label := start_label w; end_label := end_label w;
     calls := calls w |}.

(** The playback fields: [is_playing], [_play_start_sys], [_play_offset]. *)
Definition with_playback (w : Window) (playing : bool) (start : option Q)
    (offset : Q) : Window :=
  {| clip := clip w; clip_path := clip_path w; is_playing := playing;
     preview_fps := preview_fps w; last_preview_time := last_preview_time w;
     play_start_sys := start; play_offset := offset;
     timeline := timeline w;
     play_btn := play_btn w; status_label := status_label w;
     current_time_label := current_time_label w;
     duration_label := duration_label w;
     start_label := start_label w; end_label := end_label w;
     calls := calls w |}.

Definition with_play_btn (w : Window) (s : string) : Window :=
  {| clip := clip w; clip_path := clip_path w; is_playing := is_playing w;
     preview_fps := preview_fps w; last_preview_time := last_preview_time w;
     play_start_sys := play_start_sys w; play_offset := play_offset w;
     timeline := timeline w;
     play_btn := s; status_label := status_label w;
     current_time_label := current_time_label w;
     duration_label := duration_label w;
     start_label := start_label w; end_label := end_label w;
     calls := calls w |}.

Definition with_status (w : Window) (s : Status) : Window :=
  {| clip := clip w; clip_path := clip_path w; is_playing := is_playing w;
     preview_fps := preview_fps w; last_preview_time := last_preview_time w;
     play_start_sys := play_start_sys w; play_offset := play_offset w;
     timeline := timeline w;
     play_btn := play_btn w; status_label := s;
     current_time_label := current_time_label w;
     duration_label := duration_label w;
     start_label := start_label w; end_label := end_label w;
     calls := calls w |}.

Definition with_current_time_label (w : Window) (s : string) : Window :=
  {| clip := clip w; clip_path := clip_path w; is_playing := is_playing w;
     preview_fps := preview_fps w; last_preview_time := last_preview_time w;
     play_start_sys := play_start_sys w; play_offset := play_offset w;
     timeline := timeline w;
     play_btn := play_btn w; status_label := status_label w;
     current_time_label := s;
     duration_label := duration_label w;
     start_label := start_label w; end_label := end_label w;
     calls := calls w |}.

Definition with_marker_labels (w : Window) (s e : string) : Window :=
  {| clip := clip w; clip_path := clip_path w; is_playing := is_playing w;
     preview_fps := preview_fps w; last_preview_time := last_preview_time w;
     play_start_sys := play_start_sys w; play_offset := play_offset w;
     timeline := timeline w;
     play_btn := play_btn w; status_label := status_label w;
     current_time_label := current_time_label w;
     duration_label := duration_label w;
     start_label := s; end_label := e;
     calls := calls w |}.

Definition with_last_preview_time (w : Window) (t : Q) : Window :=
  {| clip := clip w; clip_path := clip_path w; is_playing := is_playing w;
     preview_fps := preview_fps w; last_preview_time := t;
     play_start_sys := play_start_sys w; play_offset := play_offset w;
     timeline := timeline w;
     play_btn := play_btn w; status_label := status_label w;
     current_time_label := current_time_label w;
     duration_label := duration_label w;
     start_label := start_label w; end_label := end_label w;
     calls := calls w |}.

Definition call (w : Window) (c : Call) : Window :=
  {| clip := clip w; clip_path := clip_path w; is_playing := is_playing w;
     preview_fps := preview_fps w; last_preview_time := last_preview_time w;
     play_start_sys := play_start_sys w; play_offset := play_offset w;
     timeline := timeline w;
     play_btn := play_btn w; status_label := status_label w;
     current_time_label := current_time_label w;
     duration_label := duration_label w;
     start_label := start_label w; end_label := end_label w;
     calls := c :: calls w |}.

(** *** Playback and seeking *)

Definition _update_ui_for_playhead (w : Window) : Window :=
  with_current_time_label w (sec_to_hms (Some (playhead (timeline w)))).

(** [_seek_to(sec)]; [now] is the value of [time.time()]. *)
Definition _seek_to (w : Window) (now sec : Q) : Window :=
  let sec :=
    Py.max 0 (Py.min (match clip w with Some c => duration c | None => 0 end) sec) in
  let w := with_timeline w (with_playhead (timeline w) sec) in
  let w := if is_playing w then with_playback w (is_playing w) (Some now) sec else w in
  _update_ui_for_playhead w.

Definition _start_playback_at (w : Window) (now start_sec : Q) : Window :=
  let w := with_playback w true (Some now) start_sec in
  with_status (with_play_btn w "Pause ❚❚") Playing.

(** [_pause_playback]; [now] and [now'] are the two readings of
    [time.time()] in [time.time() - (self._play_start_sys or time.time())]. *)
Definition _pause_playback (w : Window) (now now' : Q) : Window :=
  if negb (is_playing w) then w
  else
    let start :=
      match play_start_sys w with
      | Some s => if Qeq_bool s 0 then now' else s
      | None => now'
      end in
    let elapsed := now - start in
    let current := play_offset w + elapsed in
    let w := with_timeline w (with_playhead (timeline w) current) in
    let w := with_playback w false None (play_offset w) in
    with_status (with_play_btn w "Play ▶") Paused.

Definition play_pause (w : Window) (now now' : Q) : Window :=
  match clip w with
  | None => w
  | Some _ =>
      if is_playing w then _pause_playback w now now'
      else _start_playback_at w now (playhead (timeline w))
  end.

Definition stop (w : Window) : Window :=
  match clip w with
  | None => w
  | Some _ =>
      let w := with_playback w false None (play_offset w) in
      let w := with_timeline w (with_playhead (timeline w) 0) in
      let w := with_playback w false None 0 in
      _update_ui_for_playhead (with_play_btn w "Play ▶")
  end.

Definition step_by (w : Window) (now seconds : Q) : Window :=
  match clip w with
  | None => w
  | Some c =>
      let newt := playhead (timeline w) + seconds in
      let newt := Py.max 0 (Py.min (duration c) newt) in
      _seek_to w now newt
  end.

(** [_update_preview_frame]: the frame request is logged, the pixmap is not
    modelled. *)
Definition _update_preview_frame (w : Window) : Window :=
  let t := playhead (timeline w) in
  match clip w with
  | None => w
  | Some c =>
      let t := if Py.ltb t 0 then 0 else t in
      let t := if Py.ltb (duration c) t then duration c else t in
      _update_ui_for_playhead (call w (GetFrame t))
  end.

(** The rest of [_on_timer] after the playhead update: the preview, at most
    once per [1.0 / max(1, preview_fps)] seconds. *)
Definition timer_preview (w : Window) (now' : Q) : Window :=
  if Py.ltb (now' - last_preview_time w)
            (1 / inject_Z (if (1 <? preview_fps w)%Z then preview_fps w else 1%Z))
  then w
  else _update_preview_frame (with_last_preview_time w now').

(** The position the clock stands for when read at [now], for a playback
    started at [s]: [self._play_offset + (time.time() - self._play_start_sys)]. *)
Definition derived_position (w : Window) (s now : Q) : Q :=
  let elapsed := now - s in
  play_offset w + elapsed.

(** [_on_timer]; [now] and [now'] are its two readings of [time.time()]. *)
Definition _on_timer (w : Window) (now now' : Q) : Window :=
  match clip w with
  | None => w
  | Some c =>
      if is_playing w then
        match play_start_sys w with
        | Some s =>
            let current := derived_position w s now in
            if Py.leb (Py.min (duration c) (end_marker (timeline w))) current
            then stop w
            else timer_preview
                   (with_timeline w (with_playhead (timeline w) current)) now'
        | None => timer_preview w now'
        end
      else timer_preview w now'
  end.

Definition _slider_moved (w : Window) (now : Q) (value : Z) : Window :=
  match clip w with
  | None => w
  | Some _ => _seek_to w now (inject_Z value / 1000)
  end.

(** *** Range changes *)

Definition _on_range_changed (w : Window) (now start_sec end_sec : Q) : Window :=
  let w := with_marker_labels w
             ("Start: " ++ sec_to_hms (Some start_sec))
             ("End: " ++ sec_to_hms (Some end_sec)) in
  let w := with_timeline w
             (with_end_marker (with_start_marker (timeline w) start_sec) end_sec) in
  let w := if Py.ltb (playhead (timeline w)) start_sec
           then _seek_to w now start_sec else w in
  if Py.ltb end_sec (playhead (timeline w)) then _seek_to w now end_sec else w.

Definition _update_marker_labels (w : Window) : Window :=
  with_marker_labels w
    ("Start: " ++ sec_to_hms (Some (start_marker (timeline w))))
    ("End: " ++ sec_to_hms (Some (end_marker (timeline w)))).

(** *** Zoom control *)

Definition _zoom_changed (w : Window) (value : Z) : Window :=
  let minv := 40 in
  let maxv := 400 in
  let frac := inject_Z value / 100 in
  let pps := minv + (maxv - minv) * frac in
  with_timeline w (with_pps (timeline w) pps).

(** *** Loading, exporting and cutting *)

(** [load_clip(path)].  [lib] says whether [VideoFileClip] was imported and
    [opened] is what [VideoFileClip(path)] gives, [None] when it raises. *)
Definition load_clip (w : Window) (lib : bool) (path : string)
    (opened : option Clip) : Window :=
  if negb lib then call w (MsgCritical "Missing dependency")
  else
    let w := with_status w Loading in
    match opened with
    | None => with_status (call w (MsgCritical "Load error")) Ready
    | Some c =>
        let w :=
          {| clip := Some c; clip_path := Some path; is_playing := false;
             preview_fps := preview_fps w;
             last_preview_time := last_preview_time w;
             play_start_sys := None; play_offset := 0;
             timeline := set_clip_duration (timeline w) (duration c);
             play_btn := play_btn w;
             status_label := Loaded path (duration c);
             current_time_label := current_time_label w;
             duration_label := "/ " ++ sec_to_hms (Some (duration c));
             start_label := start_label w; end_label := end_label w;
             calls := calls w |} in
        let w := call w (GetFrame 0) in
        let tl := with_playhead (timeline w) 0 in
        let tl := with_start_marker tl 0 in
        let tl := with_end_marker tl (duration c) in
        _update_marker_labels (with_timeline w tl)
    end.

(** What the clip service does with an export. *)
Inductive ExportRun := SubclipRaises | WriteRaises | ExportDone.

Definition min_export_range : Q := 0.01.

(** [export_trimmed].  [save_path] is the answer of the save dialog (empty
    when cancelled) and [run] what the clip service does when asked. *)
Definition export_trimmed (w : Window) (save_path : string) (run : ExportRun)
    : Window :=
  match clip w with
  | None => call w (MsgInformation "No clip")
  | Some _ =>
      let start := start_marker (timeline w) in
      let end_ := end_marker (timeline w) in
      if Py.leb (end_ - start) min_export_range
      then call w (MsgWarning "Invalid range")
      else
        let w := call w SaveFileDialog in
        if (String.length save_path =? 0)%nat then w
        else
          let w := with_status w Exporting in
          let w := call w (Subclip start end_) in
          match run with
          | SubclipRaises =>
              with_status (call w (MsgCritical "Export error")) ExportFailed
          | WriteRaises =>
              let w := call w (WriteVideofile save_path) in
              with_status (call w (MsgCritical "Export error")) ExportFailed
          | ExportDone =>
              let w := call w (WriteVideofile save_path) in
              let w := with_status w (Exported save_path) in
              call w (MsgInformation "Export done")
          end
  end.

(** [cut_in_place]; [sub] is what [self.clip.subclip(start, end)] gives,
    [None] when it raises.  No control of the window is connected to it. *)
Definition cut_in_place (w : Window) (now : Q) (sub : option Clip) : Window :=
  match clip w with
  | None => w
  | Some _ =>
      let start := start_marker (timeline w) in
      let end_ := end_marker (timeline w) in
      if Py.leb end_ start then call w (MsgWarning "Invalid range")
      else
        let w := call w (Subclip start end_) in
        match sub with
        | None => call w (MsgCritical "Cut error")
        | Some c =>
            let w := call w CloseClip in
            let w :=
              {| clip := Some c; clip_path := None; is_playing := is_playing w;
                 preview_fps := preview_fps w;
                 last_preview_time := last_preview_time w;
                 play_start_sys := play_start_sys w;
                 play_offset := play_offset w;
                 timeline := set_clip_duration (timeline w) (duration c);
                 play_btn := play_btn w; status_label := CutApplied;
                 current_time_label := current_time_label w;
                 duration_label := "/ " ++ sec_to_hms (Some (duration c));
                 start_label := start_label w; end_label := end_label w;
                 calls := calls w |} in
            let w := with_timeline w (with_playhead (timeline w) 0) in
            _seek_to w now 0
        end
  end.

(** *** The window as a state machine

    The timeline's signals are connected to [_on_range_changed] and
    [_seek_to], so an emit runs the slot before the handler goes on. *)

Definition deliver (now : Q) (w : Window) (sg : Signal) : Window :=
  match sg with
  | range_changed s e => _on_range_changed w now s e
  | seek_requested t => _seek_to w now t
  end.

Definition dispatch (w : Window) (now : Q) (r : Timeline * list Signal) : Window :=
  fold_left (deliver now) (snd r) (with_timeline w (fst r)).

Inductive Event :=
| Press (x : Q)
| Move (x : Q)
| Release
| Wheel (delta : Z)
| ZoomSlider (value : Z)
| SeekSlider (value : Z)
| PlayPause
| Stop
| StepBy (seconds : Q)
| Timer
| Load (path : string) (opened : option Clip)
| Export (save_path : string) (run : ExportRun).

(** One event handled at clock reading [now]; [now'] is the later reading
    of the handlers that read the clock twice. *)
Definition step (w : Window) (now now' : Q) (ev : Event) : Window :=
  match ev with
  | Press x => dispatch w now (mousePressEvent (timeline w) x)
  | Move x => dispatch w now (mouseMoveEvent (timeline w) x)
  | Release => with_timeline w (mouseReleaseEvent (timeline w))
  | Wheel delta => with_timeline w (wheelEvent (timeline w) delta)
  | ZoomSlider value => _zoom_changed w value
  | SeekSlider value => _slider_moved w now value
  | PlayPause => play_pause w now now'
  | Stop => stop w
  | StepBy seconds => step_by w now seconds
  | Timer => _on_timer w now now'
  | Load path opened => load_clip w true path opened
  | Export save_path run => export_trimmed w save_path run
  end.

(** A session: events with the clock readings they are handled at. *)
Definition run (w : Window) (evs : list (Q * Q * Event)) : Window :=
  fold_left (fun w e => step w (fst (fst e)) (snd (fst e)) (snd e)) evs w.

(** * Predicates of the properties *)

(** Playback is not under way and no start instant is kept. *)
Definition stopped (w : Window) : Prop :=
  is_playing w = false /\ play_start_sys w = None.

(** What [_seek_to] writes. *)
Definition seek_target (w : Window) (sec : Q) : Q :=
  Py.max 0 (Py.min (match clip w with Some c => duration c | None => 0 end) sec).

(** The invariant of the markers: [0 <= S <= E <= D]. *)
Definition markers_ok (tl : Timeline) : Prop :=
  0 <= start_marker tl /\ start_marker tl <= end_marker tl /\
  end_marker tl <= clip_duration tl.

(** The clip and both markers are the same in [a] and [b]. *)
Definition same_range (a b : Timeline) : Prop :=
  clip_duration b = clip_duration a /\ start_marker b = start_marker a /\
  end_marker b = end_marker a.

(** The clips the clip service hands over have a duration [>= 0]. *)
Definition event_ok (ev : Event) : Prop :=
  match ev with
  | Load _ (Some c) => 0 <= duration c
  | _ => True
  end.

(** The duration the window clamps seeks with, [self.clip.duration if
    self.clip else 0.0], is the timeline's. *)
Definition clip_ok (w : Window) : Prop :=
  match clip w with
  | Some c => duration c == clip_duration (timeline w)
  | None => clip_duration (timeline w) == 0
  end.

(** What every event keeps: the order of the markers, the agreement of the
    two durations, an offset and a playhead [>= 0], and a positive start
    instant whenever playback is under way. *)
Definition inv (w : Window) : Prop :=
  markers_ok (timeline w) /\ clip_ok w /\
  0 <= play_offset w /\ 0 <= playhead (timeline w) /\
  (forall s, play_start_sys w = Some s -> 0 < s) /\
  (is_playing w = true -> play_start_sys w <> None).

(** The upper half of the playhead's invariant, [P <= D]. *)
Definition playhead_in_clip (w : Window) : Prop :=
  playhead (timeline w) <= clip_duration (timeline w).

(** The clock readings of one event: positive, in order, and not before the
    start of the playback under way. *)
Definition clock_ok (w : Window) (now now' : Q) : Prop :=
  0 < now /\ now <= now' /\
  (forall s, play_start_sys w = Some s -> s <= now).

(** The calls an export consists of. *)
Definition is_export_call (c : Call) : bool :=
  match c with
  | Subclip _ _ | WriteVideofile _ | SaveFileDialog => true
  | _ => false
  end.

(** Pixels per second of the layout in force: the zoom in fit mode, the
    scale that fills the usable width in scroll mode. *)
Definition effective_scale (tl : Timeline) : Q :=
  if fit_mode tl then pixels_per_second tl else scroll_scale tl.

(** The time one pixel stands for. *)
Definition pixel_seconds (tl : Timeline) : Q := 1 / effective_scale tl.

(** [r] is the first element of [l] whose key is minimal. *)
Definition first_min (key : Z -> Q) (l : list Z) (r : Z) : Prop :=
  exists pre post,
    l = pre ++ r :: post /\
    (forall y, In y pre -> key r < key y) /\
    (forall y, In y post -> key r <= key y).

(** The ticks of [k] rounds of the loop from time [t]. *)
Fixpoint ticks_from (tl : Timeline) (step : Q) (k : nat) (t : Q) : list Tick :=
  match k with
  | O => []
  | S k' => tick_at tl t :: ticks_from tl step k' (t + step)
  end.

(** * Sample sessions *)

(** A freshly loaded ten-second clip: S = P = 0, E = D = 10. *)
Definition loaded_10 : Window :=
  run (init_window 1300) [ (0, 0, Load "clip.mp4" (Some (mkClip 10))) ].

(** A ten-second clip with the start marker grabbed (press on pixel 50). *)
Definition dragging_start : Window :=
  run (init_window 1300)
      [ (0, 0, Load "clip.mp4" (Some (mkClip 10))); (1, 1, Press 50) ].

(** A ten-second clip with the start marker dragged to 1.0 s and the end
    marker to 1.005 s. *)
Definition short_range : Window :=
  run (init_window 1300)
      [ (0, 0, Load "clip.mp4" (Some (mkClip 10)));
        (1, 1, Press 50); (2, 2, Move 170); (3, 3, Release);
        (4, 4, Press 1250); (5, 5, Move 170.6); (6, 6, Release) ].

(** A ten-second clip in a 1300-pixel timeline (the clip box is the full
    1200 usable pixels), with the end marker dragged to 5 s and playback
    started from 0 at clock reading 100. *)
Definition playing_to_5 : Window :=
  run (init_window 1300)
      [ (0, 0, Load "clip.mp4" (Some (mkClip 10)));
        (1, 1, Press 1250); (2, 2, Move 650); (3, 3, Release);
        (100, 100, PlayPause) ].

(** A ten-second clip playing from offset 2 since clock reading 1000. *)
Definition playing_from_2 : Window :=
  run (init_window 1300)
      [ (0, 0, Load "clip.mp4" (Some (mkClip 10)));
        (1, 1, StepBy 1); (2, 2, StepBy 1);
        (1000, 1000, PlayPause) ].

(** A ten-second clip played from 9.95 s since clock reading 100, with a
    tick 40 ms later. *)
Definition playing_near_end : Window :=
  run (init_window 1300)
      [ (0, 0, Load "clip.mp4" (Some (mkClip 10)));
        (1, 1, SeekSlider 9950);
        (100, 100, PlayPause);
        (100.04, 100.04, Timer) ].

(** The default widget, 1100 pixels wide, showing a clip of 2e9 seconds:
    scroll mode, with a scale of 5e-7 pixels per second, below the 1e-6
    floor of [x_to_seconds]. *)
Definition very_long_clip : Timeline :=
  set_clip_duration (init_timeline 1100) 2000000000.

(** A clip of 125 s in a widget 636 pixels wide: scroll mode, 536 usable
    pixels, about 28 s of clip per 120 pixels. *)
Definition clip_125 : Timeline := set_clip_duration (init_timeline 636) 125.

(** A clip of half a second in the default layout. *)
Definition half_second_clip : Timeline :=
  set_clip_duration (init_timeline 1300) 0.5.

(** * Further predicates and samples *)

(** The pixel of time 0, [start_x] in both mappers: the left edge of the
    clip box, centred in fit mode and at the left padding in scroll mode. *)
Definition start_x (tl : Timeline) : Q :=
  if fit_mode tl then
    inject_Z (left_padding tl) + (inject_Z (usable tl) - total_width tl) / 2
  else inject_Z (left_padding tl).

(** The widget's geometry and the bounds of the zoom are the same in [a]
    and [b]. *)
Definition same_view (a b : Timeline) : Prop :=
  width b = width a /\ left_padding b = left_padding a /\
  right_padding b = right_padding a /\
  min_pps b = min_pps a /\ max_pps b = max_pps a.

(** The zoom is within the bounds [__init__] gives the widget. *)
Definition zoom_ok (tl : Timeline) : Prop :=
  min_pps tl = 40 /\ max_pps tl = 1000 /\
  40 <= pixels_per_second tl <= 1000.

(** The zoom slider is a [QSlider] of range 0..100. *)
Definition slider_ok (ev : Event) : Prop :=
  match ev with
  | ZoomSlider value => (0 <= value <= 100)%Z
  | _ => True
  end.

(** The clock readings of a session are in order, from [last] on. *)
Fixpoint clock_sorted (last : Q) (evs : list (Q * Q * Event)) : Prop :=
  match evs with
  | [] => True
  | (now, now', _) :: rest =>
      last <= now /\ now <= now' /\ clock_sorted now' rest
  end.

(** The playback under way, if any, started at or before [t]. *)
Definition started_before (w : Window) (t : Q) : Prop :=
  forall s, play_start_sys w = Some s -> s <= t.

(** No clip: nothing loaded, nothing playing, an empty timeline. *)
Definition empty_state (w : Window) : Prop :=
  clip w = None /\ is_playing w = false /\ play_start_sys w = None /\
  clip_duration (timeline w) == 0 /\ start_marker (timeline w) == 0 /\
  end_marker (timeline w) == 0 /\ playhead (timeline w) == 0.

(** The calls that need a clip: the clip service and the save dialog of an
    export. *)
Definition needs_clip (k : Call) : bool :=
  match k with
  | MsgInformation _ | MsgWarning _ | MsgCritical _ => false
  | _ => true
  end.

(** Any event but the loading of a clip that opens. *)
Definition not_loading (ev : Event) : Prop :=
  match ev with
  | Load _ (Some _) => False
  | _ => True
  end.

(** *** [paintEvent]: the clip box, its stripes and the selection *)

(** [clip_x]: the left edge of the clip box, centred with the truncated
    width [clip_w] in fit mode, at the left padding in scroll mode. *)
Definition clip_x (tl : Timeline) : Q :=
  if fit_mode tl then
    inject_Z (left_padding tl)
    + (inject_Z (usable tl) - inject_Z (clip_w tl)) / 2
  else inject_Z (left_padding tl).

(** [sel_w = max(2, end_x - start_x)], the width of the shaded range. *)
Definition sel_w (tl : Timeline) : Q :=
  Py.max 2 (seconds_to_x tl (end_marker tl) - seconds_to_x tl (start_marker tl)).

(** A stripe as [drawRect] gets it: its column and its width. *)
Record Stripe := mkStripe { stripe_x : Z; stripe_width : Z }.

Definition stripe_w : Z := 8.

(** [while x < clip_x + clip_w: drawRect(int(x), ...,
    int(min(stripe_w - 2, clip_x + clip_w - x)), ...); x += stripe_w + 10],
    with the number of iterations bounded by [fuel]. *)
Fixpoint stripe_loop (fuel : nat) (right x : Q) : option (list Stripe) :=
  match fuel with
  | O => None
  | S fuel' =>
      if Py.ltb x right then
        match stripe_loop fuel' right (x + inject_Z (stripe_w + 10)) with
        | Some r =>
            Some (mkStripe (Py.int x)
                           (Py.int (Py.min (inject_Z (stripe_w - 2)) (right - x)))
                  :: r)
        | None => None
        end
      else Some []
  end.

Definition paint_stripes (fuel : nat) (tl : Timeline) : option (list Stripe) :=
  stripe_loop fuel (clip_x tl + inject_Z (clip_w tl)) (clip_x tl).

(** A clip of 10.0004 s, whose seek slider ranges over 0..10001
    (ceil(D * 1000)), playing from 0 since clock reading 100. *)
Definition playing_10_0004 : Window :=
  run (init_window 1300)
      [ (0, 0, Load "clip.mp4" (Some (mkClip 10.0004)));
        (100, 100, PlayPause) ].

(** A ten-second clip with the start marker dragged to 3 s and released,
    and the playhead then put at 1 s by a click on pixel 170: P < S. *)
Definition start_past_playhead : Window :=
  run (init_window 1300)
      [ (0, 0, Load "clip.mp4" (Some (mkClip 10)));
        (1, 1, Press 50); (2, 2, Move 410); (3, 3, Release);
        (4, 4, Press 170) ].

(** * Properties *)

(** ** Comparisons, [min] and [max] *)

Lemma leb_iff x y : Py.leb x y = true <-> x <= y.
Proof. apply Qle_bool_iff. Qed.

Lemma leb_false x y : Py.leb x y = false <-> y < x.
Proof.
  unfold Py.leb. rewrite <- not_true_iff_false, Qle_bool_iff.
  split; intro H; [apply Qnot_le_lt | apply Qlt_not_le]; exact H.
Qed.

Lemma ltb_iff x y : Py.ltb x y = true <-> x < y.
Proof. unfold Py.ltb. rewrite negb_true_iff. apply leb_false. Qed.

Lemma ltb_false x y : Py.ltb x y = false <-> y <= x.
Proof. unfold Py.ltb. rewrite negb_false_iff. apply leb_iff. Qed.

Lemma min_cases a b :
  (b < a /\ Py.min a b = b) \/ (a <= b /\ Py.min a b = a).
Proof.
  unfold Py.min. destruct (Py.ltb b a) eqn:E.
  - left. split; [apply ltb_iff, E | reflexivity].
  - right. split; [apply ltb_false, E | reflexivity].
Qed.

Lemma max_cases a b :
  (a < b /\ Py.max a b = b) \/ (b <= a /\ Py.max a b = a).
Proof.
  unfold Py.max. destruct (Py.ltb a b) eqn:E.
  - left. split; [apply ltb_iff, E | reflexivity].
  - right. split; [apply ltb_false, E | reflexivity].
Qed.

(** Case analysis on every [min], [max] and comparison in sight, leaving
    linear arithmetic. *)
Ltac py_bool H :=
  first [ apply ltb_iff in H | apply ltb_false in H
        | apply leb_iff in H | apply leb_false in H ].

Ltac py_cases :=
  repeat match goal with
    | |- context [Py.min ?a ?b] =>
        let H := fresh "Hm" in let E := fresh "Em" in
        destruct (min_cases a b) as [[H E] | [H E]]; rewrite E in *; clear E
    | |- context [Py.max ?a ?b] =>
        let H := fresh "Hm" in let E := fresh "Em" in
        destruct (max_cases a b) as [[H E] | [H E]]; rewrite E in *; clear E
    | |- context [Py.ltb ?a ?b] =>
        let H := fresh "Hc" in destruct (Py.ltb a b) eqn:H; py_bool H
    | |- context [Py.leb ?a ?b] =>
        let H := fresh "Hc" in destruct (Py.leb a b) eqn:H; py_bool H
    end.

Lemma min_glb a b : Py.min a b <= a /\ Py.min a b <= b.
Proof. py_cases; split; lra. Qed.

Lemma max_lub a b : a <= Py.max a b /\ b <= Py.max a b.
Proof. py_cases; split; lra. Qed.

(** [max(lo, min(hi, x))] lands in [[lo, hi]] and fixes what is inside. *)
Lemma clamp_range lo hi x :
  lo <= hi -> lo <= Py.max lo (Py.min hi x) <= hi.
Proof. intros. py_cases; split; lra. Qed.

Lemma clamp_inside lo hi x :
  lo <= x <= hi -> Py.max lo (Py.min hi x) == x.
Proof. intros. py_cases; lra. Qed.

#[local] Instance ltb_comp : Proper (Qeq ==> Qeq ==> eq) Py.ltb.
Proof. intros a b Hab c d Hcd. unfold Py.ltb. rewrite Hab, Hcd. reflexivity. Qed.

#[local] Instance min_comp : Proper (Qeq ==> Qeq ==> Qeq) Py.min.
Proof.
  intros a b Hab c d Hcd. unfold Py.min. rewrite Hab, Hcd.
  destruct (Py.ltb d b); assumption.
Qed.

#[local] Instance max_comp : Proper (Qeq ==> Qeq ==> Qeq) Py.max.
Proof.
  intros a b Hab c d Hcd. unfold Py.max. rewrite Hab, Hcd.
  destruct (Py.ltb b d); assumption.
Qed.

(** Reduction of the record projections through the setters, and nothing
    else. *)
Ltac fields :=
  cbn [width clip_duration playhead start_marker end_marker left_padding
       right_padding dragging drag_offset pixels_per_second min_pps max_pps
       with_playhead with_start_marker with_end_marker with_drag with_pps
       set_clip_duration
       clip clip_path is_playing preview_fps last_preview_time play_start_sys
       play_offset timeline play_btn status_label current_time_label
       duration_label start_label end_label calls
       with_timeline with_playback with_play_btn with_status
       with_current_time_label with_marker_labels with_last_preview_time call
       _update_ui_for_playhead _update_marker_labels duration fst snd] in *.

Lemma seek_to_spec w now sec :
  let w' := _seek_to w now sec in
  clip w' = clip w /\ is_playing w' = is_playing w /\
  timeline w' = with_playhead (timeline w) (seek_target w sec) /\
  play_start_sys w' = (if is_playing w then Some now else play_start_sys w) /\
  play_offset w' = (if is_playing w then seek_target w sec else play_offset w).
Proof.
  unfold _seek_to, seek_target. fields.
  destruct (is_playing w) eqn:E; fields; rewrite ?E; auto.
Qed.

(** ** The playback clock *)

Lemma stop_resets w c :
  clip w = Some c ->
  stopped (stop w) /\ playhead (timeline (stop w)) = 0 /\ play_offset (stop w) = 0.
Proof. intros H. unfold stop, stopped. rewrite H. simpl. auto. Qed.

Lemma on_timer_past_out_point w c s now now' :
  clip w = Some c -> is_playing w = true -> play_start_sys w = Some s ->
  Py.min (duration c) (end_marker (timeline w)) <= derived_position w s now ->
  _on_timer w now now' = stop w.
Proof.
  intros Hc Hp Hs Hle. unfold _on_timer. rewrite Hc, Hp, Hs.
  apply leb_iff in Hle. rewrite Hle. reflexivity.
Qed.

(** C1, as the spec states it, fails: with offset 0, E = 5 <= D = 10 and the
    clock read 5 s (or more) after the start, the tick stops playback but
    leaves the playhead at 0, not at min(D, E) = 5. *)
Lemma C1_autostop_counterexample :
  clip playing_to_5 = Some (mkClip 10) /\
  is_playing playing_to_5 = true /\
  play_start_sys playing_to_5 = Some 100 /\
  play_offset playing_to_5 == 0 /\
  end_marker (timeline playing_to_5) == 5 /\
  derived_position playing_to_5 100 105 == 5 /\
  stopped (_on_timer playing_to_5 105 105) /\
  ~ playhead (timeline (_on_timer playing_to_5 105 105)) == 5 /\
  ~ playhead (timeline (_on_timer playing_to_5 105.5 106)) == 5.
Proof.
  repeat split; try reflexivity;
    intro H; vm_compute in H; discriminate.
Qed.

(** C1 (amended): a tick while playing whose derived position
    offset + (now - startInstant) is >= min(D, E) does what [stop] does:
    playback is stopped, and the playhead and the offset are reset to 0. *)
Theorem C1_autostop_resets_playhead w c s now now' :
  clip w = Some c -> is_playing w = true -> play_start_sys w = Some s ->
  Py.min (duration c) (end_marker (timeline w)) <= play_offset w + (now - s) ->
  let w' := _on_timer w now now' in
  w' = stop w /\ stopped w' /\
  playhead (timeline w') = 0 /\ play_offset w' = 0.
Proof.
  intros Hc Hp Hs Hle w'. subst w'.
  rewrite (on_timer_past_out_point w c s now now' Hc Hp Hs Hle).
  split; [reflexivity | apply (stop_resets w c Hc)].
Qed.

Lemma C1_autostop_witness :
  let w' := _on_timer playing_to_5 105 105 in
  w' = stop playing_to_5 /\ stopped w' /\
  playhead (timeline w') = 0 /\ play_offset w' = 0.
Proof.
  apply (C1_autostop_resets_playhead playing_to_5 (mkClip 10) 100 105 105);
    try reflexivity.
  vm_compute. discriminate.
Defined.

(** ** Seeking *)

(** C6, as the spec states it, fails for a seek past the end of the clip.
    With D = 10.0004 s the seek slider reaches 10001 = ceil(D * 1000), a
    seek to s = 10.001 s; while playing, the clock is re-anchored at the
    offset D = 10.0004, not at s, and the position derived 1 ms later is
    10.0014, not s + 0.001 = 10.002. *)
Lemma C6_seek_counterexample :
  clip playing_10_0004 = Some (mkClip 10.0004) /\
  is_playing playing_10_0004 = true /\
  Z.max 1 (Qceiling (10.0004 * 1000)) = 10001%Z /\
  (let w' := _seek_to playing_10_0004 101 10.001 in
   play_start_sys w' = Some 101 /\
   play_offset w' == 10.0004 /\
   ~ play_offset w' == 10.001 /\
   derived_position w' 101 101.001 == 10.0014 /\
   ~ derived_position w' 101 101.001 == 10.001 + (101.001 - 101)) /\
  (let w' := step playing_10_0004 101 101 (SeekSlider 10001) in
   play_start_sys w' = Some 101 /\
   play_offset w' == 10.0004 /\
   ~ play_offset w' == inject_Z 10001 / 1000).
Proof.
  repeat split; try reflexivity;
    intro H; vm_compute in H; discriminate.
Qed.

(** C6 (amended): a seek to [sec] while playing re-anchors the clock at the
    offset max(0, min(D, sec)), the target clamped into the clip, and at the
    start instant [now]; the position derived at any later reading [t] is
    that offset + (t - now), and that is where the next tick puts the
    playhead as long as it is before min(D, E).  The clamped target is
    [sec] itself for 0 <= sec <= D, 0 for sec <= 0 and D for sec >= D. *)
Theorem C6_seek_reanchors_clock w c now sec :
  clip w = Some c -> is_playing w = true ->
  let target := Py.max 0 (Py.min (duration c) sec) in
  let w' := _seek_to w now sec in
  is_playing w' = true /\
  play_start_sys w' = Some now /\
  play_offset w' = target /\
  playhead (timeline w') = target /\
  (forall t, derived_position w' now t == target + (t - now)) /\
  (forall t t', derived_position w' now t < Py.min (duration c) (end_marker (timeline w')) ->
                playhead (timeline (_on_timer w' t t')) == target + (t - now)) /\
  (0 <= sec <= duration c -> target == sec) /\
  (sec <= 0 -> target == 0) /\
  (0 <= duration c -> duration c <= sec -> target == duration c).
Proof.
  intros Hc Hp target w'.
  destruct (seek_to_spec w now sec) as (Hc' & Hp' & Htl & Hs' & Ho').
  fold w' in Hc', Hp', Htl, Hs', Ho'.
  rewrite Hp in Hp', Hs', Ho'. rewrite Hc in Hc'.
  assert (Ht : seek_target w sec = target)
    by (unfold seek_target; rewrite Hc; reflexivity).
  rewrite Ht in Htl, Ho'.
  assert (Hder : forall t, derived_position w' now t == target + (t - now))
    by (intro t; unfold derived_position; rewrite Ho'; reflexivity).
  refine (conj Hp' (conj Hs' (conj Ho' (conj _ (conj Hder
           (conj _ (conj _ (conj _ _)))))))).
  - rewrite Htl. reflexivity.
  - intros t t' Hlt.
    unfold _on_timer. rewrite Hc', Hp', Hs'.
    apply leb_false in Hlt. rewrite Hlt.
    unfold timer_preview, _update_preview_frame.
    destruct (Py.ltb _ _); fields; [ | rewrite Hc'; fields ]; apply Hder.
  - intros Hr. apply clamp_inside. exact Hr.
  - intros Hr. subst target. py_cases; lra.
  - intros H0 Hr. subst target. py_cases; lra.
Qed.

(** The spec's example: playing with offset 2 from T0 = 1000, a seek to 7.0
    at T0 + 1 makes the position at T0 + 1.001 equal to 7.001.  And a seek
    past the end of the ten-second clip, to 12.5, re-anchors at 10. *)
Lemma C6_seek_witness :
  play_offset playing_from_2 == 2 /\
  play_start_sys playing_from_2 = Some 1000 /\
  (let w' := _seek_to playing_from_2 1001 7 in
   derived_position w' 1001 1001.001 == 7.001 /\
   playhead (timeline (_on_timer w' 1001.001 1001.001)) == 7.001) /\
  play_offset (_seek_to playing_from_2 1001 12.5) == 10.
Proof.
  split; [reflexivity | split; [reflexivity | ]].
  split.
  - intro w'.
    destruct (C6_seek_reanchors_clock playing_from_2 (mkClip 10) 1001 7
                eq_refl eq_refl) as (_ & _ & _ & _ & Hd & Ht & Hin & _).
    assert (Hr : 0 <= 7 <= duration (mkClip 10))
      by (split; vm_compute; discriminate).
    fold w' in Hd, Ht. split.
    + rewrite (Hd 1001.001), (Hin Hr). reflexivity.
    + rewrite (Ht 1001.001 1001.001), (Hin Hr); [reflexivity | ].
      vm_compute. reflexivity.
  - destruct (C6_seek_reanchors_clock playing_from_2 (mkClip 10) 1001 12.5
                eq_refl eq_refl) as (_ & _ & Ho & _ & _ & _ & _ & _ & Hpast).
    rewrite Ho, Hpast; [reflexivity | | ]; vm_compute; discriminate.
Defined.

(** ** Time labels *)

Lemma Qfloor_div_Z t (k : positive) :
  Qfloor (t / inject_Z (Zpos k)) = (Qfloor t / Zpos k)%Z.
Proof.
  destruct t as [n d]. unfold Qfloor, Qdiv, Qmult, Qinv, inject_Z.
  cbn [Qnum Qden]. rewrite Z.mul_1_r, Pos2Z.inj_mul.
  symmetry. apply Zdiv_Zdiv; lia.
Qed.

Lemma Qfloor_sub_Z t (m : Z) : Qfloor (t - inject_Z m) = (Qfloor t - m)%Z.
Proof.
  destruct t as [n d]. unfold Qfloor, Qminus, Qplus, Qopp, inject_Z.
  cbn [Qnum Qden]. rewrite Z.mul_1_r, Pos.mul_1_r.
  replace (n + - m * Zpos d)%Z with (n + (- m) * Zpos d)%Z by lia.
  rewrite Z.div_add by lia. lia.
Qed.

Lemma int_of_Z (z : Z) : Py.int (inject_Z z) = z.
Proof.
  unfold Py.int. destruct (Py.ltb _ _); [apply Qceiling_Z | apply Qfloor_Z].
Qed.

Lemma int_floor x : (0 <= Qfloor x)%Z -> Py.int x = Qfloor x.
Proof.
  intro H. unfold Py.int.
  assert (Hx : 0 <= x).
  { apply Qle_trans with (inject_Z (Qfloor x)); [ | apply Qfloor_le ].
    change (inject_Z 0 <= inject_Z (Qfloor x)). rewrite <- Zle_Qle. exact H. }
  apply ltb_false in Hx. rewrite Hx. reflexivity.
Qed.

Lemma mod_floor t (k : positive) :
  Qfloor (Py.mod_ t (inject_Z (Zpos k))) = (Qfloor t mod Zpos k)%Z.
Proof.
  unfold Py.mod_. rewrite Qfloor_div_Z.
  change (inject_Z (Zpos k) * inject_Z (Qfloor t / Zpos k))
    with (inject_Z (Zpos k * (Qfloor t / Zpos k))).
  rewrite Qfloor_sub_Z. rewrite Z.mod_eq by lia. reflexivity.
Qed.

Lemma minutes_of_hour (n : Z) : (n mod 3600 / 60 = n / 60 mod 60)%Z.
Proof.
  change 3600%Z with (60 * 60)%Z. rewrite Z.rem_mul_r by lia.
  rewrite Z.mul_comm, Z.div_add by lia.
  rewrite Z.div_small by (apply Z.mod_pos_bound; lia). reflexivity.
Qed.

(** The three fields [sec_to_hms] prints for a time [t >= 0], in terms of
    the whole seconds [n] of [t]. *)
Lemma hms_fields t :
  0 <= t ->
  let n := Qfloor t in
  Py.int (Py.floordiv t 3600) = (n / 3600)%Z /\
  Py.int (Py.floordiv (Py.mod_ t 3600) 60) = (n / 60 mod 60)%Z /\
  Py.int (Py.mod_ t 60) = (n mod 60)%Z.
Proof.
  intros Ht n. unfold Py.floordiv. rewrite !int_of_Z.
  change 3600 with (inject_Z 3600). change 60 with (inject_Z 60).
  rewrite !Qfloor_div_Z, !mod_floor. fold n.
  repeat split.
  - apply minutes_of_hour.
  - rewrite int_floor; rewrite mod_floor; fold n; [reflexivity | ].
    apply Z.mod_pos_bound. lia.
Qed.

Lemma floor_nonneg t : 0 <= t -> (0 <= Qfloor t)%Z.
Proof.
  intro H. change 0%Z with (Qfloor 0). apply Qfloor_resp_le. exact H.
Qed.

Lemma floor_ge_Z t (k : Z) : inject_Z k <= t <-> (k <= Qfloor t)%Z.
Proof.
  split; intro H.
  - rewrite <- (Qfloor_Z k). apply Qfloor_resp_le. exact H.
  - apply Qle_trans with (inject_Z (Qfloor t)); [ | apply Qfloor_le ].
    rewrite <- Zle_Qle. exact H.
Qed.

Lemma sec_to_hms_of_floor t :
  0 <= t ->
  let n := Qfloor t in
  sec_to_hms (Some t) =
    (if (3600 <=? n)%Z
     then Py.str (n / 3600) ++ ":" ++ Py.str02 (n / 60 mod 60) ++ ":"
          ++ Py.str02 (n mod 60)
     else Py.str (n / 60 mod 60) ++ ":" ++ Py.str02 (n mod 60))%string.
Proof.
  intros Ht n. unfold sec_to_hms.
  assert (Hm : 0 <= Py.max 0 t) by (py_cases; lra).
  assert (He : Py.max 0 t == t) by (py_cases; lra).
  assert (Hf : Qfloor (Py.max 0 t) = n) by (apply Qfloor_comp; exact He).
  destruct (hms_fields (Py.max 0 t) Hm) as (Hh & Hmin & Hs).
  rewrite Hf in Hh, Hmin, Hs. cbv zeta. rewrite Hh, Hmin, Hs.
  assert (Hn : (0 <= n)%Z) by (apply floor_nonneg; exact Ht).
  destruct (3600 <=? n)%Z eqn:E.
  - apply Z.leb_le in E.
    assert (0 < n / 3600)%Z by (apply Z.div_str_pos; lia).
    destruct (0 <? n / 3600)%Z eqn:E'; [reflexivity | apply Z.ltb_ge in E'; lia].
  - apply Z.leb_gt in E.
    rewrite (Z.div_small n 3600) by lia. reflexivity.
Qed.

Lemma str02_two_digits (k : Z) :
  (0 <= k < 60)%Z -> String.length (Py.str02 k) = 2%nat.
Proof.
  intro H.
  assert (Hall : forallb (fun i => String.length (Py.str02 (Z.of_nat i)) =? 2)%nat
                         (seq 0 60) = true) by (vm_compute; reflexivity).
  rewrite forallb_forall in Hall.
  specialize (Hall (Z.to_nat k)). rewrite Z2Nat.id in Hall by lia.
  apply Nat.eqb_eq, Hall, in_seq. lia.
Qed.

(** C8: [sec_to_hms] prints "0:00" for [None] and for negative times; a
    time below one hour as M:SS and a time of one hour or more as H:MM:SS,
    where H, MM and SS are the hours, minutes and seconds of the whole
    seconds of [t] and MM, SS take two digits; with the four sample values
    of the spec. *)
Theorem C8_sec_to_hms_format :
  sec_to_hms None = "0:00"%string /\
  (forall t, t < 0 -> sec_to_hms (Some t) = "0:00"%string) /\
  (forall t, 0 <= t -> t < 3600 ->
     let n := Qfloor t in
     sec_to_hms (Some t) = (Py.str (n / 60) ++ ":" ++ Py.str02 (n mod 60))%string) /\
  (forall t, 3600 <= t ->
     let n := Qfloor t in
     sec_to_hms (Some t) =
       (Py.str (n / 3600) ++ ":" ++ Py.str02 (n / 60 mod 60) ++ ":"
        ++ Py.str02 (n mod 60))%string) /\
  (forall k, (0 <= k < 60)%Z -> String.length (Py.str02 k) = 2%nat) /\
  sec_to_hms (Some 0) = "0:00"%string /\
  sec_to_hms (Some 65) = "1:05"%string /\
  sec_to_hms (Some 3661) = "1:01:01"%string.
Proof.
  split; [reflexivity | ].
  split.
  { intros t Ht. unfold sec_to_hms.
    assert (E : Py.max 0 t = 0)
      by (unfold Py.max; apply Qlt_le_weak, ltb_false in Ht; rewrite Ht; reflexivity).
    rewrite E. reflexivity. }
  split.
  { intros t H0 H1 n. rewrite (sec_to_hms_of_floor t H0). fold n.
    assert (Hn : (0 <= n)%Z) by (apply floor_nonneg; exact H0).
    assert (Hlt : (n < 3600)%Z).
    { apply Z.lt_nge. intro Hc. apply (floor_ge_Z t 3600) in Hc.
      change (inject_Z 3600) with 3600 in Hc. lra. }
    apply Z.leb_gt in Hlt. rewrite Hlt.
    apply Z.leb_gt in Hlt.
    rewrite (Z.mod_small (n / 60) 60); [reflexivity | ].
    split; [apply Z.div_pos; lia | apply Z.div_lt_upper_bound; lia]. }
  split.
  { intros t H1 n.
    assert (H0 : 0 <= t) by lra.
    rewrite (sec_to_hms_of_floor t H0). fold n.
    assert (Hge : (3600 <= n)%Z) by (apply (floor_ge_Z t 3600); exact H1).
    apply Z.leb_le in Hge. rewrite Hge. reflexivity. }
  split; [exact str02_two_digits | ].
  repeat split; reflexivity.
Qed.

Lemma C8_sec_to_hms_witness :
  sec_to_hms (Some (-3)) = "0:00"%string /\
  sec_to_hms (Some 65.9) = "1:05"%string /\
  sec_to_hms (Some 3661.5) = "1:01:01"%string /\
  sec_to_hms (Some 3600) = "1:00:00"%string /\
  sec_to_hms (Some 3599.99) = "59:59"%string.
Proof.
  destruct C8_sec_to_hms_format as (_ & Hneg & Hms & Hhms & _).
  refine (conj _ (conj _ (conj _ (conj _ _)))).
  - apply Hneg. vm_compute. reflexivity.
  - rewrite Hms; [reflexivity | vm_compute; discriminate | vm_compute; reflexivity].
  - rewrite Hhms; [reflexivity | vm_compute; discriminate].
  - rewrite Hhms; [reflexivity | vm_compute; discriminate].
  - rewrite Hms; [reflexivity | vm_compute; discriminate | vm_compute; reflexivity].
Defined.

(** ** Pointer press *)

#[local] Instance seconds_to_x_comp tl : Proper (Qeq ==> Qeq) (seconds_to_x tl).
Proof.
  intros a b Hab. unfold seconds_to_x.
  destruct (fit_mode tl); rewrite Hab; reflexivity.
Qed.

Lemma Qabs_self_zero x y : x == y -> Qabs (x - y) <= hit_radius.
Proof.
  intro H. assert (E : x - y == 0) by lra. rewrite E. vm_compute. discriminate.
Qed.

(** C5: a press at pixel [x] tests the start marker, then the end marker,
    then the playhead, each within 10 px; the first hit enters its dragging
    state with offset x - matchedX and emits nothing.  Where the start marker
    and the playhead coincide, a press on them drags the start marker.  With
    no hit the press sets P = x_to_seconds(x), emits one seek request for it
    and leaves the dragging state as it was. *)
Theorem C5_press_priority tl x :
  let start_x := seconds_to_x tl (start_marker tl) in
  let end_x := seconds_to_x tl (end_marker tl) in
  let ph_x := seconds_to_x tl (playhead tl) in
  (Qabs (x - start_x) <= 10 ->
     mousePressEvent tl x = (with_drag tl (Some DragStart) (x - start_x), [])) /\
  (10 < Qabs (x - start_x) -> Qabs (x - end_x) <= 10 ->
     mousePressEvent tl x = (with_drag tl (Some DragEnd) (x - end_x), [])) /\
  (10 < Qabs (x - start_x) -> 10 < Qabs (x - end_x) -> Qabs (x - ph_x) <= 10 ->
     mousePressEvent tl x = (with_drag tl (Some DragPlayhead) (x - ph_x), [])) /\
  (10 < Qabs (x - start_x) -> 10 < Qabs (x - end_x) -> 10 < Qabs (x - ph_x) ->
     mousePressEvent tl x =
       (with_playhead tl (x_to_seconds tl x), [seek_requested (x_to_seconds tl x)]) /\
     dragging (fst (mousePressEvent tl x)) = dragging tl /\
     playhead (fst (mousePressEvent tl x)) = x_to_seconds tl x) /\
  (start_marker tl == playhead tl -> x == ph_x ->
     dragging (fst (mousePressEvent tl x)) = Some DragStart).
Proof.
  intros start_x end_x ph_x. unfold mousePressEvent. fold start_x end_x ph_x.
  change hit_radius with 10.
  repeat match goal with |- _ /\ _ => split end.
  - intro H1. apply leb_iff in H1. rewrite H1. reflexivity.
  - intros H1 H2. apply leb_false in H1. apply leb_iff in H2.
    rewrite H1, H2. reflexivity.
  - intros H1 H2 H3. apply leb_false in H1. apply leb_false in H2.
    apply leb_iff in H3. rewrite H1, H2, H3. reflexivity.
  - intros H1 H2 H3. apply leb_false in H1. apply leb_false in H2.
    apply leb_false in H3. rewrite H1, H2, H3. auto.
  - intros HSP Hx.
    assert (H1 : Qabs (x - start_x) <= 10).
    { apply Qabs_self_zero. rewrite Hx. subst start_x ph_x.
      rewrite HSP. reflexivity. }
    apply leb_iff in H1. rewrite H1. reflexivity.
Qed.

(** The spec's case: with S = P = 0, a press on their pixel (x = 50 here)
    drags the start marker. *)
Lemma C5_press_witness :
  let tl := timeline loaded_10 in
  start_marker tl == 0 /\ playhead tl == 0 /\ seconds_to_x tl 0 == 50 /\
  mousePressEvent tl 50 =
    (with_drag tl (Some DragStart) (50 - seconds_to_x tl (start_marker tl)), []) /\
  dragging (fst (mousePressEvent tl 50)) = Some DragStart /\
  mousePressEvent tl 640 =
    (with_playhead tl (x_to_seconds tl 640), [seek_requested (x_to_seconds tl 640)]).
Proof.
  intro tl.
  destruct (C5_press_priority tl 50) as (H1 & _ & _ & _ & H5).
  destruct (C5_press_priority tl 640) as (_ & _ & _ & H4 & _).
  refine (conj _ (conj _ (conj _ (conj _ (conj _ _))))).
  - reflexivity.
  - reflexivity.
  - reflexivity.
  - apply H1. vm_compute. discriminate.
  - apply H5; reflexivity.
  - apply H4; vm_compute; reflexivity.
Defined.

(** ** Zoom *)

(** C7: a wheel step with positive delta sets pps to
    min(max_pps, pps * 1.15), any other step to max(min_pps, pps / 1.15), so
    a zoom between the bounds stays between them; the slider value [v] sets
    pps to 40 + 360 * v / 100, which runs from 40 at 0 to 400 at 100.  Both
    write [pixels_per_second] and nothing else: S, E and P keep their
    values. *)
Theorem C7_zoom_only_changes_pps :
  (forall tl delta,
     wheelEvent tl delta =
       with_pps tl (if (0 <? delta)%Z
                    then Py.min (max_pps tl) (pixels_per_second tl * 1.15)
                    else Py.max (min_pps tl) (pixels_per_second tl / 1.15)) /\
     start_marker (wheelEvent tl delta) = start_marker tl /\
     end_marker (wheelEvent tl delta) = end_marker tl /\
     playhead (wheelEvent tl delta) = playhead tl) /\
  (forall tl delta,
     0 <= min_pps tl -> min_pps tl <= pixels_per_second tl ->
     pixels_per_second tl <= max_pps tl ->
     min_pps tl <= pixels_per_second (wheelEvent tl delta) <= max_pps tl) /\
  (forall w value,
     _zoom_changed w value =
       with_timeline w (with_pps (timeline w)
                          (40 + (400 - 40) * (inject_Z value / 100))) /\
     start_marker (timeline (_zoom_changed w value)) = start_marker (timeline w) /\
     end_marker (timeline (_zoom_changed w value)) = end_marker (timeline w) /\
     playhead (timeline (_zoom_changed w value)) = playhead (timeline w)) /\
  (forall w value,
     (0 <= value <= 100)%Z ->
     40 <= pixels_per_second (timeline (_zoom_changed w value)) <= 400) /\
  (forall w, pixels_per_second (timeline (_zoom_changed w 0)) == 40) /\
  (forall w, pixels_per_second (timeline (_zoom_changed w 100)) == 400).
Proof.
  repeat match goal with |- _ /\ _ => split end.
  - intros tl delta. unfold wheelEvent.
    destruct (0 <? delta)%Z; auto.
  - intros tl delta H0 H1 H2. unfold wheelEvent, zoom_factor.
    assert (Hd : pixels_per_second tl / 1.15 <= pixels_per_second tl).
    { apply Qle_shift_div_r; [reflexivity | lra]. }
    destruct (0 <? delta)%Z; fields; py_cases; split; lra.
  - intros w value. unfold _zoom_changed. auto.
  - intros w value [H0 H1]. unfold _zoom_changed. fields.
    assert (Hv : 0 <= inject_Z value <= 100).
    { split; [change 0 with (inject_Z 0) | change 100 with (inject_Z 100)];
        rewrite <- Zle_Qle; assumption. }
    assert (E : inject_Z value / 100 == inject_Z value * (1 # 100)) by reflexivity.
    rewrite E. split; lra.
  - intro w. reflexivity.
  - intro w. reflexivity.
Qed.

Lemma C7_zoom_witness :
  let tl := init_timeline 1300 in
  pixels_per_second (wheelEvent tl 120) == 138 /\
  min_pps tl <= pixels_per_second (wheelEvent tl 120) <= max_pps tl /\
  min_pps tl <= pixels_per_second (wheelEvent tl (-120)) <= max_pps tl /\
  40 <= pixels_per_second (timeline (_zoom_changed (init_window 1300) 28)) <= 400.
Proof.
  intro tl.
  destruct C7_zoom_only_changes_pps as (_ & Hw & _ & Hs & _).
  refine (conj _ (conj _ (conj _ _))).
  - reflexivity.
  - apply Hw; vm_compute; discriminate.
  - apply Hw; vm_compute; discriminate.
  - apply Hs. lia.
Defined.

(** ** Export guard *)

(** C9: with a clip loaded and E - S below 0.01 s, [export_trimmed] only
    shows the "Invalid range" warning: it asks for no file name and issues no
    subclip or write call, and the clip, the timeline (markers included), the
    playback fields and the status are what they were. *)
Theorem C9_export_rejects_short_range w c save_path run_ :
  clip w = Some c ->
  end_marker (timeline w) - start_marker (timeline w) < 0.01 ->
  let w' := export_trimmed w save_path run_ in
  w' = call w (MsgWarning "Invalid range") /\
  calls w' = MsgWarning "Invalid range" :: calls w /\
  (forall k, In k (calls w') -> is_export_call k = true -> In k (calls w)) /\
  clip w' = clip w /\ timeline w' = timeline w /\
  status_label w' = status_label w /\
  is_playing w' = is_playing w /\ play_offset w' = play_offset w /\
  play_start_sys w' = play_start_sys w.
Proof.
  intros Hc Hlt w'.
  assert (E : w' = call w (MsgWarning "Invalid range")).
  { subst w'. unfold export_trimmed. rewrite Hc. change min_export_range with 0.01.
    apply Qlt_le_weak, leb_iff in Hlt. rewrite Hlt. reflexivity. }
  rewrite E. fields. repeat match goal with |- _ /\ _ => split end; trivial.
  intros k [Hk | Hk] Hx; [subst k; discriminate | exact Hk].
Qed.

(** The spec's case, S = 1.0 and E = 1.005. *)
Lemma C9_export_witness :
  start_marker (timeline short_range) == 1.0 /\
  end_marker (timeline short_range) == 1.005 /\
  export_trimmed short_range "out.mp4" ExportDone
    = call short_range (MsgWarning "Invalid range") /\
  timeline (export_trimmed short_range "out.mp4" ExportDone) = timeline short_range.
Proof.
  assert (Hlt : end_marker (timeline short_range)
                - start_marker (timeline short_range) < 0.01)
    by (vm_compute; reflexivity).
  destruct (C9_export_rejects_short_range short_range (mkClip 10) "out.mp4"
              ExportDone eq_refl Hlt) as (H1 & _ & _ & _ & H5 & _).
  refine (conj _ (conj _ (conj H1 H5))); reflexivity.
Defined.

(** ** The coordinate mapper *)

(** C3, as the spec states it, fails for a scale below the floor: the end of
    the clip maps to pixel 1050, which maps back to 1e9 s, half the clip
    away, while one pixel stands for 2e6 s. *)
Lemma C3_roundtrip_counterexample :
  let tl := very_long_clip in
  let t := 2000000000 in
  0 <= t <= clip_duration tl /\
  fit_mode tl = false /\
  pixels_per_second tl == 120 /\
  seconds_to_x tl t == 1050 /\
  x_to_seconds tl (seconds_to_x tl t) == 1000000000 /\
  pixel_seconds tl == 2000000 /\
  ~ Qabs (x_to_seconds tl (seconds_to_x tl t) - t) <= pixel_seconds tl.
Proof.
  cbv zeta. repeat match goal with |- _ /\ _ => split end;
    try reflexivity; try (vm_compute; discriminate).
  intro H. vm_compute in H. apply H. reflexivity.
Qed.

Lemma roundtrip_scale (a t p : Q) :
  eps6 <= p -> (a + t * p - a) / Py.max eps6 p == t.
Proof.
  intro Hp. assert (H0 : 0 < eps6) by reflexivity.
  destruct (max_cases eps6 p) as [[H E] | [H E]]; rewrite E.
  - field. lra.
  - assert (Ep : p == eps6) by lra. rewrite Ep. field. lra.
Qed.

(** C3 (amended): when the scale of the layout in force (pps in fit mode,
    usable / D in scroll mode) is at least the 1e-6 floor [x_to_seconds]
    divides by, every t in [0, D] comes back from
    x_to_seconds(seconds_to_x(t)) as t itself, for any width, paddings and
    zoom, so well within the time of one pixel. *)
Theorem C3_roundtrip tl t :
  0 <= t <= clip_duration tl ->
  eps6 <= effective_scale tl ->
  x_to_seconds tl (seconds_to_x tl t) == t /\
  Qabs (x_to_seconds tl (seconds_to_x tl t) - t) <= pixel_seconds tl.
Proof.
  intros Ht Hs.
  assert (Hrt : x_to_seconds tl (seconds_to_x tl t) == t).
  { unfold effective_scale in Hs. unfold x_to_seconds, seconds_to_x.
    destruct (fit_mode tl).
    - cbv zeta. rewrite (roundtrip_scale _ t _ Hs). apply clamp_inside.
      lra.
    - cbv zeta. rewrite (roundtrip_scale _ t _ Hs). apply clamp_inside.
      lra. }
  split; [exact Hrt | ].
  assert (E : x_to_seconds tl (seconds_to_x tl t) - t == 0) by lra.
  rewrite E. unfold pixel_seconds.
  apply Qle_shift_div_l.
  - apply Qlt_le_trans with eps6; [reflexivity | exact Hs].
  - vm_compute. discriminate.
Qed.


Lemma C3_roundtrip_witness :
  let fit := timeline loaded_10 in
  let scroll := set_clip_duration (init_timeline 1300) 125 in
  (fit_mode fit = true /\ x_to_seconds fit (seconds_to_x fit 5) == 5) /\
  (fit_mode scroll = false /\ x_to_seconds scroll (seconds_to_x scroll 100) == 100).
Proof.
  intros fit scroll. split; (split; [reflexivity | ]).
  - apply (C3_roundtrip fit 5); [split | ]; vm_compute; discriminate.
  - apply (C3_roundtrip scroll 100); [split | ]; vm_compute; discriminate.
Defined.

(** ** The markers *)

Lemma same_range_ok a b : same_range a b -> markers_ok a -> markers_ok b.
Proof. unfold same_range, markers_ok. intros (-> & -> & ->). trivial. Qed.

Lemma same_range_refl a : same_range a a.
Proof. unfold same_range. auto. Qed.

Lemma same_range_trans a b c : same_range a b -> same_range b c -> same_range a c.
Proof. unfold same_range. intros (? & ? & ?) (? & ? & ?). repeat split; congruence. Qed.

(** Splits every conditional of a handler. *)
Ltac branches :=
  repeat match goal with
    | |- context [match ?x with _ => _ end] => destruct x eqn:?
    end.

Lemma seek_to_range w now sec :
  same_range (timeline w) (timeline (_seek_to w now sec)).
Proof.
  destruct (seek_to_spec w now sec) as (_ & _ & -> & _). unfold same_range. auto.
Qed.

Lemma move_seconds_range tl x :
  0 <= clip_duration tl -> 0 <= move_seconds tl x <= clip_duration tl.
Proof. intro H. unfold move_seconds. apply clamp_range. exact H. Qed.

Lemma mouseMove_markers tl x :
  markers_ok tl ->
  let tl' := fst (mouseMoveEvent tl x) in
  markers_ok tl' /\ clip_duration tl' = clip_duration tl /\
  (dragging tl = Some DragStart ->
     start_marker tl' = Py.min (move_seconds tl x) (end_marker tl) /\
     end_marker tl' = end_marker tl /\
     0 <= start_marker tl' <= end_marker tl) /\
  (dragging tl = Some DragEnd ->
     end_marker tl' = Py.max (move_seconds tl x) (start_marker tl) /\
     start_marker tl' = start_marker tl /\
     start_marker tl <= end_marker tl' <= clip_duration tl) /\
  (dragging tl <> Some DragStart -> start_marker tl' = start_marker tl) /\
  (dragging tl <> Some DragEnd -> end_marker tl' = end_marker tl).
Proof.
  intros (H0 & H1 & H2) tl'. subst tl'. unfold mouseMoveEvent, markers_ok.
  assert (HD : 0 <= clip_duration tl) by lra.
  pose proof (move_seconds_range tl x HD) as [Hs0 Hs1].
  destruct (dragging tl) as [[ | | ] | ]; fields;
    (repeat match goal with |- _ /\ _ => split end);
    try discriminate; try congruence; try tauto; try lra;
    intros; (repeat match goal with |- _ /\ _ => split end);
    try reflexivity; py_cases; lra.
Qed.

(** ** Invariants of the window *)

Lemma seek_target_range w sec :
  markers_ok (timeline w) -> clip_ok w ->
  0 <= seek_target w sec <= clip_duration (timeline w).
Proof.
  intros (H0 & H1 & H2) Hc. unfold seek_target, clip_ok in *.
  destruct (clip w) as [c | ]; py_cases; split; lra.
Qed.

Lemma seek_target_inside w sec :
  markers_ok (timeline w) -> clip_ok w ->
  0 <= sec <= clip_duration (timeline w) -> seek_target w sec == sec.
Proof.
  intros (H0 & H1 & H2) Hc Hs. unfold seek_target, clip_ok in *.
  destruct (clip w) as [c | ]; py_cases; lra.
Qed.

Lemma seek_to_inv w now sec :
  inv w -> 0 < now ->
  inv (_seek_to w now sec) /\ playhead_in_clip (_seek_to w now sec).
Proof.
  intros (Hm & Hc & Ho & Hp & Hs & Hpl) Hnow.
  destruct (seek_to_spec w now sec) as (Ec & Ep & Et & Es & Eo).
  pose proof (seek_target_range w sec Hm Hc) as [Hr0 Hr1].
  unfold inv, playhead_in_clip, clip_ok, markers_ok in *.
  rewrite Ec, Ep, Et, Es, Eo. fields.
  repeat match goal with |- _ /\ _ => split end; try tauto.
  - destruct (is_playing w); assumption.
  - intro s. destruct (is_playing w); [ | apply Hs].
    intro E. injection E as <-. exact Hnow.
  - destruct (is_playing w); [discriminate | exact Hpl].
Qed.

Lemma seek_to_playhead w now sec :
  markers_ok (timeline w) -> clip_ok w ->
  0 <= sec <= clip_duration (timeline w) ->
  playhead (timeline (_seek_to w now sec)) == sec.
Proof.
  intros Hm Hc Hs. destruct (seek_to_spec w now sec) as (_ & _ & -> & _).
  fields. apply seek_target_inside; assumption.
Qed.

(** [_on_range_changed] with a range inside the clip: the markers are the
    arguments, and a playhead outside the range moves to the bound it
    passed. *)
Lemma on_range_changed_inv w now s e :
  inv w -> 0 < now ->
  0 <= s -> s <= e -> e <= clip_duration (timeline w) ->
  let w' := _on_range_changed w now s e in
  inv w' /\
  clip_duration (timeline w') = clip_duration (timeline w) /\
  start_marker (timeline w') = s /\ end_marker (timeline w') = e /\
  (playhead_in_clip w -> playhead_in_clip w') /\
  (playhead (timeline w) < s -> playhead (timeline w') == s) /\
  (e < playhead (timeline w) -> playhead (timeline w') == e) /\
  (s <= playhead (timeline w) <= e ->
     playhead (timeline w') = playhead (timeline w)).
Proof.
  intros Hinv Hnow H0 H1 H2. unfold _on_range_changed.
  set (w1 := with_timeline _ _).
  assert (Hp1 : playhead (timeline w1) = playhead (timeline w)) by reflexivity.
  assert (Hd1 : clip_duration (timeline w1) = clip_duration (timeline w))
    by reflexivity.
  assert (Hs1 : start_marker (timeline w1) = s) by reflexivity.
  assert (He1 : end_marker (timeline w1) = e) by reflexivity.
  assert (Hi1 : inv w1).
  { destruct Hinv as (Hm & Hc & Ho & Hp & Hs & Hpl).
    unfold inv, markers_ok, clip_ok in *. subst w1. fields. tauto. }
  clearbody w1. cbv zeta.
  set (w2 := if Py.ltb (playhead (timeline w1)) s then _ else _).
  assert (Hr1 : same_range (timeline w1) (timeline w2)).
  { subst w2. destruct (Py.ltb _ _);
      [apply seek_to_range | apply same_range_refl]. }
  assert (Hi2 : inv w2 /\ (playhead_in_clip w1 -> playhead_in_clip w2)).
  { subst w2. destruct (Py.ltb _ _); [ | tauto].
    destruct (seek_to_inv w1 now s Hi1 Hnow). tauto. }
  assert (Hp2 : (playhead (timeline w1) < s -> playhead (timeline w2) == s) /\
                (s <= playhead (timeline w1) ->
                 playhead (timeline w2) = playhead (timeline w1))).
  { subst w2. destruct (Py.ltb _ _) eqn:E; py_bool E.
    - split; [ | lra]. intros _.
      destruct Hi1 as (Hm & Hc & _). apply seek_to_playhead; trivial.
      rewrite Hd1. lra.
    - split; [lra | reflexivity]. }
  clearbody w2. destruct Hr1 as (Hd2 & Hs2 & He2).
  destruct Hi2 as [Hi2 Hin2]. destruct Hp2 as [Hlt2 Hge2].
  set (w3 := if Py.ltb e (playhead (timeline w2)) then _ else _).
  assert (Hr2 : same_range (timeline w2) (timeline w3)).
  { subst w3. destruct (Py.ltb _ _);
      [apply seek_to_range | apply same_range_refl]. }
  assert (Hi3 : inv w3 /\ (playhead_in_clip w2 -> playhead_in_clip w3)).
  { subst w3. destruct (Py.ltb _ _); [ | tauto].
    destruct (seek_to_inv w2 now e Hi2 Hnow). tauto. }
  assert (Hp3 : (e < playhead (timeline w2) -> playhead (timeline w3) == e) /\
                (playhead (timeline w2) <= e ->
                 playhead (timeline w3) = playhead (timeline w2))).
  { subst w3. destruct (Py.ltb _ _) eqn:E; py_bool E.
    - split; [ | lra]. intros _.
      destruct Hi2 as (Hm & Hc & Ho & Hp & _). apply seek_to_playhead; trivial.
      rewrite Hd2, Hd1. lra.
    - split; [lra | reflexivity]. }
  clearbody w3. destruct Hr2 as (Hd3 & Hs3 & He3).
  destruct Hi3 as [Hi3 Hin3]. destruct Hp3 as [Hgt3 Hle3].
  unfold playhead_in_clip in *. rewrite Hp1, Hd1 in *.
  repeat match goal with |- _ /\ _ => split end; try congruence; try tauto.
  - intro Hlt. rewrite Hle3; [apply Hlt2, Hlt | ]. rewrite (Hlt2 Hlt). exact H1.
  - intro Hgt. apply Hgt3. rewrite Hge2; lra.
  - intros [Ha Hb]. rewrite Hle3; rewrite Hge2; trivial.
Qed.

Lemma x_to_seconds_range tl x :
  0 <= clip_duration tl -> 0 <= x_to_seconds tl x <= clip_duration tl.
Proof.
  intro H. unfold x_to_seconds.
  destruct (fit_mode tl); cbv zeta; apply clamp_range; exact H.
Qed.

(** Invariants through a change of the timeline that keeps the clip and
    the markers. *)
Lemma with_timeline_inv w tl' :
  inv w -> same_range (timeline w) tl' -> 0 <= playhead tl' ->
  inv (with_timeline w tl').
Proof.
  intros (Hm & Hc & Ho & Hp & Hs & Hpl) (Ed & Es & Ee) Hp'.
  unfold inv, markers_ok, clip_ok in *. fields. rewrite Ed, Es, Ee. tauto.
Qed.

Ltac frame := unfold same_range; fields; auto.

Lemma press_inv w now x :
  inv w -> 0 < now ->
  let w' := dispatch w now (mousePressEvent (timeline w) x) in
  inv w' /\ same_range (timeline w) (timeline w') /\
  (playhead_in_clip w -> playhead_in_clip w').
Proof.
  intros Hinv Hnow.
  assert (Hdrag : forall d off,
    let w' := dispatch w now (with_drag (timeline w) d off, []) in
    inv w' /\ same_range (timeline w) (timeline w') /\
    (playhead_in_clip w -> playhead_in_clip w')).
  { intros d off. unfold dispatch. cbn [fold_left fst snd].
    split; [ | split; [frame | trivial]].
    apply with_timeline_inv; [exact Hinv | frame | ].
    destruct Hinv as (_ & _ & _ & Hp & _). exact Hp. }
  unfold mousePressEvent.
  destruct (Py.leb _ _); [apply Hdrag | ].
  destruct (Py.leb _ _); [apply Hdrag | ].
  destruct (Py.leb _ _); [apply Hdrag | ].
  unfold dispatch. cbn [fold_left fst snd deliver].
  set (t := x_to_seconds (timeline w) x).
  assert (Ht : 0 <= t <= clip_duration (timeline w)).
  { apply x_to_seconds_range. destruct Hinv as ((? & ? & ?) & _). lra. }
  assert (Hi : inv (with_timeline w (with_playhead (timeline w) t))).
  { apply with_timeline_inv; [exact Hinv | frame | apply Ht]. }
  destruct (seek_to_inv _ now t Hi Hnow) as [Hi' Hin'].
  split; [exact Hi' | split; [ | intros _; exact Hin']].
  apply (seek_to_range (with_timeline w (with_playhead (timeline w) t))).
Qed.

Lemma move_inv w now x :
  inv w -> 0 < now ->
  let w' := dispatch w now (mouseMoveEvent (timeline w) x) in
  inv w' /\ (playhead_in_clip w -> playhead_in_clip w').
Proof.
  intros Hinv Hnow.
  pose proof Hinv as (Hm & Hc & Ho & Hp & Hs & Hpl).
  pose proof (mouseMove_markers (timeline w) x Hm) as (Hm' & Hd' & _).
  assert (HD : 0 <= clip_duration (timeline w))
    by (destruct Hm as (? & ? & ?); lra).
  pose proof (move_seconds_range (timeline w) x HD) as Hsec.
  revert Hm' Hd'. unfold mouseMoveEvent.
  destruct (dragging (timeline w)) as [[ | | ] | ];
    cbv zeta; cbn [fst]; intros Hm' Hd';
    unfold dispatch; cbn [fold_left fst snd deliver].
  - set (tl' := with_start_marker _ _) in *.
    assert (Hi : inv (with_timeline w tl')).
    { unfold inv, clip_ok in *. fields. tauto. }
    destruct Hm' as (M0 & M1 & M2).
    destruct (on_range_changed_inv (with_timeline w tl') now
                (start_marker tl') (end_marker tl') Hi Hnow M0 M1 M2)
      as (Hi' & Ed & Es & Ee & Hin & _).
    split; [exact Hi' | exact Hin].
  - set (tl' := with_end_marker _ _) in *.
    assert (Hi : inv (with_timeline w tl')).
    { unfold inv, clip_ok in *. fields. tauto. }
    destruct Hm' as (M0 & M1 & M2).
    destruct (on_range_changed_inv (with_timeline w tl') now
                (start_marker tl') (end_marker tl') Hi Hnow M0 M1 M2)
      as (Hi' & Ed & Es & Ee & Hin & _).
    split; [exact Hi' | exact Hin].
  - set (t := move_seconds (timeline w) x) in *.
    assert (Hi : inv (with_timeline w (with_playhead (timeline w) t))).
    { apply with_timeline_inv; [exact Hinv | frame | apply Hsec]. }
    destruct (seek_to_inv _ now t Hi Hnow) as [Hi' Hin'].
    split; [exact Hi' | intros _; exact Hin'].
  - split; [ | trivial].
    apply with_timeline_inv; [exact Hinv | apply same_range_refl | exact Hp].
Qed.

(** A handler that leaves the timeline and the playback fields alone. *)
Lemma inv_frame w w' :
  inv w ->
  timeline w' = timeline w -> clip w' = clip w ->
  play_offset w' = play_offset w -> play_start_sys w' = play_start_sys w ->
  is_playing w' = is_playing w ->
  inv w' /\ same_range (timeline w) (timeline w') /\
  (playhead_in_clip w -> playhead_in_clip w').
Proof.
  intros Hinv Et Ec Eo Es Ep.
  unfold inv, clip_ok, playhead_in_clip, same_range in *.
  rewrite Et, Ec, Eo, Es, Ep. tauto.
Qed.

Lemma stop_inv w :
  inv w ->
  inv (stop w) /\ same_range (timeline w) (timeline (stop w)) /\
  (playhead_in_clip w -> playhead_in_clip (stop w)).
Proof.
  intros Hinv. unfold stop. destruct (clip w) as [c | ] eqn:Ec.
  - destruct Hinv as (Hm & Hc & Ho & Hp & Hs & Hpl).
    unfold inv, clip_ok, playhead_in_clip, same_range, markers_ok in *.
    fields. rewrite Ec in *.
    repeat match goal with |- _ /\ _ => split end;
      try tauto; try lra; try discriminate.
  - apply inv_frame; trivial.
Qed.

Lemma start_playback_inv w now :
  inv w -> 0 < now ->
  let w' := _start_playback_at w now (playhead (timeline w)) in
  inv w' /\ same_range (timeline w) (timeline w') /\
  (playhead_in_clip w -> playhead_in_clip w').
Proof.
  intros (Hm & Hc & Ho & Hp & Hs & Hpl) Hnow.
  unfold _start_playback_at, inv, clip_ok, playhead_in_clip, same_range in *.
  fields. repeat match goal with |- _ /\ _ => split end; try tauto.
  - intros s E. injection E as <-. exact Hnow.
  - discriminate.
Qed.

(** What a pause writes into the playhead, for a playback started at [s]. *)
Lemma pause_playhead w now now' s :
  inv w -> is_playing w = true -> play_start_sys w = Some s ->
  playhead (timeline (_pause_playback w now now')) = derived_position w s now.
Proof.
  intros (_ & _ & _ & _ & Hs & _) Hp Es. unfold _pause_playback.
  rewrite Hp, Es. cbn [negb]. fields.
  assert (E : Qeq_bool s 0 = false).
  { apply not_true_iff_false. intro E. apply Qeq_bool_iff in E.
    specialize (Hs s Es). lra. }
  rewrite E. reflexivity.
Qed.

Lemma pause_inv w now now' :
  inv w -> clock_ok w now now' ->
  let w' := _pause_playback w now now' in
  inv w' /\ same_range (timeline w) (timeline w').
Proof.
  intros Hinv (Hnow & Hle & Hck).
  destruct (is_playing w) eqn:Ep.
  - pose proof Hinv as (Hm & Hc & Ho & Hp & Hs & Hpl).
    destruct (play_start_sys w) as [s | ] eqn:Es; [ | elim (Hpl Ep eq_refl)].
    pose proof (pause_playhead w now now' s Hinv Ep Es) as Eph.
    specialize (Hck s eq_refl). revert Eph.
    unfold _pause_playback, derived_position. rewrite Ep, Es. cbn [negb].
    unfold inv, clip_ok, same_range, markers_ok in *. fields. intros ->.
    repeat match goal with |- _ /\ _ => split end;
      try tauto; try lra; try discriminate.
  - unfold _pause_playback. rewrite Ep. cbn [negb].
    split; [exact Hinv | apply same_range_refl].
Qed.

(** A pause before the end of the clip keeps the playhead within it. *)
Lemma pause_playhead_in_clip w now now' s :
  inv w -> is_playing w = true -> play_start_sys w = Some s ->
  derived_position w s now <= clip_duration (timeline w) ->
  playhead_in_clip (_pause_playback w now now').
Proof.
  intros Hinv Hp Es Hle. unfold playhead_in_clip.
  rewrite (pause_playhead w now now' s Hinv Hp Es).
  unfold _pause_playback. rewrite Hp. cbn [negb]. fields. exact Hle.
Qed.

Lemma timer_preview_frame w now' :
  let w' := timer_preview w now' in
  timeline w' = timeline w /\ clip w' = clip w /\
  play_offset w' = play_offset w /\ play_start_sys w' = play_start_sys w /\
  is_playing w' = is_playing w.
Proof.
  unfold timer_preview, _update_preview_frame. branches; fields; auto.
Qed.

Lemma timer_preview_inv w now' :
  inv w ->
  inv (timer_preview w now') /\
  same_range (timeline w) (timeline (timer_preview w now')) /\
  (playhead_in_clip w -> playhead_in_clip (timer_preview w now')).
Proof.
  intro Hinv. destruct (timer_preview_frame w now') as (? & ? & ? & ? & ?).
  apply inv_frame; assumption.
Qed.

Lemma on_timer_inv w now now' :
  inv w -> clock_ok w now now' ->
  let w' := _on_timer w now now' in
  inv w' /\ same_range (timeline w) (timeline w') /\
  (playhead_in_clip w -> playhead_in_clip w').
Proof.
  intros Hinv (Hnow & Hle & Hck). unfold _on_timer.
  destruct (clip w) as [c | ] eqn:Ec; [ | apply inv_frame; trivial].
  destruct (is_playing w) eqn:Ep; [ | apply timer_preview_inv; exact Hinv].
  destruct (play_start_sys w) as [s | ] eqn:Es;
    [ | apply timer_preview_inv; exact Hinv].
  cbv zeta. destruct (Py.leb _ _) eqn:E; py_bool E.
  - pose proof (stop_inv w Hinv) as H. unfold stop in H. rewrite Ec in H.
    unfold stop. rewrite Ec. exact H.
  - set (w1 := with_timeline w _).
    specialize (Hck s eq_refl).
    assert (Hcur : 0 <= derived_position w s now <= clip_duration (timeline w)).
    { destruct Hinv as ((H0 & H1 & H2) & Hc & Ho & _).
      unfold clip_ok in Hc. rewrite Ec in Hc. revert E.
      unfold derived_position. cbv zeta. py_cases; intro; split; lra. }
    assert (Hi1 : inv w1).
    { subst w1. apply with_timeline_inv; [exact Hinv | frame | apply Hcur]. }
    destruct (timer_preview_inv w1 now' Hi1) as (Hi' & Hr' & Hin').
    split; [exact Hi' | split; [ | intros _; apply Hin'] ].
    + apply same_range_trans with (timeline w1); [subst w1; frame | exact Hr'].
    + subst w1. unfold playhead_in_clip. fields. apply Hcur.
Qed.

Lemma load_clip_inv w lib path opened :
  inv w ->
  match opened with Some c => 0 <= duration c | None => True end ->
  let w' := load_clip w lib path opened in
  inv w' /\ (playhead_in_clip w -> playhead_in_clip w').
Proof.
  intros Hinv Hd. unfold load_clip.
  destruct lib; cbn [negb];
    [ | match goal with |- inv ?w' /\ _ =>
          destruct (inv_frame w w' Hinv eq_refl eq_refl eq_refl eq_refl eq_refl)
            as (? & ? & ?); auto end ].
  destruct opened as [c | ];
    [ | match goal with |- inv ?w' /\ _ =>
          destruct (inv_frame w w' Hinv eq_refl eq_refl eq_refl eq_refl eq_refl)
            as (? & ? & ?); auto end ].
  unfold inv, clip_ok, markers_ok, playhead_in_clip. fields.
  assert (E : Py.max 0 (duration c) == duration c) by (py_cases; lra).
  rewrite E.
  repeat match goal with |- _ /\ _ => split end;
    try lra; try discriminate; try reflexivity.
Qed.

Lemma export_trimmed_frame w save_path run_ :
  let w' := export_trimmed w save_path run_ in
  timeline w' = timeline w /\ clip w' = clip w /\
  play_offset w' = play_offset w /\ play_start_sys w' = play_start_sys w /\
  is_playing w' = is_playing w.
Proof.
  unfold export_trimmed. branches; fields; auto.
Qed.

(** Every event keeps the invariant, as long as the clips that load have a
    duration >= 0 and the clock is read in order. *)
Lemma step_inv w now now' ev :
  inv w -> event_ok ev -> clock_ok w now now' ->
  inv (step w now now' ev).
Proof.
  intros Hinv Hev Hck. pose proof Hck as (Hnow & Hle & _).
  destruct ev; cbn [step].
  - apply press_inv; assumption.
  - apply move_inv; assumption.
  - apply with_timeline_inv; [exact Hinv | unfold mouseReleaseEvent; frame | ].
    destruct Hinv as (_ & _ & _ & Hp & _). exact Hp.
  - apply with_timeline_inv;
      [exact Hinv | unfold wheelEvent; branches; frame | ].
    destruct Hinv as (_ & _ & _ & Hp & _).
    unfold wheelEvent; branches; exact Hp.
  - unfold _zoom_changed. cbv zeta.
    apply with_timeline_inv; [exact Hinv | frame | ].
    destruct Hinv as (_ & _ & _ & Hp & _). exact Hp.
  - unfold _slider_moved. destruct (clip w); [ | exact Hinv].
    apply seek_to_inv; assumption.
  - unfold play_pause. destruct (clip w); [ | exact Hinv].
    destruct (is_playing w).
    + apply pause_inv; assumption.
    + apply start_playback_inv; assumption.
  - apply stop_inv; assumption.
  - unfold step_by. destruct (clip w); [ | exact Hinv].
    apply seek_to_inv; assumption.
  - apply on_timer_inv; assumption.
  - apply load_clip_inv; assumption.
  - destruct (export_trimmed_frame w save_path run0) as (H1 & H2 & H3 & H4 & H5).
    exact (proj1 (inv_frame w _ Hinv H1 H2 H3 H4 H5)).
Qed.

Lemma on_range_changed_range w now s e :
  let tl' := timeline (_on_range_changed w now s e) in
  clip_duration tl' = clip_duration (timeline w) /\
  start_marker tl' = s /\ end_marker tl' = e.
Proof.
  unfold _on_range_changed. cbv zeta.
  set (w1 := with_timeline _ _).
  set (w2 := if Py.ltb (playhead (timeline w1)) s then _ else _).
  assert (H1 : same_range (timeline w1) (timeline w2))
    by (subst w2; destruct (Py.ltb _ _);
        [apply seek_to_range | apply same_range_refl]).
  clearbody w2.
  assert (H2 : same_range (timeline w2)
                 (timeline (if Py.ltb e (playhead (timeline w2))
                            then _seek_to w2 now e else w2)))
    by (destruct (Py.ltb _ _); [apply seek_to_range | apply same_range_refl]).
  destruct H1 as (D1 & S1 & E1). destruct H2 as (D2 & S2 & E2).
  rewrite D2, S2, E2, D1, S1, E1. subst w1. fields. auto.
Qed.

(** Every event but a move and a load leaves the clip duration and both
    markers as they are. *)
Lemma step_same_range w now now' ev :
  match ev with
  | Move _ | Load _ _ => True
  | _ => same_range (timeline w) (timeline (step w now now' ev))
  end.
Proof.
  destruct ev; trivial; cbn [step].
  - unfold mousePressEvent, dispatch.
    branches; cbn [fold_left fst snd deliver]; try frame.
    apply (seek_to_range
             (with_timeline w (with_playhead (timeline w)
                                 (x_to_seconds (timeline w) x)))).
  - unfold mouseReleaseEvent. frame.
  - unfold wheelEvent. branches; frame.
  - unfold _zoom_changed. frame.
  - unfold _slider_moved. branches; [apply seek_to_range | frame].
  - unfold play_pause, _pause_playback, _start_playback_at. branches; frame.
  - unfold stop. branches; frame.
  - unfold step_by. branches; [apply seek_to_range | frame].
  - unfold _on_timer, stop, timer_preview, _update_preview_frame.
    branches; frame.
  - destruct (export_trimmed_frame w save_path run0) as (-> & _).
    apply same_range_refl.
Qed.

Lemma step_markers w now now' ev :
  markers_ok (timeline w) -> event_ok ev ->
  markers_ok (timeline (step w now now' ev)).
Proof.
  intros Hm Hev.
  pose proof (step_same_range w now now' ev) as Hr.
  destruct ev; try (exact (same_range_ok _ _ Hr Hm)); cbn [step].
  - pose proof (mouseMove_markers (timeline w) x Hm) as (Hm' & _).
    revert Hm'. unfold mouseMoveEvent.
    destruct (dragging (timeline w)) as [[ | | ] | ];
      cbv zeta; unfold dispatch; cbn [fold_left fst snd deliver]; intro Hm'.
    + destruct (on_range_changed_range
                  (with_timeline w
                     (with_start_marker (timeline w)
                        (Py.min (move_seconds (timeline w) x)
                                (end_marker (timeline w))))) now
                  (Py.min (move_seconds (timeline w) x) (end_marker (timeline w)))
                  (end_marker (timeline w))) as (Ed & Es & Ee).
      unfold markers_ok in *. rewrite Ed, Es, Ee. exact Hm'.
    + destruct (on_range_changed_range
                  (with_timeline w
                     (with_end_marker (timeline w)
                        (Py.max (move_seconds (timeline w) x)
                                (start_marker (timeline w))))) now
                  (start_marker (timeline w))
                  (Py.max (move_seconds (timeline w) x) (start_marker (timeline w))))
        as (Ed & Es & Ee).
      unfold markers_ok in *. rewrite Ed, Es, Ee. exact Hm'.
    + apply (same_range_ok (timeline w)); [ | exact Hm].
      apply (same_range_trans _ (with_playhead (timeline w)
                                   (move_seconds (timeline w) x)));
        [frame | ].
      apply (seek_to_range
               (with_timeline w (with_playhead (timeline w)
                                   (move_seconds (timeline w) x)))).
    + exact Hm.
  - unfold load_clip. cbn [negb]. destruct opened as [c | ]; [ | exact Hm].
    cbn [event_ok] in Hev. unfold markers_ok. fields.
    assert (E : Py.max 0 (duration c) == duration c) by (py_cases; lra).
    rewrite E. repeat split; lra.
Qed.

(** Every event but a pause keeps the playhead within the clip. *)
Lemma step_playhead_in_clip w now now' ev :
  inv w -> playhead_in_clip w -> event_ok ev -> clock_ok w now now' ->
  (ev = PlayPause -> is_playing w = false) ->
  playhead_in_clip (step w now now' ev).
Proof.
  intros Hinv Hin Hev Hck Hnp. pose proof Hck as (Hnow & Hle & _).
  destruct ev; cbn [step].
  - apply press_inv; assumption.
  - apply move_inv; assumption.
  - exact Hin.
  - unfold wheelEvent. branches; exact Hin.
  - exact Hin.
  - unfold _slider_moved. destruct (clip w); [ | exact Hin].
    apply seek_to_inv; assumption.
  - unfold play_pause. destruct (clip w); [ | exact Hin].
    rewrite (Hnp eq_refl). exact Hin.
  - apply stop_inv; assumption.
  - unfold step_by. destruct (clip w); [ | exact Hin].
    apply seek_to_inv; assumption.
  - apply on_timer_inv; assumption.
  - apply load_clip_inv; assumption.
  - destruct (export_trimmed_frame w save_path run0) as (H1 & H2 & H3 & H4 & H5).
    exact (proj2 (proj2 (inv_frame w _ Hinv H1 H2 H3 H4 H5)) Hin).
Qed.

Lemma init_window_inv wd : inv (init_window wd) /\ playhead_in_clip (init_window wd).
Proof.
  unfold inv, markers_ok, clip_ok, playhead_in_clip. cbn.
  repeat match goal with |- _ /\ _ => split end;
    try lra; try discriminate; try reflexivity.
Qed.

(** C4: the markers satisfy 0 <= S <= E <= D after every mutation.  A move
    while dragging the start marker sets S' = min(t, E), within [0, E], and
    keeps E; a move while dragging the end marker sets E' = max(t, S), within
    [S, D], and keeps S, where t is the pointer's time clamped to [0, D];
    [set_clip_duration] resets S = 0 and E = D; and every event of the window
    (the slots run by the signals and the loading of a clip included) keeps
    0 <= S <= E <= D, so S > E never holds. *)
Theorem C4_markers_stay_ordered :
  (forall tl x,
     markers_ok tl ->
     let tl' := fst (mouseMoveEvent tl x) in
     let t := move_seconds tl x in
     0 <= t <= clip_duration tl /\
     markers_ok tl' /\ clip_duration tl' = clip_duration tl /\
     (dragging tl = Some DragStart ->
        start_marker tl' = Py.min t (end_marker tl) /\
        end_marker tl' = end_marker tl /\
        0 <= start_marker tl' <= end_marker tl) /\
     (dragging tl = Some DragEnd ->
        end_marker tl' = Py.max t (start_marker tl) /\
        start_marker tl' = start_marker tl /\
        start_marker tl <= end_marker tl' <= clip_duration tl)) /\
  (forall tl d,
     let tl' := set_clip_duration tl d in
     markers_ok tl' /\ start_marker tl' = 0 /\
     end_marker tl' = clip_duration tl' /\
     (0 <= d -> clip_duration tl' == d)) /\
  (forall w now now' ev,
     markers_ok (timeline w) -> event_ok ev ->
     let tl' := timeline (step w now now' ev) in
     markers_ok tl' /\ ~ end_marker tl' < start_marker tl') /\
  (forall w path c,
     0 <= duration c ->
     let tl' := timeline (load_clip w true path (Some c)) in
     start_marker tl' = 0 /\ end_marker tl' == clip_duration tl' /\
     clip_duration tl' == duration c).
Proof.
  repeat match goal with |- _ /\ _ => split end.
  - intros tl x Hm tl' t.
    assert (HD : 0 <= clip_duration tl) by (destruct Hm as (? & ? & ?); lra).
    destruct (mouseMove_markers tl x Hm) as (H1 & H2 & H3 & H4 & _).
    split; [apply move_seconds_range, HD | tauto].
  - intros tl d tl'. subst tl'. unfold markers_ok. fields.
    repeat match goal with |- _ /\ _ => split end;
      try reflexivity; py_cases; lra.
  - intros w now now' ev Hm Hev tl'.
    pose proof (step_markers w now now' ev Hm Hev) as H.
    split; [exact H | ]. destruct H as (? & ? & ?). fold tl' in H0. lra.
  - intros w path c Hd tl'. subst tl'. unfold load_clip. cbn [negb]. fields.
    assert (E : Py.max 0 (duration c) == duration c) by (py_cases; lra).
    rewrite E. repeat split; reflexivity.
Qed.

(** Dragging the start marker far to the right of the end marker leaves it
    on the end marker. *)
Lemma C4_markers_witness :
  let tl := timeline dragging_start in
  dragging tl = Some DragStart /\ markers_ok tl /\
  markers_ok (fst (mouseMoveEvent tl 2000)) /\
  start_marker (fst (mouseMoveEvent tl 2000)) == 10 /\
  markers_ok (timeline (step dragging_start 2 2 (Move 2000))).
Proof.
  intro tl.
  assert (Hm : markers_ok tl) by (repeat split; vm_compute; discriminate).
  destruct C4_markers_stay_ordered as (Hmove & _ & Hstep & _).
  destruct (Hmove tl 2000 Hm) as (_ & Hm' & _ & Hs & _).
  refine (conj eq_refl (conj Hm (conj Hm' (conj _ _)))).
  - destruct (Hs eq_refl) as (-> & _). reflexivity.
  - apply (Hstep dragging_start 2 2 (Move 2000) Hm I).
Defined.

(** ** The playhead *)

(** C2 at its failing input: a pause 100 ms into a playback started 50 ms
    before the end of the clip, between two ticks of the timer, writes
    offset + elapsed = 10.05 s into the playhead of a 10 s clip.  The state
    it starts from satisfies every invariant, [0 <= P <= D] included. *)
Theorem C2_pause_leaves_playhead_past_end :
  inv playing_near_end /\ playhead_in_clip playing_near_end /\
  is_playing playing_near_end = true /\
  playhead (timeline playing_near_end) == 9.99 /\
  clock_ok playing_near_end 100.1 100.1 /\
  let w' := step playing_near_end 100.1 100.1 PlayPause in
  is_playing w' = false /\
  clip_duration (timeline w') == 10 /\
  playhead (timeline w') == 10.05 /\
  ~ playhead (timeline w') <= clip_duration (timeline w').
Proof.
  assert (Hinv : inv playing_near_end).
  { unfold inv, markers_ok, clip_ok.
    repeat match goal with |- _ /\ _ => split end;
      try (vm_compute; discriminate); try reflexivity.
    intros s E. vm_compute in E. injection E as <-. reflexivity. }
  refine (conj Hinv (conj _ (conj eq_refl (conj _ (conj _ _))))).
  - vm_compute. discriminate.
  - reflexivity.
  - split; [reflexivity | split; [vm_compute; discriminate | ] ].
    intros s E. vm_compute in E. injection E as <-. vm_compute. discriminate.
  - cbv zeta. refine (conj eq_refl (conj _ (conj _ _))); try reflexivity.
    intro H. vm_compute in H. apply H. reflexivity.
Qed.

(** ** The tick generator *)

Lemma min_key_first_min key l :
  forall seen best,
    first_min key seen best ->
    first_min key (seen ++ l) (Py.min_key key best l).
Proof.
  induction l as [ | x r IH]; intros seen best Hb; cbn [Py.min_key].
  - rewrite app_nil_r. exact Hb.
  - replace (seen ++ x :: r) with ((seen ++ [x]) ++ r)
      by (rewrite <- app_assoc; reflexivity).
    apply IH. destruct Hb as (pre & post & E & Hpre & Hpost).
    destruct (Py.ltb (key x) (key best)) eqn:Hx; py_bool Hx.
    + exists seen, []. split; [reflexivity | split; [ | intros y []] ].
      intros y Hy. rewrite E in Hy. apply in_app_or in Hy.
      destruct Hy as [Hy | [<- | Hy]].
      * specialize (Hpre y Hy). lra.
      * exact Hx.
      * specialize (Hpost y Hy). lra.
    + exists pre, (post ++ [x]). split; [ | split; [exact Hpre | ] ].
      * rewrite E, <- app_assoc. reflexivity.
      * intros y Hy. apply in_app_or in Hy.
        destruct Hy as [Hy | [<- | []]]; [apply Hpost, Hy | exact Hx].
Qed.

Lemma snap_first_min raw :
  first_min (fun y => Qabs (inject_Z y - raw)) nice (snap raw).
Proof.
  unfold snap, nice.
  apply (min_key_first_min _ _ [1%Z] 1%Z).
  exists [], []. split; [reflexivity | split; intros y []].
Qed.

Lemma first_min_In key l r : first_min key l r -> In r l.
Proof.
  intros (pre & post & -> & _). apply in_or_app. right. left. reflexivity.
Qed.

Lemma first_min_least key l r :
  first_min key l r -> forall y, In y l -> key r <= key y.
Proof.
  intros (pre & post & -> & Hpre & Hpost) y Hy. apply in_app_or in Hy.
  destruct Hy as [Hy | [<- | Hy]];
    [apply Qlt_le_weak, Hpre, Hy | apply Qle_refl | apply Hpost, Hy].
Qed.

Lemma snap_positive raw : (1 <= snap raw)%Z.
Proof.
  pose proof (first_min_In _ _ _ (snap_first_min raw)) as H.
  unfold nice in H. cbn [In] in H.
  repeat destruct H as [H | H]; try (rewrite <- H; lia). destruct H.
Qed.

Lemma ticks_from_length tl step k t :
  List.length (ticks_from tl step k t) = k.
Proof. revert t. induction k; intro t; cbn; [ | rewrite IHk]; reflexivity. Qed.

Lemma ticks_from_nth tl step k :
  forall t j tk,
    nth_error (ticks_from tl step k t) j = Some tk ->
    (j < k)%nat /\ tk = tick_at tl (tick_time tk) /\
    tick_time tk == t + inject_Z (Z.of_nat j) * step.
Proof.
  induction k as [ | k IH]; intros t j tk H.
  - destruct j; discriminate.
  - destruct j as [ | j]; cbn in H.
    + injection H as <-. split; [lia | split; [reflexivity | ] ].
      cbn [tick_at tick_time]. change (inject_Z (Z.of_nat 0)) with 0. lra.
    + destruct (IH _ _ _ H) as (Hj & Htk & Ht).
      split; [lia | split; [exact Htk | ] ].
      rewrite Ht, Nat2Z.inj_succ. unfold Z.succ. rewrite inject_Z_plus.
      change (inject_Z 1) with 1. lra.
Qed.

(** The loop, with more fuel than rounds, makes exactly the [k] rounds for
    which the time is within the bound. *)
Lemma tick_loop_rounds tl bound step :
  0 < step ->
  forall k t fuel,
    (forall j, (j < k)%nat -> t + inject_Z (Z.of_nat j) * step <= bound) ->
    bound < t + inject_Z (Z.of_nat k) * step ->
    (k < fuel)%nat ->
    tick_loop fuel tl bound step t = Some (ticks_from tl step k t).
Proof.
  intros Hstep. induction k as [ | k IH]; intros t fuel Hin Hout Hfuel.
  - destruct fuel as [ | fuel]; [lia | ]. cbn [tick_loop ticks_from].
    change (inject_Z (Z.of_nat 0)) with 0 in Hout.
    assert (E : Py.leb t bound = false) by (apply leb_false; lra).
    rewrite E. reflexivity.
  - destruct fuel as [ | fuel]; [lia | ]. cbn [tick_loop ticks_from].
    assert (E : Py.leb t bound = true).
    { apply leb_iff. specialize (Hin 0%nat ltac:(lia)).
      change (inject_Z (Z.of_nat 0)) with 0 in Hin. lra. }
    rewrite E. rewrite (IH (t + step) fuel); [reflexivity | | | lia].
    + intros j Hj. specialize (Hin (S j) ltac:(lia)).
      rewrite Nat2Z.inj_succ in Hin. unfold Z.succ in Hin.
      rewrite inject_Z_plus in Hin. change (inject_Z 1) with 1 in Hin. lra.
    + rewrite Nat2Z.inj_succ in Hout. unfold Z.succ in Hout.
      rewrite inject_Z_plus in Hout. change (inject_Z 1) with 1 in Hout. lra.
Qed.

Lemma paint_bound_positive tl : 1 < paint_duration tl + tick_eps.
Proof.
  unfold paint_duration, tick_eps. py_cases; lra.
Qed.

(** The number of ticks: one more than the whole steps within the bound. *)
Lemma tick_rounds (bound step : Q) :
  0 < bound -> 0 < step ->
  let k := S (Z.to_nat (Qfloor (bound / step))) in
  (forall j, (j < k)%nat -> 0 + inject_Z (Z.of_nat j) * step <= bound) /\
  bound < 0 + inject_Z (Z.of_nat k) * step.
Proof.
  intros Hb Hs. set (q := bound / step). intro k.
  assert (Eq : bound == q * step) by (unfold q; field; lra).
  assert (Hq : 0 <= q).
  { unfold q. apply Qle_shift_div_l; [exact Hs | lra]. }
  assert (Hf : (0 <= Qfloor q)%Z) by (apply floor_nonneg; exact Hq).
  pose proof (Qfloor_le q) as Hlo. pose proof (Qlt_floor q) as Hhi.
  split.
  - intros j Hj. subst k.
    assert (Hjq : inject_Z (Z.of_nat j) <= q).
    { apply Qle_trans with (inject_Z (Qfloor q)); [ | exact Hlo].
      rewrite <- Zle_Qle. lia. }
    rewrite Eq, Qplus_0_l. apply Qmult_le_compat_r; [exact Hjq | lra].
  - subst k. rewrite Nat2Z.inj_succ, Z2Nat.id by exact Hf.
    unfold Z.succ. rewrite Eq, Qplus_0_l.
    apply Qmult_lt_compat_r; [exact Hs | exact Hhi].
Qed.

(** C10 (amended): the tick step is the first element of
    {1,2,5,10,15,30,60,120,300,600} nearest to
    max(1, 120 / max(1e-6, clip_w / max(1, D))), and the ticks are at
    0, step, 2*step, ... for as long as the time is <= max(1, D) + 0.0001:
    the loop ends, every tick carries its pixel column and its label, and
    the tick after the last one is beyond the bound.  For a clip of a whole
    number of seconds D >= 1 (D = 125 in particular) no tick exceeds D. *)
Theorem C10_tick_generator tl :
  let raw := raw_seconds_per_tick tl in
  let step := seconds_per_tick tl in
  let bound := Py.max 1 (clip_duration tl) + 0.0001 in
  raw = Py.max 1 (120 / Py.max 1e-6
                          (inject_Z (clip_w tl) / Py.max 1 (clip_duration tl))) /\
  first_min (fun y => Qabs (inject_Z y - raw)) nice step /\
  In step nice /\
  (forall y, In y nice -> Qabs (inject_Z step - raw) <= Qabs (inject_Z y - raw)) /\
  exists ticks,
    (forall fuel, (List.length ticks < fuel)%nat -> paint_ticks fuel tl = Some ticks) /\
    nth_error ticks 0 = Some (tick_at tl 0) /\
    (forall k tk, nth_error ticks k = Some tk ->
       tk = tick_at tl (tick_time tk) /\
       tick_time tk == inject_Z (Z.of_nat k) * inject_Z step /\
       tick_time tk <= bound) /\
    bound < inject_Z (Z.of_nat (List.length ticks)) * inject_Z step /\
    (forall d : Z, (1 <= d)%Z -> clip_duration tl == inject_Z d ->
       forall tk, In tk ticks -> tick_time tk <= clip_duration tl).
Proof.
  intros raw step bound.
  pose proof (snap_first_min raw) as Hfm. fold (seconds_per_tick tl) in Hfm.
  fold step in Hfm.
  split; [reflexivity | split; [exact Hfm | split; [ | split] ] ].
  - exact (first_min_In _ _ _ Hfm).
  - exact (first_min_least _ _ _ Hfm).
  - assert (Hstep : 0 < inject_Z step).
    { change 0 with (inject_Z 0). rewrite <- Zlt_Qlt.
      pose proof (snap_positive raw). subst step. unfold seconds_per_tick.
      fold raw. lia. }
    assert (Hbound : 0 < bound).
    { pose proof (paint_bound_positive tl). subst bound.
      unfold paint_duration, tick_eps in *. lra. }
    set (k := S (Z.to_nat (Qfloor (bound / inject_Z step)))).
    destruct (tick_rounds bound (inject_Z step) Hbound Hstep) as [Hin Hout].
    fold k in Hin, Hout.
    exists (ticks_from tl (inject_Z step) k 0).
    rewrite ticks_from_length.
    assert (Hnth : forall j tk,
      nth_error (ticks_from tl (inject_Z step) k 0) j = Some tk ->
      tk = tick_at tl (tick_time tk) /\
      tick_time tk == inject_Z (Z.of_nat j) * inject_Z step /\
      tick_time tk <= bound).
    { intros j tk H.
      destruct (ticks_from_nth _ _ _ _ _ _ H) as (Hj & Htk & Ht).
      split; [exact Htk | split; [rewrite Ht; lra | ] ].
      rewrite Ht. apply Hin, Hj. }
    repeat match goal with |- _ /\ _ => split end.
    + intros fuel Hf. unfold paint_ticks.
      apply (tick_loop_rounds tl bound (inject_Z step) Hstep k 0 fuel Hin Hout Hf).
    + reflexivity.
    + exact Hnth.
    + rewrite Qplus_0_l in Hout. exact Hout.
    + intros d Hd ED tk Htk.
      apply In_nth_error in Htk. destruct Htk as [j Hj].
      destruct (Hnth j tk Hj) as (_ & Ht & Hle).
      assert (Eb : bound == inject_Z d + 0.0001).
      { subst bound. rewrite ED.
        assert (1 <= inject_Z d)
          by (change 1 with (inject_Z 1); rewrite <- Zle_Qle; exact Hd).
        py_cases; lra. }
      rewrite Ht, <- inject_Z_mult in *. rewrite ED.
      rewrite <- Zle_Qle. apply Z.lt_succ_r. apply Z.lt_nge. intro Hge.
      apply Z.le_succ_l in Hge. unfold Z.succ in Hge.
      assert (Hq : inject_Z (d + 1) <= inject_Z (Z.of_nat j * step))
        by (rewrite <- Zle_Qle; lia).
      rewrite inject_Z_plus in Hq. change (inject_Z 1) with 1 in Hq. lra.
Qed.

Lemma tick_loop_more_fuel tl bound step :
  forall fuel t l,
    tick_loop fuel tl bound step t = Some l ->
    forall fuel', (fuel <= fuel')%nat ->
    tick_loop fuel' tl bound step t = Some l.
Proof.
  induction fuel as [ | fuel IH]; intros t l H fuel' Hle; [discriminate | ].
  destruct fuel' as [ | fuel']; [lia | ]. cbn [tick_loop] in *.
  destruct (Py.leb t bound); [ | exact H].
  destruct (tick_loop fuel tl bound step (t + step)) as [r | ] eqn:E;
    [ | discriminate].
  rewrite (IH _ _ E fuel'); [exact H | lia].
Qed.

(** C10, as the spec states it, fails for a clip shorter than a second: the
    loop runs to max(1, D) + 0.0001, so a clip of 0.5 s gets a tick at 1 s,
    beyond D + 0.0001. *)
Lemma C10_ticks_counterexample :
  let tl := half_second_clip in
  clip_duration tl == 0.5 /\
  seconds_per_tick tl = 1%Z /\
  paint_ticks 5 tl = Some [mkTick 0 590 "0:00"; mkTick 1 710 "0:01"] /\
  ~ 1 <= clip_duration tl + 0.0001.
Proof.
  cbv zeta. refine (conj _ (conj _ (conj _ _))); try (vm_compute; reflexivity).
  intro H. vm_compute in H. apply H. reflexivity.
Qed.

(** The spec's sample: D = 125 with about 28 s per tick gives a step of
    30 s and the ticks 0, 30, 60, 90, 120, none beyond D. *)
Lemma C10_tick_generator_witness :
  clip_duration clip_125 == 125 /\
  seconds_per_tick clip_125 = 30%Z /\
  exists ticks,
    paint_ticks 10 clip_125 = Some ticks /\
    map tick_time ticks = [0; 30; 60; 90; 120] /\
    nth_error ticks 0 = Some (tick_at clip_125 0) /\
    (forall tk, In tk ticks -> tick_time tk <= clip_duration clip_125).
Proof.
  refine (conj _ (conj _ _)); try (vm_compute; reflexivity).
  destruct (C10_tick_generator clip_125)
    as (_ & _ & _ & _ & ticks & Hrun & H0 & _ & _ & H125).
  assert (Hc : paint_ticks 10 clip_125
               = Some (ticks_from clip_125 30 5 0)) by (vm_compute; reflexivity).
  assert (E : ticks = ticks_from clip_125 30 5 0).
  { pose proof (Hrun (10 + S (List.length ticks))%nat ltac:(lia)) as H1.
    pose proof (tick_loop_more_fuel _ _ _ _ _ _ Hc
                  (10 + S (List.length ticks))%nat ltac:(lia)) as H2.
    unfold paint_ticks in H1. rewrite H2 in H1. injection H1 as <-.
    reflexivity. }
  exists ticks. refine (conj _ (conj _ (conj H0 _))).
  - rewrite E. exact Hc.
  - rewrite E. vm_compute. reflexivity.
  - apply (H125 125%Z); [lia | vm_compute; reflexivity].
Defined.

(** * Further properties of the code *)

(** ** The coordinate mapper, both branches at once *)

Lemma seconds_to_x_eq tl t :
  seconds_to_x tl t = start_x tl + t * effective_scale tl.
Proof.
  unfold seconds_to_x, start_x, effective_scale.
  destruct (fit_mode tl); reflexivity.
Qed.

Lemma x_to_seconds_eq tl x :
  x_to_seconds tl x =
    Py.max 0 (Py.min (clip_duration tl)
                     ((x - start_x tl) / Py.max eps6 (effective_scale tl))).
Proof.
  unfold x_to_seconds, start_x, effective_scale.
  destruct (fit_mode tl); reflexivity.
Qed.

Lemma divisor_positive s : 0 < Py.max eps6 s.
Proof. assert (0 < eps6) by reflexivity. py_cases; lra. Qed.

Lemma usable_ge_10 tl : 10 <= inject_Z (usable tl).
Proof.
  change 10 with (inject_Z 10). rewrite <- Zle_Qle. unfold usable.
  destruct (10 <? _)%Z eqn:E; [apply Z.ltb_lt in E | ]; lia.
Qed.

Lemma div_le_compat a b m : 0 < m -> a <= b -> a / m <= b / m.
Proof.
  intros Hm Hab. unfold Qdiv. apply Qmult_le_compat_r; [exact Hab | ].
  apply Qlt_le_weak, Qinv_lt_0_compat, Hm.
Qed.

(** The scale of the layout in force is never negative for a zoom >= 0,
    and positive in scroll mode. *)
Lemma effective_scale_nonneg tl :
  0 <= pixels_per_second tl -> 0 <= effective_scale tl.
Proof.
  intro Hp. unfold effective_scale, scroll_scale.
  destruct (fit_mode tl); [exact Hp | ].
  pose proof (usable_ge_10 tl).
  apply Qle_shift_div_l; py_cases; lra.
Qed.

(** Times of the clip, scaled, fit into the usable width. *)
Lemma scaled_duration_fits tl t :
  0 <= t <= clip_duration tl -> 0 <= pixels_per_second tl ->
  0 <= t * effective_scale tl /\
  start_x tl + t * effective_scale tl
    <= inject_Z (left_padding tl) + inject_Z (usable tl).
Proof.
  intros [Ht0 Ht1] Hp.
  pose proof (effective_scale_nonneg tl Hp) as Hs.
  split; [apply Qmult_le_0_compat; assumption | ].
  pose proof (usable_ge_10 tl) as Hu.
  unfold start_x, effective_scale, scroll_scale in *.
  destruct (fit_mode tl) eqn:Hf.
  - unfold fit_mode in Hf. apply leb_iff in Hf. unfold total_width in *.
    assert (H1 : t * pixels_per_second tl
                 <= Py.max 1 (clip_duration tl) * pixels_per_second tl).
    { apply Qmult_le_compat_r; [ | exact Hp]. py_cases; lra. }
    assert (E : (inject_Z (usable tl)
                 - pixels_per_second tl * Py.max 1 (clip_duration tl)) / 2
                == (inject_Z (usable tl)
                    - pixels_per_second tl * Py.max 1 (clip_duration tl))
                   * (1 # 2)) by reflexivity.
    rewrite E. lra.
  - destruct (Py.ltb 0 (clip_duration tl)) eqn:Hd; py_bool Hd.
    + assert (H1 : t * (inject_Z (usable tl) / clip_duration tl)
                   == t * inject_Z (usable tl) / clip_duration tl)
        by (field; lra).
      rewrite H1.
      assert (H2 : t * inject_Z (usable tl) / clip_duration tl
                   <= inject_Z (usable tl)).
      { apply Qle_shift_div_r; [exact Hd | ].
        rewrite (Qmult_comm (inject_Z (usable tl))).
        apply Qmult_le_compat_r; lra. }
      lra.
    + assert (Et : t == 0) by lra. rewrite Et. lra.
Qed.

(** X1: whatever the pixel, the layout and the zoom, [x_to_seconds] answers
    a time of the clip: within [0, D] for D >= 0; 0 for a pixel at or left of
    the clip box and D for a pixel at or beyond
    start_x + D * max(1e-6, scale). *)
Theorem X1_x_to_seconds_clamped tl x :
  0 <= clip_duration tl ->
  0 <= x_to_seconds tl x <= clip_duration tl /\
  (x <= start_x tl -> x_to_seconds tl x == 0) /\
  (start_x tl + clip_duration tl * Py.max eps6 (effective_scale tl) <= x ->
   x_to_seconds tl x == clip_duration tl).
Proof.
  intro HD. rewrite x_to_seconds_eq.
  pose proof (divisor_positive (effective_scale tl)) as Hm.
  set (m := Py.max eps6 (effective_scale tl)) in *.
  split; [apply clamp_range, HD | split].
  - intro Hx.
    assert (Hv : (x - start_x tl) / m <= 0).
    { apply Qle_shift_div_r; [exact Hm | lra]. }
    py_cases; lra.
  - intro Hx.
    assert (Hv : clip_duration tl <= (x - start_x tl) / m).
    { apply Qle_shift_div_l; [exact Hm | lra]. }
    py_cases; lra.
Qed.

Lemma X1_x_to_seconds_witness :
  let tl := timeline loaded_10 in
  x_to_seconds tl (-500) == 0 /\ x_to_seconds tl 5000 == 10 /\
  0 <= x_to_seconds tl 333 <= 10.
Proof.
  intro tl.
  assert (HD : 0 <= clip_duration tl) by (vm_compute; discriminate).
  destruct (X1_x_to_seconds_clamped tl (-500) HD) as (_ & H0 & _).
  destruct (X1_x_to_seconds_clamped tl 5000 HD) as (_ & _ & H1).
  destruct (X1_x_to_seconds_clamped tl 333 HD) as (H2 & _).
  refine (conj (H0 _) (conj _ H2)).
  - vm_compute. discriminate.
  - rewrite H1; [reflexivity | vm_compute; discriminate].
Defined.

(** X2: [x_to_seconds] never decreases with the pixel, in any layout. *)
Theorem X2_x_to_seconds_monotone tl x1 x2 :
  x1 <= x2 -> x_to_seconds tl x1 <= x_to_seconds tl x2.
Proof.
  intro Hx. rewrite !x_to_seconds_eq.
  pose proof (divisor_positive (effective_scale tl)) as Hm.
  set (m := Py.max eps6 (effective_scale tl)) in *.
  assert (Hv : (x1 - start_x tl) / m <= (x2 - start_x tl) / m)
    by (apply div_le_compat; [exact Hm | lra]).
  py_cases; lra.
Qed.

Lemma X2_x_to_seconds_witness :
  x_to_seconds very_long_clip 200 <= x_to_seconds very_long_clip 900.
Proof.
  apply X2_x_to_seconds_monotone. vm_compute. discriminate.
Defined.

(** X3: for a zoom >= 0, [seconds_to_x] never decreases with the time and
    puts every time of the clip inside the usable width, between the left
    padding and the left padding plus [usable]; so the start marker is
    never drawn right of the end marker. *)
Theorem X3_seconds_to_x_in_view tl :
  0 <= pixels_per_second tl ->
  (forall t1 t2, t1 <= t2 -> seconds_to_x tl t1 <= seconds_to_x tl t2) /\
  (forall t, 0 <= t <= clip_duration tl ->
     inject_Z (left_padding tl) <= start_x tl <= seconds_to_x tl t /\
     seconds_to_x tl t <= inject_Z (left_padding tl) + inject_Z (usable tl)) /\
  (markers_ok tl ->
     seconds_to_x tl (start_marker tl) <= seconds_to_x tl (end_marker tl)).
Proof.
  intro Hp. pose proof (effective_scale_nonneg tl Hp) as Hs.
  assert (Hmono : forall t1 t2, t1 <= t2 ->
                    seconds_to_x tl t1 <= seconds_to_x tl t2).
  { intros t1 t2 Ht. rewrite !seconds_to_x_eq.
    assert (t1 * effective_scale tl <= t2 * effective_scale tl)
      by (apply Qmult_le_compat_r; assumption).
    lra. }
  split; [exact Hmono | split].
  - intros t Ht. rewrite seconds_to_x_eq.
    destruct (scaled_duration_fits tl t Ht Hp) as [H0 H1].
    split; [split; [ | lra] | exact H1].
    unfold start_x. destruct (fit_mode tl) eqn:Hf; [ | lra].
    unfold fit_mode in Hf. apply leb_iff in Hf.
    assert (E : (inject_Z (usable tl) - total_width tl) / 2
                == (inject_Z (usable tl) - total_width tl) * (1 # 2))
      by reflexivity.
    rewrite E. lra.
  - intros (_ & H & _). apply Hmono, H.
Qed.

Lemma X3_seconds_to_x_witness :
  let tl := timeline short_range in
  50 <= seconds_to_x tl (start_marker tl) /\
  seconds_to_x tl (start_marker tl) <= seconds_to_x tl (end_marker tl) /\
  seconds_to_x tl (end_marker tl) <= 1250.
Proof.
  intro tl.
  assert (Hp : 0 <= pixels_per_second tl) by (vm_compute; discriminate).
  assert (Hm : markers_ok tl) by (repeat split; vm_compute; discriminate).
  destruct (X3_seconds_to_x_in_view tl Hp) as (_ & Hv & Ho).
  assert (Hs : 0 <= start_marker tl <= clip_duration tl)
    by (split; vm_compute; discriminate).
  assert (He : 0 <= end_marker tl <= clip_duration tl)
    by (split; vm_compute; discriminate).
  destruct (Hv _ Hs) as ((H1 & H2) & _). destruct (Hv _ He) as (_ & H3).
  refine (conj _ (conj (Ho Hm) _)).
  - apply Qle_trans with (start_x tl); [ | exact H2].
    apply Qle_trans with (inject_Z (left_padding tl)); [ | exact H1].
    vm_compute. discriminate.
  - apply Qle_trans with (1 := H3). vm_compute. discriminate.
Defined.

(** X4: the round trip in the other direction.  When the scale of the
    layout in force is at least the 1e-6 floor, a pixel of the clip box,
    between the pixels of time 0 and of time D, comes back from
    seconds_to_x(x_to_seconds(x)) as itself. *)
Theorem X4_pixel_roundtrip tl x :
  eps6 <= effective_scale tl ->
  seconds_to_x tl 0 <= x <= seconds_to_x tl (clip_duration tl) ->
  seconds_to_x tl (x_to_seconds tl x) == x.
Proof.
  intros Hs. rewrite !seconds_to_x_eq, x_to_seconds_eq. intros [H0 H1].
  assert (He : 0 < eps6) by reflexivity.
  assert (Em : Py.max eps6 (effective_scale tl) == effective_scale tl)
    by (py_cases; lra).
  set (s := effective_scale tl) in *.
  assert (Hs0 : 0 < s) by lra.
  assert (Hv : 0 <= (x - start_x tl) / s <= clip_duration tl).
  { split; [apply Qle_shift_div_l | apply Qle_shift_div_r]; lra. }
  rewrite Em, (clamp_inside _ _ _ Hv). field. lra.
Qed.

Lemma X4_pixel_roundtrip_witness :
  let fit := timeline loaded_10 in
  let scroll := clip_125 in
  seconds_to_x fit (x_to_seconds fit 777) == 777 /\
  seconds_to_x scroll (x_to_seconds scroll 300.5) == 300.5.
Proof.
  intros fit scroll. split.
  - apply X4_pixel_roundtrip; [ | split]; vm_compute; discriminate.
  - apply X4_pixel_roundtrip; [ | split]; vm_compute; discriminate.
Defined.

(** ** The pointer state machine *)

#[local] Instance x_to_seconds_comp tl : Proper (Qeq ==> Qeq) (x_to_seconds tl).
Proof.
  intros a b Hab. rewrite !x_to_seconds_eq. rewrite Hab. reflexivity.
Qed.

(** The round trip of a time of the clip, for the proofs below. *)
Lemma time_roundtrip tl t :
  0 <= t <= clip_duration tl -> eps6 <= effective_scale tl ->
  x_to_seconds tl (seconds_to_x tl t) == t.
Proof.
  intros Ht Hs. rewrite x_to_seconds_eq, seconds_to_x_eq.
  rewrite (roundtrip_scale _ t _ Hs). apply clamp_inside. exact Ht.
Qed.

(** The time of a move at the pixel of the press, for an element grabbed
    at the pixel [seconds_to_x tl t]. *)
Lemma move_seconds_at_press tl d x t :
  0 <= t <= clip_duration tl -> eps6 <= effective_scale tl ->
  move_seconds (with_drag tl d (x - seconds_to_x tl t)) x == t.
Proof.
  intros Ht Hs. unfold move_seconds. fields.
  change (x_to_seconds (with_drag tl d (x - seconds_to_x tl t)))
    with (x_to_seconds tl).
  assert (E : x - (x - seconds_to_x tl t) == seconds_to_x tl t) by lra.
  rewrite E, (time_roundtrip tl t Ht Hs). apply clamp_inside. exact Ht.
Qed.

Lemma move_after_press tl d off x :
  mouseMoveEvent (with_drag tl (Some d) off) x =
    let grabbed := with_drag tl (Some d) off in
    let sec := move_seconds grabbed x in
    match d with
    | DragStart =>
        (with_start_marker grabbed (Py.min sec (end_marker tl)),
         [range_changed (Py.min sec (end_marker tl)) (end_marker tl)])
    | DragEnd =>
        (with_end_marker grabbed (Py.max sec (start_marker tl)),
         [range_changed (start_marker tl) (Py.max sec (start_marker tl))])
    | DragPlayhead => (with_playhead grabbed sec, [seek_requested sec])
    end.
Proof. destruct d; reflexivity. Qed.

(** X5: the offset recorded by a press keeps the grabbed element in place.
    In a window that satisfies the invariant, with the playhead within the
    clip and a scale of at least the 1e-6 floor, after a press that grabs
    the start marker, the end marker or the playhead, a move at the very
    pixel of the press, with the slot of its signal run, leaves both
    markers at their values.  The playhead stays where it is when it is the
    element grabbed or lies within [S, E]; when a marker is grabbed and the
    playhead lies outside [S, E], the slot of range_changed, run although
    the range did not change, puts it on the marker it is beyond. *)
Theorem X5_first_move_does_not_jump w t1 t1' t2 t2' x :
  inv w -> playhead_in_clip w -> 0 < t2 ->
  eps6 <= effective_scale (timeline w) ->
  let tl := timeline w in
  let pressed := step w t1 t1' (Press x) in
  let moved := step pressed t2 t2' (Move x) in
  dragging (timeline pressed) <> dragging tl ->
  start_marker (timeline moved) == start_marker tl /\
  end_marker (timeline moved) == end_marker tl /\
  (dragging (timeline pressed) = Some DragPlayhead ->
     playhead (timeline moved) == playhead tl) /\
  (start_marker tl <= playhead tl <= end_marker tl ->
     playhead (timeline moved) == playhead tl) /\
  (dragging (timeline pressed) <> Some DragPlayhead ->
     (playhead tl < start_marker tl ->
        playhead (timeline moved) == start_marker tl) /\
     (end_marker tl < playhead tl ->
        playhead (timeline moved) == end_marker tl)).
Proof.
  intros Hinv Hpc Ht2 Hs tl.
  pose proof Hinv as (Hm & Hc & Ho & Hp & Hst & Hpl).
  pose proof Hm as (H0 & H1 & H2). fold tl in H0, H1, H2, Hp, Hs.
  unfold playhead_in_clip in Hpc. fold tl in Hpc.
  assert (HS : 0 <= start_marker tl <= clip_duration tl) by (split; lra).
  assert (HE : 0 <= end_marker tl <= clip_duration tl) by (split; lra).
  assert (HP : 0 <= playhead tl <= clip_duration tl) by (split; lra).
  (* the move of a marker, with the slot of range_changed run *)
  assert (Hrange : forall g s e,
    playhead g = playhead tl -> clip_duration g = clip_duration tl ->
    s == start_marker tl -> e == end_marker tl ->
    start_marker g = s -> end_marker g = e ->
    let moved := _on_range_changed (with_timeline w g) t2 s e in
    start_marker (timeline moved) == start_marker tl /\
    end_marker (timeline moved) == end_marker tl /\
    (start_marker tl <= playhead tl <= end_marker tl ->
       playhead (timeline moved) == playhead tl) /\
    (playhead tl < start_marker tl ->
       playhead (timeline moved) == start_marker tl) /\
    (end_marker tl < playhead tl ->
       playhead (timeline moved) == end_marker tl)).
  { intros g s e EP ED Es Ee Gs Ge moved.
    assert (Hi : inv (with_timeline w g)).
    { unfold inv, clip_ok, markers_ok in *. fields.
      rewrite EP, ED, Gs, Ge, Es, Ee. fold tl. tauto. }
    destruct (on_range_changed_inv (with_timeline w g) t2 s e Hi Ht2)
      as (_ & _ & As & Ae & _ & Hlt & Hgt & Hin);
      [ rewrite Es; exact H0 | rewrite Es, Ee; exact H1
      | cbn [timeline with_timeline]; rewrite ED, Ee; exact H2 | ].
    fold moved in As, Ae, Hlt, Hgt, Hin. revert Hlt Hgt Hin. fields.
    rewrite EP, As, Ae. intros Hlt Hgt Hin.
    refine (conj Es (conj Ee (conj _ (conj _ _)))).
    - intro H. rewrite Hin; [reflexivity | lra].
    - intro H. rewrite Hlt; [exact Es | lra].
    - intro H. rewrite Hgt; [exact Ee | lra]. }
  cbn [step]. unfold mousePressEvent. fold tl.
  destruct (Py.leb _ _); [ | destruct (Py.leb _ _); [ | destruct (Py.leb _ _)] ];
    cbv zeta.
  - set (g := with_drag tl _ _).
    change (dispatch w t1 (g, [])) with (with_timeline w g).
    change (timeline (with_timeline w g)) with g. intros _.
    subst g. rewrite move_after_press. cbv zeta. unfold dispatch.
    cbn [fold_left fst snd deliver].
    pose proof (move_seconds_at_press tl (Some DragStart) x _ HS Hs) as Esec.
    set (sec := move_seconds _ x) in *. clearbody sec.
    assert (Emin : Py.min sec (end_marker tl) == start_marker tl)
      by (py_cases; lra).
    destruct (Hrange (with_start_marker
                        (with_drag tl (Some DragStart)
                           (x - seconds_to_x tl (start_marker tl)))
                        (Py.min sec (end_marker tl)))
                     (Py.min sec (end_marker tl)) (end_marker tl))
      as (A & B & C & D & E); try reflexivity; [exact Emin | ].
    refine (conj A (conj B (conj _ (conj C _)))).
    + intro F. discriminate F.
    + intros _. exact (conj D E).
  - set (g := with_drag tl _ _).
    change (dispatch w t1 (g, [])) with (with_timeline w g).
    change (timeline (with_timeline w g)) with g. intros _.
    subst g. rewrite move_after_press. cbv zeta. unfold dispatch.
    cbn [fold_left fst snd deliver].
    pose proof (move_seconds_at_press tl (Some DragEnd) x _ HE Hs) as Esec.
    set (sec := move_seconds _ x) in *. clearbody sec.
    assert (Emax : Py.max sec (start_marker tl) == end_marker tl)
      by (py_cases; lra).
    destruct (Hrange (with_end_marker
                        (with_drag tl (Some DragEnd)
                           (x - seconds_to_x tl (end_marker tl)))
                        (Py.max sec (start_marker tl)))
                     (start_marker tl) (Py.max sec (start_marker tl)))
      as (A & B & C & D & E); try reflexivity; [exact Emax | ].
    refine (conj A (conj B (conj _ (conj C _)))).
    + intro F. discriminate F.
    + intros _. exact (conj D E).
  - set (g := with_drag tl _ _).
    change (dispatch w t1 (g, [])) with (with_timeline w g).
    change (timeline (with_timeline w g)) with g. intros _.
    subst g. rewrite move_after_press. cbv zeta. unfold dispatch.
    cbn [fold_left fst snd deliver].
    pose proof (move_seconds_at_press tl (Some DragPlayhead) x _ HP Hs) as Esec.
    set (sec := move_seconds _ x) in *. clearbody sec.
    set (w1 := with_timeline _ _).
    assert (Hm1 : markers_ok (timeline w1)) by exact Hm.
    assert (Hc1 : clip_ok w1) by exact Hc.
    assert (Hr : 0 <= sec <= clip_duration (timeline w1))
      by (change (clip_duration (timeline w1)) with (clip_duration tl);
          rewrite Esec; exact HP).
    pose proof (seek_to_playhead w1 t2 sec Hm1 Hc1 Hr) as EPl.
    destruct (seek_to_range w1 t2 sec) as (_ & Rs & Re).
    rewrite Rs, Re, EPl, Esec.
    change (start_marker (timeline w1)) with (start_marker tl).
    change (end_marker (timeline w1)) with (end_marker tl).
    refine (conj _ (conj _ (conj _ (conj _ _))));
      try reflexivity; try (intros; reflexivity).
    intro F. elim F. reflexivity.
  - intro Hd. elim Hd. unfold dispatch. cbn [fold_left fst snd deliver].
    match goal with
    | |- dragging (timeline (_seek_to ?a ?b ?c)) = _ =>
        destruct (seek_to_spec a b c) as (_ & _ & E & _); rewrite E
    end.
    reflexivity.
Qed.

(** Two presses on a start marker, each followed by a move at the same
    pixel: with the playhead within the range nothing moves; with the
    playhead at 1 s, before the start marker at 3 s, the markers stay and
    the playhead is put on the start marker. *)
Lemma X5_first_move_witness :
  (let moved := step (step short_range 7 7 (Press 172)) 8 8 (Move 172) in
   start_marker (timeline moved) == 1 /\
   end_marker (timeline moved) == 1.005 /\
   playhead (timeline moved) == 1) /\
  (let moved := step (step start_past_playhead 5 5 (Press 410)) 6 6 (Move 410) in
   playhead (timeline start_past_playhead) == 1 /\
   start_marker (timeline moved) == 3 /\
   end_marker (timeline moved) == 10 /\
   playhead (timeline moved) == 3).
Proof.
  assert (Hinv : forall w, w = short_range \/ w = start_past_playhead ->
            inv w /\ playhead_in_clip w /\ eps6 <= effective_scale (timeline w)).
  { intros w [-> | ->]; unfold inv, markers_ok, clip_ok, playhead_in_clip;
      repeat match goal with |- _ /\ _ => split end;
      first [ vm_compute; discriminate | vm_compute; reflexivity ]. }
  split; intro moved.
  - destruct (Hinv short_range (or_introl eq_refl)) as (Hi & Hp & Hs).
    assert (Ht : 0 < 8) by reflexivity.
    assert (Hd : dragging (timeline (step short_range 7 7 (Press 172)))
                 <> dragging (timeline short_range))
      by (vm_compute; discriminate).
    destruct (X5_first_move_does_not_jump short_range 7 7 8 8 172
                Hi Hp Ht Hs Hd) as (A & B & _ & C & _).
    fold moved in A, B, C.
    refine (conj _ (conj _ _));
      [rewrite A | rewrite B | rewrite C; [ | split; vm_compute; discriminate] ];
      reflexivity.
  - destruct (Hinv start_past_playhead (or_intror eq_refl)) as (Hi & Hp & Hs).
    assert (Ht : 0 < 6) by reflexivity.
    assert (Hd : dragging (timeline (step start_past_playhead 5 5 (Press 410)))
                 <> dragging (timeline start_past_playhead))
      by (vm_compute; discriminate).
    destruct (X5_first_move_does_not_jump start_past_playhead 5 5 6 6 410
                Hi Hp Ht Hs Hd) as (A & B & _ & _ & C).
    fold moved in A, B, C.
    destruct C as (C & _); [vm_compute; discriminate | ].
    refine (conj _ (conj _ (conj _ _)));
      [ reflexivity | rewrite A | rewrite B
      | rewrite C; [ | vm_compute; reflexivity] ];
      reflexivity.
Defined.

(** X6: what the order of the hit tests excludes.  From the idle state, a
    press grabs the end marker only more than 10 px away from the start
    marker, and the playhead only more than 10 px away from both markers;
    so the end marker cannot be grabbed while it coincides with the start
    marker, nor the playhead while it coincides with a marker.  The press
    leaves the state idle exactly when it is a seek. *)
Theorem X6_press_priority_shadows tl x :
  dragging tl = None ->
  let start_px := seconds_to_x tl (start_marker tl) in
  let end_px := seconds_to_x tl (end_marker tl) in
  let pressed := fst (mousePressEvent tl x) in
  (dragging pressed = Some DragEnd ->
     10 < Qabs (x - start_px) /\ Qabs (x - end_px) <= 10) /\
  (dragging pressed = Some DragPlayhead ->
     10 < Qabs (x - start_px) /\ 10 < Qabs (x - end_px)) /\
  (start_marker tl == end_marker tl -> dragging pressed <> Some DragEnd) /\
  (playhead tl == start_marker tl \/ playhead tl == end_marker tl ->
     dragging pressed <> Some DragPlayhead) /\
  (dragging pressed = None <->
     snd (mousePressEvent tl x) = [seek_requested (x_to_seconds tl x)]).
Proof.
  intros Hidle start_px end_px. unfold mousePressEvent.
  fold start_px end_px. change hit_radius with 10.
  assert (Ecomp : forall a b, a == b ->
            Qabs (x - seconds_to_x tl a) == Qabs (x - seconds_to_x tl b))
    by (intros a b E; rewrite E; reflexivity).
  destruct (Py.leb (Qabs (x - start_px)) 10) eqn:E1; py_bool E1.
  { cbv zeta. cbn [fst snd dragging with_drag].
    repeat split; try discriminate. }
  destruct (Py.leb (Qabs (x - end_px)) 10) eqn:E2; py_bool E2.
  { cbv zeta. cbn [fst snd dragging with_drag].
    repeat split; try discriminate; try assumption.
    intros HSE _. subst start_px end_px.
    rewrite (Ecomp _ _ HSE) in E1. lra. }
  destruct (Py.leb (Qabs (x - seconds_to_x tl (playhead tl))) 10) eqn:E3;
    py_bool E3; cbv zeta; cbn [fst snd dragging with_drag with_playhead].
  - repeat split; try discriminate; try assumption.
    intros [HP | HP] _; subst start_px end_px;
      rewrite (Ecomp _ _ HP) in E3; lra.
  - rewrite Hidle. repeat split; try discriminate; trivial.
Qed.

Lemma X6_press_priority_witness :
  let tl := timeline dragging_start in
  let idle := mouseReleaseEvent (fst (mouseMoveEvent tl 2000)) in
  start_marker idle == end_marker idle /\
  dragging (fst (mousePressEvent idle 1250)) = Some DragStart /\
  dragging (fst (mousePressEvent idle 1250)) <> Some DragEnd.
Proof.
  intros tl idle.
  destruct (X6_press_priority_shadows idle 1250 eq_refl) as (_ & _ & H & _).
  assert (E : start_marker idle == end_marker idle) by reflexivity.
  refine (conj E (conj _ (H E))). reflexivity.
Defined.

(** X7: a release ends the drag whatever its state and keeps everything
    else of the widget; from then on, until the next press, moves do
    nothing: however many follow the release, the window stays exactly as
    the release left it and no signal is emitted. *)
Theorem X7_release_ends_drag :
  (forall tl x,
     let released := mouseReleaseEvent tl in
     dragging released = None /\
     released = with_drag tl None (drag_offset tl) /\
     mouseMoveEvent released x = (released, [])) /\
  (forall w now now' (moves : list (Q * Q * Q)),
     run (step w now now' Release)
         (map (fun m => (fst (fst m), snd (fst m), Move (snd m))) moves)
       = step w now now' Release).
Proof.
  split.
  - intros tl x. unfold mouseReleaseEvent, mouseMoveEvent. auto.
  - intros w now now' moves. unfold run.
    induction moves as [ | [[t t'] x] moves IH]; [reflexivity | ].
    cbn [map fold_left fst snd]. exact IH.
Qed.

(** ** Zoom *)

Lemma seek_to_timeline w now sec :
  timeline (_seek_to w now sec) = with_playhead (timeline w) (seek_target w sec).
Proof. destruct (seek_to_spec w now sec) as (_ & _ & E & _). exact E. Qed.

(** A range change rewrites the two markers and, at most, the playhead. *)
Lemma on_range_changed_timeline w now s e :
  exists p,
    timeline (_on_range_changed w now s e)
      = with_playhead (with_end_marker (with_start_marker (timeline w) s) e) p.
Proof.
  unfold _on_range_changed. cbv zeta.
  set (w1 := with_timeline _ _).
  assert (E1 : timeline w1
               = with_end_marker (with_start_marker (timeline w) s) e)
    by reflexivity.
  clearbody w1.
  set (w2 := if Py.ltb (playhead (timeline w1)) s then _ else _).
  assert (E2 : exists p, timeline w2 = with_playhead (timeline w1) p).
  { subst w2. destruct (Py.ltb _ _).
    - eexists. apply seek_to_timeline.
    - exists (playhead (timeline w1)). destruct (timeline w1). reflexivity. }
  clearbody w2. destruct E2 as [p2 E2].
  destruct (Py.ltb e (playhead (timeline w2))).
  - exists (seek_target w2 e). rewrite seek_to_timeline, E2, E1. reflexivity.
  - exists p2. rewrite E2, E1. reflexivity.
Qed.

(** What an event does to the view: the geometry and the zoom bounds are
    never written, and the zoom only by the wheel and the zoom slider. *)
Lemma step_view w now now' ev :
  same_view (timeline w) (timeline (step w now now' ev)) /\
  match ev with
  | Wheel _ | ZoomSlider _ => True
  | _ => pixels_per_second (timeline (step w now now' ev))
         = pixels_per_second (timeline w)
  end.
Proof.
  unfold same_view. destruct ev; cbn [step].
  - unfold mousePressEvent, dispatch.
    branches; cbn [fold_left fst snd deliver];
      rewrite ?seek_to_timeline; fields; auto 10.
  - unfold mouseMoveEvent, dispatch.
    branches; cbn [fold_left fst snd deliver];
      rewrite ?seek_to_timeline; fields; auto 10;
      match goal with
      | |- context [_on_range_changed ?a ?b ?c ?d] =>
          destruct (on_range_changed_timeline a b c d) as [p ->]
      end; fields; auto 10.
  - unfold mouseReleaseEvent. fields. auto 10.
  - unfold wheelEvent. branches; fields; auto 10.
  - unfold _zoom_changed. fields. auto 10.
  - unfold _slider_moved. branches; rewrite ?seek_to_timeline; fields; auto 10.
  - unfold play_pause, _pause_playback, _start_playback_at.
    branches; fields; auto 10.
  - unfold stop. branches; fields; auto 10.
  - unfold step_by. branches; rewrite ?seek_to_timeline; fields; auto 10.
  - unfold _on_timer, stop, timer_preview, _update_preview_frame.
    branches; fields; auto 10.
  - unfold load_clip. cbn [negb]. branches; fields; auto 10.
  - destruct (export_trimmed_frame w save_path run0) as (-> & _). auto 10.
Qed.

Lemma wheel_zoom_ok tl delta : zoom_ok tl -> zoom_ok (wheelEvent tl delta).
Proof.
  intros (Emin & Emax & Hlo & Hhi). unfold zoom_ok, wheelEvent, zoom_factor.
  assert (Hd : pixels_per_second tl / 1.15 <= pixels_per_second tl).
  { apply Qle_shift_div_r; [reflexivity | lra]. }
  destruct (0 <? delta)%Z; fields; rewrite Emin, Emax;
    (split; [reflexivity | split; [reflexivity | py_cases; split; lra] ]).
Qed.

(** X8: from the widget's initial zoom state, every event keeps the zoom
    within [40, 1000] (the slider delivering values of its range 0..100);
    no event writes the widget's geometry or the bounds of the zoom, and
    only the wheel and the zoom slider write the zoom, so this holds after
    any session. *)
Theorem X8_zoom_stays_in_bounds :
  (forall wd, zoom_ok (timeline (init_window wd))) /\
  (forall w now now' ev,
     zoom_ok (timeline w) -> slider_ok ev ->
     let w' := step w now now' ev in
     zoom_ok (timeline w') /\ same_view (timeline w) (timeline w') /\
     ((forall d, ev <> Wheel d) -> (forall v, ev <> ZoomSlider v) ->
      pixels_per_second (timeline w') = pixels_per_second (timeline w))) /\
  (forall wd evs,
     Forall (fun e => slider_ok (snd e)) evs ->
     zoom_ok (timeline (run (init_window wd) evs))).
Proof.
  assert (Hinit : forall wd, zoom_ok (timeline (init_window wd))).
  { intro wd. unfold zoom_ok. cbn.
    repeat split; try reflexivity; vm_compute; discriminate. }
  assert (Hstep : forall w now now' ev,
     zoom_ok (timeline w) -> slider_ok ev ->
     zoom_ok (timeline (step w now now' ev))).
  { intros w now now' ev Hz Hev.
    destruct (step_view w now now' ev) as ((_ & _ & _ & Emin & Emax) & Hp).
    destruct ev; try (destruct Hz as (Hmin & Hmax & Hr);
      unfold zoom_ok; rewrite Emin, Emax, Hp; tauto).
    - cbn [step timeline with_timeline]. apply wheel_zoom_ok, Hz.
    - destruct Hz as (Hmin & Hmax & Hr). cbn [slider_ok] in Hev.
      unfold zoom_ok. rewrite Emin, Emax.
      split; [exact Hmin | split; [exact Hmax | ] ].
      cbn [step]. unfold _zoom_changed. fields.
      assert (Hv : 0 <= inject_Z value <= 100).
      { split; [change 0 with (inject_Z 0) | change 100 with (inject_Z 100)];
          rewrite <- Zle_Qle; lia. }
      assert (E : inject_Z value / 100 == inject_Z value * (1 # 100))
        by reflexivity.
      rewrite E. split; lra. }
  split; [exact Hinit | split].
  - intros w now now' ev Hz Hev w'. subst w'.
    destruct (step_view w now now' ev) as (Hv & Hp).
    split; [apply Hstep; assumption | split; [exact Hv | ] ].
    intros Hw Hs. destruct ev; try exact Hp.
    + elim (Hw delta). reflexivity.
    + elim (Hs value). reflexivity.
  - intros wd evs. unfold run.
    generalize (init_window wd) (Hinit wd).
    induction evs as [ | [[now now'] ev] evs IH]; intros w Hz Hall.
    + exact Hz.
    + cbn [fold_left fst snd]. inversion Hall as [ | ? ? Hev Hrest]. subst.
      apply IH; [apply Hstep; assumption | exact Hrest].
Qed.

Lemma X8_zoom_witness :
  zoom_ok (timeline (run (init_window 1300)
                         [ (1, 1, Wheel 120); (2, 2, ZoomSlider 100);
                           (3, 3, Wheel 120); (4, 4, Wheel (-120));
                           (5, 5, ZoomSlider 0); (6, 6, Wheel (-120)) ])).
Proof.
  destruct X8_zoom_stays_in_bounds as (_ & _ & H).
  apply H. repeat constructor; cbn; lia.
Defined.

(** ** Playback *)

(** X9: play, then pause.  From a stopped or paused window with a clip, a
    first [play_pause] at clock reading [t0] starts playback from the
    playhead, and a second one at [t1] leaves playback paused with the
    playhead advanced by the time played, P + (t1 - t0), and the clip and
    the markers as they were.  The start instant is tested for truth, so a
    reading [t0] of exactly 0 counts as missing: the pause then measures
    from its own second reading [t1']. *)
Theorem X9_play_then_pause w c t0 t0' t1 t1' :
  clip w = Some c -> is_playing w = false ->
  let playing := play_pause w t0 t0' in
  let paused := play_pause playing t1 t1' in
  (is_playing playing = true /\ play_start_sys playing = Some t0 /\
   play_offset playing = playhead (timeline w) /\
   timeline playing = timeline w /\ status_label playing = Playing) /\
  (is_playing paused = false /\ play_start_sys paused = None /\
   status_label paused = Paused /\
   same_range (timeline w) (timeline paused)) /\
  (~ t0 == 0 ->
   playhead (timeline paused) = playhead (timeline w) + (t1 - t0)) /\
  (t0 == 0 ->
   playhead (timeline paused) = playhead (timeline w) + (t1 - t1')).
Proof.
  intros Hc Hp playing paused.
  assert (E1 : playing = _start_playback_at w t0 (playhead (timeline w)))
    by (subst playing; unfold play_pause; rewrite Hc, Hp; reflexivity).
  assert (E2 : paused = _pause_playback playing t1 t1').
  { subst paused. unfold play_pause. rewrite E1.
    unfold _start_playback_at. fields. rewrite Hc. reflexivity. }
  clearbody paused. clearbody playing. subst playing paused.
  unfold _pause_playback, _start_playback_at. fields. cbn [negb].
  split; [auto 10 | split; [unfold same_range; auto 10 | split] ].
  - intro Hn. destruct (Qeq_bool t0 0) eqn:E; [ | reflexivity].
    apply Qeq_bool_iff in E. contradiction.
  - intro Hz. apply Qeq_bool_iff in Hz. rewrite Hz. reflexivity.
Qed.

Lemma X9_play_then_pause_witness :
  let paused := play_pause (play_pause loaded_10 100 100) 103.5 103.5 in
  is_playing paused = false /\ playhead (timeline paused) == 3.5.
Proof.
  intro paused.
  destruct (X9_play_then_pause loaded_10 (mkClip 10) 100 100 103.5 103.5
              eq_refl eq_refl) as (_ & (Hp & _) & Hn & _).
  split; [exact Hp | ].
  unfold paused. rewrite Hn; [reflexivity | ].
  intro H. vm_compute in H. discriminate.
Defined.

(** X10: what a tick leaves behind.  With a clip loaded, a tick while not
    playing never touches the timeline or the playback fields; a tick while
    playing either stops playback with the playhead and offset at 0, or
    keeps playing with the playhead at the derived position, strictly
    before min(D, E).  Either way the clip and the markers are kept. *)
Theorem X10_tick_outcomes w c now now' :
  clip w = Some c ->
  let w' := _on_timer w now now' in
  same_range (timeline w) (timeline w') /\
  (is_playing w = false ->
     timeline w' = timeline w /\ is_playing w' = false /\
     play_offset w' = play_offset w /\ play_start_sys w' = play_start_sys w) /\
  (forall s, is_playing w = true -> play_start_sys w = Some s ->
     (stopped w' /\ playhead (timeline w') = 0 /\ play_offset w' = 0 /\
      Py.min (duration c) (end_marker (timeline w)) <= derived_position w s now)
     \/
     (is_playing w' = true /\ play_start_sys w' = Some s /\
      play_offset w' = play_offset w /\
      playhead (timeline w') = derived_position w s now /\
      playhead (timeline w') < Py.min (duration c) (end_marker (timeline w')))).
Proof.
  intros Hc w'.
  split; [exact (step_same_range w now now' Timer) | split].
  - intro Hp. subst w'. unfold _on_timer. rewrite Hc, Hp.
    destruct (timer_preview_frame w now') as (H1 & H2 & H3 & H4 & H5).
    rewrite H1, H3, H4, H5. auto.
  - intros s Hp Hs. subst w'. unfold _on_timer. rewrite Hc, Hp, Hs. cbv zeta.
    destruct (Py.leb _ _) eqn:E; py_bool E.
    + left. destruct (stop_resets w c Hc) as (H1 & H2 & H3). auto.
    + right.
      destruct (timer_preview_frame
                  (with_timeline w (with_playhead (timeline w)
                                      (derived_position w s now))) now')
        as (H1 & H2 & H3 & H4 & H5).
      rewrite H1, H3, H4, H5. fields. auto.
Qed.

Lemma X10_tick_witness :
  let w' := _on_timer playing_from_2 1003 1003 in
  is_playing w' = true /\ playhead (timeline w') == 5 /\
  playhead (timeline w') < 10.
Proof.
  intro w'.
  destruct (X10_tick_outcomes playing_from_2 (mkClip 10) 1003 1003 eq_refl)
    as (_ & _ & H).
  destruct (H 1000 eq_refl eq_refl) as [(_ & _ & _ & Hle) | (Hp & _ & _ & He & Hlt)].
  - exfalso. vm_compute in Hle. apply Hle. reflexivity.
  - fold w' in Hp, He, Hlt. refine (conj Hp (conj _ _)).
    + rewrite He. reflexivity.
    + apply Qlt_le_trans with (1 := Hlt). vm_compute. discriminate.
Defined.

(** X11: the preview.  [_update_preview_frame] asks the clip service for
    one frame, at the playhead bounded to [0, duration], whatever the
    playhead is, and writes nothing of the timeline.  [timer_preview], the
    tail of [_on_timer], does nothing before 1 / max(1, preview_fps) seconds
    have passed since the last frame and otherwise records the clock
    reading and asks for that one frame; so a second tick within the
    interval asks for none. *)
Theorem X11_preview_frame_bounded w c :
  clip w = Some c -> 0 <= duration c ->
  let interval := 1 / inject_Z (Z.max 1 (preview_fps w)) in
  (exists t,
     calls (_update_preview_frame w) = GetFrame t :: calls w /\
     0 <= t <= duration c /\
     (0 <= playhead (timeline w) <= duration c -> t = playhead (timeline w)) /\
     (playhead (timeline w) < 0 -> t = 0) /\
     (duration c < playhead (timeline w) -> t = duration c)) /\
  timeline (_update_preview_frame w) = timeline w /\
  (forall now, now - last_preview_time w < interval -> timer_preview w now = w) /\
  (forall now, interval <= now - last_preview_time w ->
     last_preview_time (timer_preview w now) = now /\
     exists t, calls (timer_preview w now) = GetFrame t :: calls w /\
               0 <= t <= duration c) /\
  (forall now later,
     interval <= now - last_preview_time w -> later - now < interval ->
     timer_preview (timer_preview w now) later = timer_preview w now).
Proof.
  intros Hc Hd interval.
  assert (Ei : interval
               = 1 / inject_Z (if (1 <? preview_fps w)%Z
                               then preview_fps w else 1%Z)).
  { subst interval. f_equal. f_equal.
    destruct (1 <? preview_fps w)%Z eqn:E;
      [apply Z.ltb_lt in E | apply Z.ltb_ge in E]; lia. }
  assert (Hframe : forall v, clip v = Some c ->
            exists t, calls (_update_preview_frame v) = GetFrame t :: calls v /\
                      0 <= t <= duration c /\
                      (0 <= playhead (timeline v) <= duration c ->
                       t = playhead (timeline v)) /\
                      (playhead (timeline v) < 0 -> t = 0) /\
                      (duration c < playhead (timeline v) -> t = duration c)).
  { intros v Hv. unfold _update_preview_frame. rewrite Hv. fields.
    eexists. split; [reflexivity | ].
    destruct (Py.ltb (playhead (timeline v)) 0) eqn:E1; py_bool E1;
      destruct (Py.ltb (duration c) _) eqn:E2; py_bool E2;
      repeat split; intros; try reflexivity; try lra. }
  split; [apply Hframe, Hc | split; [ | split; [ | split] ] ].
  - unfold _update_preview_frame. rewrite Hc. reflexivity.
  - intros now Hlt. unfold timer_preview. rewrite <- Ei.
    apply ltb_iff in Hlt. rewrite Hlt. reflexivity.
  - intros now Hge. unfold timer_preview. rewrite <- Ei.
    apply ltb_false in Hge. rewrite Hge.
    split; [unfold _update_preview_frame; fields; rewrite Hc; reflexivity | ].
    destruct (Hframe (with_last_preview_time w now) Hc) as (t & Ht & Hr & _).
    exists t. split; [exact Ht | exact Hr].
  - intros now later Hge Hlt.
    assert (E : timer_preview w now
                = _update_preview_frame (with_last_preview_time w now)).
    { unfold timer_preview. rewrite <- Ei.
      apply ltb_false in Hge. rewrite Hge. reflexivity. }
    rewrite E. unfold timer_preview at 1.
    assert (El : last_preview_time
                   (_update_preview_frame (with_last_preview_time w now)) = now)
      by (unfold _update_preview_frame; fields; rewrite Hc; reflexivity).
    assert (Ef : preview_fps
                   (_update_preview_frame (with_last_preview_time w now))
                 = preview_fps w)
      by (unfold _update_preview_frame; fields; rewrite Hc; reflexivity).
    rewrite El, Ef, <- Ei. apply ltb_iff in Hlt. rewrite Hlt. reflexivity.
Qed.

Lemma X11_preview_frame_witness :
  let w := step playing_near_end 100.1 100.1 PlayPause in
  playhead (timeline w) == 10.05 /\
  calls (_update_preview_frame w) = GetFrame 10 :: calls w /\
  timer_preview (timer_preview w 200) 200.05 = timer_preview w 200.
Proof.
  intro w.
  assert (Hd : 0 <= duration (mkClip 10)) by (vm_compute; discriminate).
  destruct (X11_preview_frame_bounded w (mkClip 10) eq_refl Hd)
    as ((t & Ht & _ & _ & _ & Hhi) & _ & _ & _ & Htwice).
  refine (conj _ (conj _ _)).
  - reflexivity.
  - rewrite Ht, Hhi; [reflexivity | vm_compute; reflexivity].
  - apply Htwice; [vm_compute; discriminate | vm_compute; reflexivity].
Defined.

(** ** Seeking *)

(** The duration seeks are clamped with. *)
Lemma seek_target_cases w sec :
  let D := match clip w with Some c => duration c | None => 0 end in
  0 <= D ->
  0 <= seek_target w sec <= D /\
  (0 <= sec <= D -> seek_target w sec == sec) /\
  (sec <= 0 -> seek_target w sec == 0) /\
  (D <= sec -> seek_target w sec == D).
Proof.
  intros D HD. unfold seek_target. fold D.
  repeat split; intros; py_cases; lra.
Qed.

(** X12: the three ways to seek.  [_seek_to], [step_by] and
    [_slider_moved] put the playhead within [0, D], D being the duration of
    the clip, or 0 when no clip is loaded: at the requested time when it is
    within the clip, at 0 when it is before it and at D when it is past
    it.  A seek writes nothing else of the timeline and, while not playing,
    nothing of the playback clock; without a clip [step_by] and
    [_slider_moved] do nothing at all. *)
Theorem X12_seeks_stay_in_clip w now :
  let D := match clip w with Some c => duration c | None => 0 end in
  0 <= D ->
  (forall sec,
     let w' := _seek_to w now sec in
     0 <= playhead (timeline w') <= D /\
     (0 <= sec <= D -> playhead (timeline w') == sec) /\
     (sec <= 0 -> playhead (timeline w') == 0) /\
     (D <= sec -> playhead (timeline w') == D) /\
     timeline w' = with_playhead (timeline w) (playhead (timeline w')) /\
     (is_playing w = false ->
        play_offset w' = play_offset w /\
        play_start_sys w' = play_start_sys w /\ is_playing w' = false)) /\
  (forall seconds,
     let target := playhead (timeline w) + seconds in
     let w' := step_by w now seconds in
     (clip w = None -> w' = w) /\
     (clip w <> None ->
        0 <= playhead (timeline w') <= D /\
        (0 <= target <= D -> playhead (timeline w') == target) /\
        (target <= 0 -> playhead (timeline w') == 0) /\
        (D <= target -> playhead (timeline w') == D))) /\
  (forall value : Z,
     let w' := _slider_moved w now value in
     (clip w = None -> w' = w) /\
     (clip w <> None ->
        0 <= playhead (timeline w') <= D /\
        (0 <= inject_Z value <= D * 1000 ->
         playhead (timeline w') == inject_Z value / 1000) /\
        (D * 1000 <= inject_Z value -> playhead (timeline w') == D))).
Proof.
  intros D HD.
  pose proof (fun sec => seek_target_cases w sec HD) as Hseek. fold D in Hseek.
  assert (Hto : forall sec,
            playhead (timeline (_seek_to w now sec)) = seek_target w sec)
    by (intro sec; rewrite seek_to_timeline; reflexivity).
  split; [ | split].
  - intros sec w'. subst w'. rewrite Hto.
    destruct (Hseek sec) as (H1 & H2 & H3 & H4).
    repeat match goal with |- _ /\ _ => split end; try tauto.
    + apply seek_to_timeline.
    + intro H.
      destruct (seek_to_spec w now sec) as (_ & Ep & _ & Es & Eo).
      rewrite Es, Eo, Ep, H. auto.
  - intros seconds target w'. subst w'. unfold step_by.
    destruct (clip w) as [c | ] eqn:Hc; (split; [ | intro Hn]);
      try discriminate; try reflexivity; try (elim Hn; reflexivity).
    rewrite Hto. fold target.
    set (t := Py.max 0 (Py.min (duration c) target)).
    assert (Ht : 0 <= t <= D) by (subst t D; apply clamp_range; exact HD).
    destruct (Hseek t) as (H1 & H2 & _).
    repeat match goal with |- _ /\ _ => split end; try tauto;
      intros; rewrite (H2 Ht); subst t D; py_cases; lra.
  - intros value w'. subst w'. unfold _slider_moved.
    destruct (clip w) as [c | ] eqn:Hc; (split; [ | intro Hn]);
      try discriminate; try reflexivity; try (elim Hn; reflexivity).
    rewrite Hto.
    assert (E : inject_Z value / 1000 == inject_Z value * (1 # 1000))
      by reflexivity.
    destruct (Hseek (inject_Z value / 1000)) as (H1 & H2 & _ & H4).
    split; [exact H1 | split; intro Hv].
    + apply H2. rewrite E. split; lra.
    + apply H4. rewrite E. lra.
Qed.

Lemma X12_seeks_witness :
  playhead (timeline (_seek_to loaded_10 1 (-4))) == 0 /\
  playhead (timeline (_seek_to loaded_10 1 12.5)) == 10 /\
  playhead (timeline (step_by loaded_10 1 (-1))) == 0 /\
  playhead (timeline (_slider_moved loaded_10 1 2500)) == 2.5 /\
  step_by (init_window 1300) 1 1 = init_window 1300.
Proof.
  assert (HD : 0 <= match clip loaded_10 with
                    | Some c => duration c | None => 0 end)
    by (vm_compute; discriminate).
  assert (H0 : 0 <= match clip (init_window 1300) with
                    | Some c => duration c | None => 0 end)
    by (vm_compute; discriminate).
  destruct (X12_seeks_stay_in_clip loaded_10 1 HD) as (Hs & Hb & Hm).
  destruct (X12_seeks_stay_in_clip (init_window 1300) 1 H0) as (_ & Hb0 & _).
  refine (conj _ (conj _ (conj _ (conj _ _)))).
  - destruct (Hs (-4)) as (_ & _ & H & _). apply H. vm_compute. discriminate.
  - destruct (Hs 12.5) as (_ & _ & _ & H & _).
    rewrite H; [reflexivity | vm_compute; discriminate].
  - destruct (Hb (-1)) as (_ & H). destruct (H ltac:(discriminate))
      as (_ & _ & H3 & _). apply H3. vm_compute. discriminate.
  - destruct (Hm 2500%Z) as (_ & H). destruct (H ltac:(discriminate))
      as (_ & H2 & _). rewrite H2; [reflexivity | split; vm_compute; discriminate].
  - destruct (Hb0 1) as (H & _). apply H. reflexivity.
Defined.

(** ** The widget and the window together *)

(** X13: the window takes the widget's time as it is.  In a window that
    satisfies the invariant, a press that hits nothing puts the playhead at
    x_to_seconds(x), and a move while dragging the playhead puts it at the
    clamped time of the pointer: the clamp of [_seek_to], run by the
    seek_requested signal, changes neither.  While playing, the clock is
    re-anchored at that time and at the reading [now]; the markers and the
    clip are kept. *)
Theorem X13_pointer_seek_agrees w now now' x :
  inv w ->
  let tl := timeline w in
  (10 < Qabs (x - seconds_to_x tl (start_marker tl)) ->
   10 < Qabs (x - seconds_to_x tl (end_marker tl)) ->
   10 < Qabs (x - seconds_to_x tl (playhead tl)) ->
   let w' := step w now now' (Press x) in
   playhead (timeline w') == x_to_seconds tl x /\
   dragging (timeline w') = dragging tl /\
   same_range tl (timeline w') /\
   (is_playing w = true ->
      play_offset w' == x_to_seconds tl x /\ play_start_sys w' = Some now)) /\
  (dragging tl = Some DragPlayhead ->
   let w' := step w now now' (Move x) in
   playhead (timeline w') == move_seconds tl x /\
   dragging (timeline w') = Some DragPlayhead /\
   same_range tl (timeline w') /\
   (is_playing w = true ->
      play_offset w' == move_seconds tl x /\ play_start_sys w' = Some now)).
Proof.
  intros Hinv tl.
  pose proof Hinv as (Hm & Hc & _).
  assert (HD : 0 <= clip_duration tl)
    by (destruct Hm as (? & ? & ?); subst tl; lra).
  assert (Hgen : forall t, 0 <= t <= clip_duration tl ->
    let w' := _seek_to (with_timeline w (with_playhead tl t)) now t in
    playhead (timeline w') == t /\
    dragging (timeline w') = dragging tl /\
    same_range tl (timeline w') /\
    (is_playing w = true -> play_offset w' == t /\ play_start_sys w' = Some now)).
  { intros t Ht w'. subst w'.
    set (w1 := with_timeline w (with_playhead tl t)).
    assert (Hm1 : markers_ok (timeline w1)) by exact Hm.
    assert (Hc1 : clip_ok w1) by exact Hc.
    assert (Et : seek_target w1 t == t)
      by (apply seek_target_inside; assumption).
    destruct (seek_to_spec w1 now t) as (_ & _ & Etl & Es & Eo).
    rewrite Etl, Es, Eo. subst w1. fields.
    repeat match goal with |- _ /\ _ => split end; trivial.
    - unfold same_range. auto.
    - intro Hp. rewrite Hp. auto. }
  split.
  - intros H1 H2 H3. apply leb_false in H1. apply leb_false in H2.
    apply leb_false in H3. cbn [step]. unfold mousePressEvent.
    fold tl. change hit_radius with 10. rewrite H1, H2, H3.
    unfold dispatch. cbn [fold_left fst snd deliver].
    apply Hgen. apply x_to_seconds_range, HD.
  - intros Hd. cbn [step]. unfold mouseMoveEvent. fold tl. rewrite Hd.
    unfold dispatch. cbn [fold_left fst snd deliver].
    destruct (Hgen (move_seconds tl x) (move_seconds_range tl x HD))
      as (A & B & C & D).
    rewrite <- Hd. auto.
Qed.

Lemma X13_pointer_seek_witness :
  let w' := step playing_from_2 1001 1001 (Press 650) in
  playhead (timeline w') == 5 /\ play_offset w' == 5 /\
  play_start_sys w' = Some 1001.
Proof.
  intro w'.
  assert (Hinv : inv playing_from_2).
  { unfold inv, markers_ok, clip_ok.
    repeat match goal with |- _ /\ _ => split end;
      try (vm_compute; discriminate); try reflexivity.
    intros s E. vm_compute in E. injection E as <-. reflexivity. }
  destruct (X13_pointer_seek_agrees playing_from_2 1001 1001 650 Hinv)
    as (H & _).
  destruct H as (A & _ & _ & B); try (vm_compute; reflexivity).
  destruct (B eq_refl) as (B1 & B2). unfold w'.
  refine (conj _ (conj _ B2)); [rewrite A | rewrite B1]; reflexivity.
Defined.

(** X14: a marker drag carries the playhead along.  In a window that
    satisfies the invariant, after a move that drags the start or the end
    marker the playhead lies within the new range [S', E']: a playhead
    within the range is left alone, a playhead the start marker passed is
    on the start marker, and a playhead beyond the end marker is on the end
    marker. *)
Theorem X14_marker_drag_carries_playhead w now now' x :
  inv w -> 0 < now ->
  dragging (timeline w) = Some DragStart \/
  dragging (timeline w) = Some DragEnd ->
  let P := playhead (timeline w) in
  let tl' := timeline (step w now now' (Move x)) in
  start_marker tl' = start_marker (fst (mouseMoveEvent (timeline w) x)) /\
  end_marker tl' = end_marker (fst (mouseMoveEvent (timeline w) x)) /\
  start_marker tl' <= playhead tl' <= end_marker tl' /\
  (start_marker tl' <= P <= end_marker tl' -> playhead tl' = P) /\
  (P < start_marker tl' -> playhead tl' == start_marker tl') /\
  (end_marker tl' < P -> playhead tl' == end_marker tl').
Proof.
  intros Hinv Hnow Hd P tl'.
  pose proof Hinv as (Hm & Hc & Ho & Hp & Hs & Hpl).
  pose proof (mouseMove_markers (timeline w) x Hm) as (Hm' & Hd' & _).
  assert (Hshape : exists tl1,
    fst (mouseMoveEvent (timeline w) x) = tl1 /\
    playhead tl1 = P /\ clip_duration tl1 = clip_duration (timeline w) /\
    tl' = timeline (_on_range_changed (with_timeline w tl1) now
                      (start_marker tl1) (end_marker tl1))).
  { subst tl'. cbn [step]. unfold mouseMoveEvent, dispatch.
    destruct Hd as [-> | ->]; cbv zeta; cbn [fold_left fst snd deliver];
      eexists; (split; [reflexivity | ]); fields; auto. }
  destruct Hshape as (tl1 & E1 & EP & ED & Etl).
  rewrite E1 in *. clearbody tl'. subst tl'.
  assert (Hi : inv (with_timeline w tl1)).
  { unfold inv, clip_ok in *. fields. rewrite EP, ED. tauto. }
  destruct Hm' as (M0 & M1 & M2).
  destruct (on_range_changed_inv (with_timeline w tl1) now
              (start_marker tl1) (end_marker tl1) Hi Hnow M0 M1 M2)
    as (_ & _ & Es & Ee & _ & Hlt & Hgt & Hin).
  revert Hlt Hgt Hin. fields. rewrite EP. intros Hlt Hgt Hin.
  rewrite Es, Ee.
  repeat match goal with |- _ /\ _ => split end; trivial.
  - destruct (Qlt_le_dec P (start_marker tl1)) as [H | H];
      [rewrite (Hlt H); lra | ].
    destruct (Qlt_le_dec (end_marker tl1) P) as [H' | H'];
      [rewrite (Hgt H'); lra | ].
    rewrite Hin; [exact H | split; assumption].
  - destruct (Qlt_le_dec P (start_marker tl1)) as [H | H];
      [rewrite (Hlt H); lra | ].
    destruct (Qlt_le_dec (end_marker tl1) P) as [H' | H'];
      [rewrite (Hgt H'); lra | ].
    rewrite Hin; [exact H' | split; assumption].
Qed.

Lemma X14_marker_drag_witness :
  let w' := step dragging_start 2 2 (Move 410) in
  start_marker (timeline w') == 3 /\ playhead (timeline w') == 3.
Proof.
  intro w'.
  assert (Hinv : inv dragging_start).
  { unfold inv, markers_ok, clip_ok.
    repeat match goal with |- _ /\ _ => split end;
      try (vm_compute; discriminate); try reflexivity. }
  assert (Hnow : 0 < 2) by reflexivity.
  destruct (X14_marker_drag_carries_playhead dragging_start 2 2 410 Hinv Hnow
              (or_introl eq_refl)) as (Es & _ & _ & _ & Hlt & _).
  fold w' in Es, Hlt.
  assert (E3 : start_marker (timeline w') == 3) by (rewrite Es; reflexivity).
  split; [exact E3 | ].
  rewrite Hlt; [exact E3 | ]. rewrite E3. reflexivity.
Defined.

(** ** Sessions *)

Lemma seek_to_start w now sec s :
  play_start_sys (_seek_to w now sec) = Some s ->
  s = now \/ play_start_sys w = Some s.
Proof.
  destruct (seek_to_spec w now sec) as (_ & _ & _ & -> & _).
  destruct (is_playing w); [intro E; injection E as <-; auto | auto].
Qed.

Lemma on_range_changed_start w now a b s :
  play_start_sys (_on_range_changed w now a b) = Some s ->
  s = now \/ play_start_sys w = Some s.
Proof.
  unfold _on_range_changed. cbv zeta.
  set (w1 := with_timeline _ _).
  assert (E1 : play_start_sys w1 = play_start_sys w) by reflexivity.
  clearbody w1.
  set (w2 := if Py.ltb (playhead (timeline w1)) a then _ else _).
  assert (H2 : play_start_sys w2 = Some s ->
               s = now \/ play_start_sys w = Some s).
  { subst w2. destruct (Py.ltb _ _); intro H;
      [apply seek_to_start in H; destruct H; [auto | ] | ];
      right; rewrite <- E1; assumption. }
  clearbody w2.
  destruct (Py.ltb _ _); intro H; [ | auto].
  apply seek_to_start in H. destruct H; auto.
Qed.

(** The start instant an event leaves is the one it found or the reading
    of the clock it was handled at. *)
Lemma step_start w now now' ev s :
  play_start_sys (step w now now' ev) = Some s ->
  s = now \/ play_start_sys w = Some s.
Proof.
  destruct ev; cbn [step].
  - unfold mousePressEvent, dispatch.
    branches; cbn [fold_left fst snd deliver]; auto.
    intro H. apply seek_to_start in H. exact H.
  - unfold mouseMoveEvent, dispatch.
    branches; cbn [fold_left fst snd deliver]; auto; intro H;
      [apply on_range_changed_start in H | apply on_range_changed_start in H
       | apply seek_to_start in H]; exact H.
  - auto.
  - auto.
  - auto.
  - unfold _slider_moved. branches; auto. apply seek_to_start.
  - unfold play_pause, _pause_playback, _start_playback_at.
    branches; fields; auto; try discriminate.
    intro H. injection H as <-. auto.
  - unfold stop. branches; fields; auto. discriminate.
  - unfold step_by. branches; auto. apply seek_to_start.
  - unfold _on_timer, stop, timer_preview, _update_preview_frame.
    branches; fields; auto; try discriminate; intro; right; congruence.
  - unfold load_clip. cbn [negb]. branches; fields; auto. discriminate.
  - destruct (export_trimmed_frame w save_path run0) as (_ & _ & _ & -> & _).
    auto.
Qed.

Lemma run_inv evs :
  forall w last,
    inv w -> 0 < last -> started_before w last ->
    clock_sorted last evs -> Forall (fun e => event_ok (snd e)) evs ->
    inv (run w evs).
Proof.
  unfold run.
  induction evs as [ | [[now now'] ev] evs IH];
    intros w last Hinv Hlast Hsb Hck Hev; [exact Hinv | ].
  cbn [fold_left fst snd]. destruct Hck as (H1 & H2 & Hck).
  inversion Hev as [ | ? ? Hev1 Hevs]. subst. cbn [snd] in Hev1.
  apply (IH _ now').
  - apply step_inv; [exact Hinv | exact Hev1 | ].
    split; [lra | split; [exact H2 | ] ].
    intros s Hs. specialize (Hsb s Hs). lra.
  - lra.
  - intros s Hs. apply step_start in Hs. destruct Hs as [-> | Hs];
      [exact H2 | ]. specialize (Hsb s Hs). lra.
  - exact Hck.
  - exact Hevs.
Qed.

(** X15: the invariant of the window holds in every state a session can
    reach.  From the initial window, after any events handled at positive
    clock readings in order, with clips of duration >= 0: the markers
    satisfy 0 <= S <= E <= D, the playhead and the play offset are >= 0,
    the duration of the loaded clip is the timeline's (0 with no clip), and
    a playback under way has its start instant. *)
Theorem X15_reachable_states_keep_invariant wd evs t0 :
  0 < t0 -> clock_sorted t0 evs ->
  Forall (fun e => event_ok (snd e)) evs ->
  let w := run (init_window wd) evs in
  inv w /\
  0 <= start_marker (timeline w) /\
  start_marker (timeline w) <= end_marker (timeline w) /\
  end_marker (timeline w) <= clip_duration (timeline w) /\
  0 <= playhead (timeline w) /\ 0 <= play_offset w /\
  (is_playing w = true -> exists s, play_start_sys w = Some s /\ 0 < s).
Proof.
  intros Ht Hck Hev w.
  assert (Hinv : inv w).
  { apply (run_inv evs (init_window wd) t0); trivial.
    - apply init_window_inv.
    - intros s Hs. discriminate. }
  split; [exact Hinv | ].
  destruct Hinv as ((H0 & H1 & H2) & _ & Ho & Hp & Hs & Hpl).
  repeat match goal with |- _ /\ _ => split end; trivial.
  intro Hplay. specialize (Hpl Hplay).
  destruct (play_start_sys w) as [s | ]; [ | elim Hpl; reflexivity].
  exists s. split; [reflexivity | apply Hs; reflexivity].
Qed.

Lemma X15_reachable_witness :
  inv (run (init_window 1300)
           [ (1, 1, Load "clip.mp4" (Some (mkClip 10)));
             (2, 2, PlayPause); (3, 3.01, Timer);
             (4, 4, Press 1250); (5, 5, Move 300); (6, 6, Release);
             (7, 7.02, Timer); (8, 8, PlayPause) ]).
Proof.
  apply (X15_reachable_states_keep_invariant 1300 _ 1).
  - reflexivity.
  - cbn. repeat split; vm_compute; discriminate.
  - repeat constructor. cbn. vm_compute. discriminate.
Defined.

(** X16: the upper bound of the playhead.  In a window that satisfies the
    invariant, every event other than a pause keeps P <= D; a pause writes
    the derived position offset + (now - start) as it is, so it keeps
    P <= D exactly when the pause comes before the clock has run past the
    end of the clip. *)
Theorem X16_playhead_upper_bound w now now' ev :
  inv w -> playhead_in_clip w -> event_ok ev -> clock_ok w now now' ->
  let w' := step w now now' ev in
  ((ev = PlayPause -> is_playing w = false) -> playhead_in_clip w') /\
  (forall c s,
     ev = PlayPause -> clip w = Some c -> is_playing w = true ->
     play_start_sys w = Some s ->
     playhead (timeline w') = derived_position w s now /\
     (playhead_in_clip w' <->
      derived_position w s now <= clip_duration (timeline w))).
Proof.
  intros Hinv Hin Hev Hck w'. split.
  - intro Hnp. apply step_playhead_in_clip; assumption.
  - intros c s -> Ec Hp Hs. subst w'. cbn [step]. unfold play_pause.
    rewrite Ec, Hp.
    assert (E : playhead (timeline (_pause_playback w now now'))
                = derived_position w s now)
      by (apply pause_playhead; assumption).
    assert (ED : clip_duration (timeline (_pause_playback w now now'))
                 = clip_duration (timeline w)).
    { destruct (pause_inv w now now' Hinv Hck) as (_ & (H & _)). exact H. }
    split; [exact E | ].
    unfold playhead_in_clip. rewrite E, ED. tauto.
Qed.

Lemma X16_playhead_witness :
  playhead_in_clip (step playing_near_end 100.045 100.045 PlayPause) /\
  playhead_in_clip (step playing_near_end 100.1 100.1 Timer).
Proof.
  assert (Hinv : inv playing_near_end).
  { unfold inv, markers_ok, clip_ok.
    repeat match goal with |- _ /\ _ => split end;
      try (vm_compute; discriminate); try reflexivity.
    intros s E. vm_compute in E. injection E as <-. reflexivity. }
  assert (Hin : playhead_in_clip playing_near_end)
    by (vm_compute; discriminate).
  assert (Hck : forall t, 100 <= t -> clock_ok playing_near_end t t).
  { intros t Ht. split; [lra | split; [lra | ] ].
    intros s E. vm_compute in E. injection E as <-. exact Ht. }
  split.
  - destruct (X16_playhead_upper_bound playing_near_end 100.045 100.045
                PlayPause Hinv Hin I
                (Hck 100.045 ltac:(vm_compute; discriminate)))
      as (_ & H).
    destruct (H (mkClip 10) 100 eq_refl eq_refl eq_refl eq_refl) as (_ & H').
    apply H'. vm_compute. discriminate.
  - destruct (X16_playhead_upper_bound playing_near_end 100.1 100.1
                Timer Hinv Hin I
                (Hck 100.1 ltac:(vm_compute; discriminate)))
      as (H & _).
    apply H. discriminate.
Defined.

(** ** Without a clip *)

Lemma seek_to_idle w now sec :
  is_playing w = false ->
  let w' := _seek_to w now sec in
  clip w' = clip w /\ is_playing w' = false /\
  play_start_sys w' = play_start_sys w /\ calls w' = calls w /\
  timeline w' = with_playhead (timeline w) (seek_target w sec).
Proof.
  intro Hp. unfold _seek_to, seek_target. fields. rewrite Hp. fields. auto.
Qed.

Lemma seek_target_no_clip w sec : clip w = None -> seek_target w sec == 0.
Proof. intro Hc. unfold seek_target. rewrite Hc. py_cases; lra. Qed.

Lemma empty_after_seek w now sec tl' :
  empty_state w -> same_range (timeline w) tl' ->
  let w' := _seek_to (with_timeline w tl') now sec in
  empty_state w' /\ calls w' = calls w.
Proof.
  intros (Hc & Hp & Hs & HD & HS & HE & HP) (Ed & Es & Ee).
  destruct (seek_to_idle (with_timeline w tl') now sec Hp)
    as (E1 & E2 & E3 & E4 & E5).
  unfold empty_state. rewrite E1, E2, E3, E4, E5. fields.
  rewrite Ed, Es, Ee.
  repeat match goal with |- _ /\ _ => split end; trivial.
  apply seek_target_no_clip. exact Hc.
Qed.

Lemma empty_after_range_changed w now s e :
  empty_state w -> s == 0 -> e == 0 ->
  let w' := _on_range_changed w now s e in
  empty_state w' /\ calls w' = calls w.
Proof.
  intros Hemp Hs0 He0. unfold _on_range_changed. cbv zeta.
  set (w1 := with_timeline _ _).
  assert (H1 : empty_state w1 /\ calls w1 = calls w).
  { destruct Hemp as (Hc & Hp & Hs & HD & HS & HE & HP).
    unfold empty_state. subst w1. fields. auto 10. }
  clearbody w1. destruct H1 as [H1 C1].
  set (w2 := if Py.ltb (playhead (timeline w1)) s then _ else _).
  assert (H2 : empty_state w2 /\ calls w2 = calls w).
  { subst w2. destruct (Py.ltb _ _); [ | auto].
    destruct (empty_after_seek w1 now s (timeline w1) H1 (same_range_refl _))
      as [A B].
    assert (E : with_timeline w1 (timeline w1) = w1) by (destruct w1; reflexivity).
    rewrite E in A, B. split; [exact A | congruence]. }
  clearbody w2. destruct H2 as [H2 C2].
  destruct (Py.ltb _ _); [ | auto].
  destruct (empty_after_seek w2 now e (timeline w2) H2 (same_range_refl _))
    as [A B].
  assert (E : with_timeline w2 (timeline w2) = w2) by (destruct w2; reflexivity).
  rewrite E in A, B. split; [exact A | congruence].
Qed.

Lemma empty_step w now now' ev :
  empty_state w -> not_loading ev ->
  let w' := step w now now' ev in
  empty_state w' /\
  (forall k, In k (calls w') -> needs_clip k = true -> In k (calls w)).
Proof.
  intros Hemp Hev.
  pose proof Hemp as (Hc & Hp & Hs & HD & HS & HE & HP).
  assert (Hframe : forall tl', same_range (timeline w) tl' ->
            playhead tl' = playhead (timeline w) ->
            empty_state (with_timeline w tl')).
  { intros tl' (Ed & Es & Ee) Ep. unfold empty_state. fields.
    rewrite Ed, Es, Ee, Ep. auto 10. }
  destruct ev; cbn [step].
  - unfold mousePressEvent, dispatch.
    branches; cbn [fold_left fst snd deliver];
      try (split; [apply Hframe; [frame | reflexivity] | auto]).
    destruct (empty_after_seek w now (x_to_seconds (timeline w) x)
                (with_playhead (timeline w) (x_to_seconds (timeline w) x))
                Hemp ltac:(frame)) as [A B].
    split; [exact A | rewrite B; auto].
  - assert (Hsec : move_seconds (timeline w) x == 0).
    { unfold move_seconds. py_cases; lra. }
    unfold mouseMoveEvent, dispatch.
    destruct (dragging (timeline w)) as [[ | | ] | ];
      cbv zeta; cbn [fold_left fst snd deliver].
    + set (s := Py.min _ _).
      assert (Es : s == 0) by (subst s; py_cases; lra).
      destruct (empty_after_range_changed
                  (with_timeline w (with_start_marker (timeline w) s)) now
                  s (end_marker (timeline w))) as [A B]; trivial.
      { unfold empty_state. fields. auto 10. }
      split; [exact A | rewrite B; auto].
    + set (e := Py.max _ _).
      assert (Ee : e == 0) by (subst e; py_cases; lra).
      destruct (empty_after_range_changed
                  (with_timeline w (with_end_marker (timeline w) e)) now
                  (start_marker (timeline w)) e) as [A B]; trivial.
      { unfold empty_state. fields. auto 10. }
      split; [exact A | rewrite B; auto].
    + destruct (empty_after_seek w now (move_seconds (timeline w) x)
                  (with_playhead (timeline w) (move_seconds (timeline w) x))
                  Hemp ltac:(frame)) as [A B].
      split; [exact A | rewrite B; auto].
    + split; [apply Hframe; [apply same_range_refl | reflexivity] | auto].
  - split; [apply Hframe; [unfold mouseReleaseEvent; frame | reflexivity] | auto].
  - split; [ | auto].
    apply Hframe; unfold wheelEvent; branches; try frame; reflexivity.
  - split; [apply Hframe; [frame | reflexivity] | auto].
  - unfold _slider_moved. rewrite Hc. auto.
  - unfold play_pause. rewrite Hc. auto.
  - unfold stop. rewrite Hc. auto.
  - unfold step_by. rewrite Hc. auto.
  - unfold _on_timer. rewrite Hc. auto.
  - destruct opened as [c | ]; [elim Hev | ].
    unfold load_clip. cbn [negb]. split.
    + unfold empty_state. fields. auto 10.
    + fields. intros k [<- | Hk] Hn; [discriminate | exact Hk].
  - unfold export_trimmed. rewrite Hc. split.
    + unfold empty_state. fields. auto 10.
    + fields. intros k [<- | Hk] Hn; [discriminate | exact Hk].
Qed.

(** X17: nothing happens without a clip.  From the initial window, as long
    as no clip has been loaded (a failed load included), whatever the
    pointer, the wheel, the sliders, the transport buttons, the timer and
    the export button do: no clip is set, playback never starts, the clip
    duration, both markers and the playhead stay 0, and no call that needs
    a clip (a frame, a subclip, a write, the save dialog) is made. *)
Theorem X17_nothing_without_a_clip wd evs :
  Forall (fun e => not_loading (snd e)) evs ->
  let w := run (init_window wd) evs in
  empty_state w /\
  Forall (fun k => needs_clip k = false) (calls w).
Proof.
  intros Hev w. subst w. unfold run.
  assert (H0 : empty_state (init_window wd) /\
               forall k, In k (calls (init_window wd)) -> needs_clip k = false).
  { split; [ | intros k []].
    unfold empty_state. cbn. repeat split; reflexivity. }
  revert H0. generalize (init_window wd).
  induction evs as [ | [[now now'] ev] evs IH]; intros w [He Hk].
  - split; [exact He | apply Forall_forall; exact Hk].
  - cbn [fold_left fst snd]. inversion Hev as [ | ? ? H1 H2]. subst.
    destruct (empty_step w now now' ev He H1) as [He' Hk'].
    apply IH; [exact H2 | split; [exact He' | ] ].
    intros k Hin. destruct (needs_clip k) eqn:E; [ | reflexivity].
    pose proof (Hk k (Hk' k Hin E)). congruence.
Qed.

Lemma X17_nothing_witness :
  let w := run (init_window 1300)
               [ (1, 1, PlayPause); (2, 2, Press 900); (3, 3, Press 590);
                 (4, 4, Move 700); (5, 5.1, Timer);
                 (6, 6, Load "x.mp4" None); (7, 7, Export "o.mp4" ExportDone) ] in
  is_playing w = false /\ playhead (timeline w) == 0 /\
  end_marker (timeline w) == 0 /\
  Forall (fun k => needs_clip k = false) (calls w).
Proof.
  intro w.
  destruct (X17_nothing_without_a_clip 1300
              [ (1, 1, PlayPause); (2, 2, Press 900); (3, 3, Press 590);
                (4, 4, Move 700); (5, 5.1, Timer);
                (6, 6, Load "x.mp4" None); (7, 7, Export "o.mp4" ExportDone) ])
    as ((_ & Hp & _ & _ & _ & HE & HP) & Hk).
  - repeat constructor.
  - fold w in Hp, HE, HP, Hk. auto.
Defined.

(** ** Loading, exporting and cutting *)

(** X18: [load_clip].  When MoviePy is missing or the file does not open,
    the clip, the timeline and the playback are left as they are and one
    critical message is shown.  When the clip opens, whatever the window
    was doing: playback is stopped with offset 0, the playhead and the
    start marker are 0, the end marker is the clip's duration, the first
    frame is requested, and the zoom, the geometry and the drag state are
    kept; for a duration >= 0 the timeline's duration is the clip's and the
    window satisfies its invariant again, with P <= D. *)
Theorem X18_load_clip_resets w path :
  (let w' := load_clip w false path None in
   forall opened,
     load_clip w false path opened = w' /\
     w' = call w (MsgCritical "Missing dependency")) /\
  (let w' := load_clip w true path None in
   clip w' = clip w /\ timeline w' = timeline w /\
   is_playing w' = is_playing w /\ play_offset w' = play_offset w /\
   play_start_sys w' = play_start_sys w /\ status_label w' = Ready /\
   calls w' = MsgCritical "Load error" :: calls w) /\
  (forall c,
     let w' := load_clip w true path (Some c) in
     clip w' = Some c /\ clip_path w' = Some path /\
     stopped w' /\ play_offset w' = 0 /\
     playhead (timeline w') = 0 /\ start_marker (timeline w') = 0 /\
     end_marker (timeline w') = duration c /\
     same_view (timeline w) (timeline w') /\
     pixels_per_second (timeline w') = pixels_per_second (timeline w) /\
     dragging (timeline w') = dragging (timeline w) /\
     calls w' = GetFrame 0 :: calls w /\
     (0 <= duration c ->
        clip_duration (timeline w') == duration c /\
        inv w' /\ playhead_in_clip w')).
Proof.
  split; [ | split].
  - cbv zeta. intro opened. unfold load_clip. cbn [negb]. auto.
  - cbv zeta. unfold load_clip. cbn [negb]. fields. auto 10.
  - intros c w'. subst w'. unfold load_clip. cbn [negb]. fields.
    unfold stopped, same_view. fields.
    repeat match goal with |- _ /\ _ => split end; try reflexivity.
    intro Hd.
    assert (E : Py.max 0 (duration c) == duration c) by (py_cases; lra).
    unfold inv, markers_ok, clip_ok, playhead_in_clip. fields. rewrite E.
    repeat match goal with |- _ /\ _ => split end;
      try lra; try discriminate; try reflexivity.
Qed.

Lemma X18_load_clip_witness :
  let w' := load_clip (step playing_near_end 100.1 100.1 PlayPause) true
                      "next.mp4" (Some (mkClip 4)) in
  inv w' /\ playhead_in_clip w' /\ end_marker (timeline w') == 4.
Proof.
  intro w'.
  destruct (X18_load_clip_resets
              (step playing_near_end 100.1 100.1 PlayPause) "next.mp4")
    as (_ & _ & H).
  destruct (H (mkClip 4)) as (_ & _ & _ & _ & _ & _ & He & _ & _ & _ & _ & Hi).
  destruct Hi as (_ & Hi & Hin); [vm_compute; discriminate | ].
  fold w' in He. refine (conj Hi (conj Hin _)). rewrite He. reflexivity.
Defined.

Lemma length_zero_iff (p : string) :
  (String.length p =? 0)%nat = true <-> p = ""%string.
Proof.
  destruct p; cbn; split; intro H; try reflexivity; discriminate.
Qed.

(** Membership in an explicit list of calls. *)
Ltac in_calls :=
  cbn [In app] in *;
  repeat match goal with |- _ /\ _ => split end;
  intros;
  repeat match goal with
    | H : _ \/ _ |- _ => destruct H
    | H : _ /\ _ |- _ => destruct H
    | H : False |- _ => destruct H
    | H : Subclip _ _ = Subclip _ _ |- _ => injection H as <- <-
    | H : WriteVideofile _ = WriteVideofile _ |- _ => injection H as <-
    | H : ?a = ?b |- _ => discriminate H
    end;
  repeat match goal with |- _ /\ _ => split end;
  try reflexivity; try assumption; try discriminate; auto 10.

(** X19: what an export does.  [export_trimmed] never writes the clip, the
    timeline or the playback fields.  It asks the clip service for a
    subclip only with a clip loaded, a range E - S above 0.01 s and a file
    name from the save dialog, and then for exactly the marked range
    [S, E]; it writes only the file chosen, and only after that subclip.
    A cancelled dialog changes nothing else; a completed export ends with
    the status "Exported" and a raised error with "Export failed". *)
Theorem X19_export_calls w path run_ :
  let S := start_marker (timeline w) in
  let E := end_marker (timeline w) in
  let w' := export_trimmed w path run_ in
  (timeline w' = timeline w /\ clip w' = clip w /\
   is_playing w' = is_playing w /\ play_offset w' = play_offset w /\
   play_start_sys w' = play_start_sys w) /\
  (exists new,
     calls w' = new ++ calls w /\
     (forall a b, In (Subclip a b) new ->
        a = S /\ b = E /\ 0.01 < E - S /\ clip w <> None /\ path <> ""%string) /\
     (forall p, In (WriteVideofile p) new ->
        p = path /\ In (Subclip S E) new /\ run_ <> SubclipRaises) /\
     (In SaveFileDialog new -> clip w <> None /\ 0.01 < E - S)) /\
  (clip w <> None -> 0.01 < E - S ->
     (path = ""%string -> w' = call w SaveFileDialog) /\
     (path <> ""%string -> run_ = ExportDone ->
        status_label w' = Exported path /\
        calls w' = MsgInformation "Export done" :: WriteVideofile path
                   :: Subclip S E :: SaveFileDialog :: calls w) /\
     (path <> ""%string -> run_ <> ExportDone ->
        status_label w' = ExportFailed /\
        exists rest, calls w' = MsgCritical "Export error" :: rest)).
Proof.
  intros S E w'.
  split.
  { destruct (export_trimmed_frame w path run_) as (? & ? & ? & ? & ?).
    auto. }
  subst w'. unfold export_trimmed. fold S E. change min_export_range with 0.01.
  destruct (clip w) as [c | ] eqn:Hc.
  2: { split; [exists [MsgInformation "No clip"]; fields; in_calls | ].
       intro H. elim H. reflexivity. }
  assert (Hsome : Some c <> None) by discriminate.
  destruct (Py.leb (E - S) 0.01) eqn:Hr; py_bool Hr.
  { split; [exists [MsgWarning "Invalid range"]; fields; in_calls | ].
    intros _ H. lra. }
  destruct (String.length path =? 0)%nat eqn:Hl.
  { apply length_zero_iff in Hl. subst path.
    split; [exists [SaveFileDialog]; fields; in_calls | ].
    intros _ _.
    split; [intros _; reflexivity | split; intros H; elim H; reflexivity]. }
  assert (Hp : path <> ""%string).
  { intro H. apply length_zero_iff in H. congruence. }
  split.
  - destruct run_; fields.
    + exists [MsgCritical "Export error"; Subclip S E; SaveFileDialog].
      in_calls.
    + exists [MsgCritical "Export error"; WriteVideofile path; Subclip S E;
              SaveFileDialog].
      in_calls.
    + exists [MsgInformation "Export done"; WriteVideofile path; Subclip S E;
              SaveFileDialog].
      in_calls.
  - intros _ _. split; [intro H; contradiction | split].
    + intros _ ->. fields. auto.
    + intros _ Hn. destruct run_; fields;
        try (elim Hn; reflexivity); (split; [reflexivity | eexists; reflexivity]).
Qed.

Lemma X19_export_witness :
  let w' := export_trimmed loaded_10 "cut.mp4" ExportDone in
  status_label w' = Exported "cut.mp4" /\
  calls w' = MsgInformation "Export done" :: WriteVideofile "cut.mp4"
             :: Subclip 0 10 :: SaveFileDialog :: calls loaded_10 /\
  export_trimmed loaded_10 "" ExportDone = call loaded_10 SaveFileDialog.
Proof.
  intro w'.
  assert (Hc : clip loaded_10 <> None) by discriminate.
  assert (Hr : 0.01 < end_marker (timeline loaded_10)
                      - start_marker (timeline loaded_10))
    by (vm_compute; reflexivity).
  destruct (X19_export_calls loaded_10 "cut.mp4" ExportDone) as (_ & _ & H).
  destruct (H Hc Hr) as (_ & Hdone & _).
  destruct (Hdone ltac:(discriminate) eq_refl) as (A & B).
  destruct (X19_export_calls loaded_10 "" ExportDone) as (_ & _ & H').
  destruct (H' Hc Hr) as (Hcancel & _).
  refine (conj A (conj B (Hcancel eq_refl))).
Defined.

(** X20: [cut_in_place].  Without a clip it does nothing; with the end
    marker at or before the start marker it only warns; when the clip
    service raises it has only asked for the subclip of [S, E].  When the
    subclip [sub] comes back, the old clip is closed and [sub] is the clip:
    the playhead and the start marker are 0 and, for a duration >= 0, the
    end marker and the timeline's duration are the duration of [sub].
    Playback is not stopped: while playing, the clock is re-anchored at
    offset 0 and the reading [now]. *)
Theorem X20_cut_in_place w now sub :
  let S := start_marker (timeline w) in
  let E := end_marker (timeline w) in
  let w' := cut_in_place w now sub in
  (clip w = None -> w' = w) /\
  (clip w <> None -> E <= S -> w' = call w (MsgWarning "Invalid range")) /\
  (clip w <> None -> S < E -> sub = None ->
     w' = call (call w (Subclip S E)) (MsgCritical "Cut error")) /\
  (forall c, clip w <> None -> S < E -> sub = Some c -> 0 <= duration c ->
     clip w' = Some c /\ clip_path w' = None /\ status_label w' = CutApplied /\
     calls w' = CloseClip :: Subclip S E :: calls w /\
     clip_duration (timeline w') == duration c /\
     start_marker (timeline w') = 0 /\
     end_marker (timeline w') == duration c /\
     playhead (timeline w') == 0 /\
     markers_ok (timeline w') /\
     is_playing w' = is_playing w /\
     (is_playing w = true ->
        play_offset w' == 0 /\ play_start_sys w' = Some now) /\
     (is_playing w = false ->
        play_offset w' = play_offset w /\
        play_start_sys w' = play_start_sys w)).
Proof.
  intros S E w'. subst w'. unfold cut_in_place. fold S E.
  destruct (clip w) as [c0 | ] eqn:Hc.
  2: { split; [intros _; reflexivity | ].
       split; [intros H; elim H; reflexivity | ].
       split; [intros H; elim H; reflexivity | ].
       intros c H; elim H; reflexivity. }
  split; [discriminate | ].
  destruct (Py.leb E S) eqn:Hr; py_bool Hr.
  { split; [reflexivity | ].
    split; [intros _ H; lra | intros c _ H; lra]. }
  split; [intros _ H; lra | ].
  split; [intros _ _ ->; reflexivity | ].
  intros c _ _ -> Hd.
  set (w1 := with_timeline _ _).
  assert (E0 : seek_target w1 0 == 0).
  { unfold seek_target. subst w1. fields. py_cases; lra. }
  assert (Ed : Py.max 0 (duration c) == duration c) by (py_cases; lra).
  destruct (seek_to_spec w1 now 0) as (A1 & A2 & A3 & A4 & A5).
  assert (Ecalls : calls (_seek_to w1 now 0) = calls w1)
    by (unfold _seek_to; destruct (is_playing _); reflexivity).
  assert (Epath : clip_path (_seek_to w1 now 0) = clip_path w1)
    by (unfold _seek_to; destruct (is_playing _); reflexivity).
  assert (Estat : status_label (_seek_to w1 now 0) = status_label w1)
    by (unfold _seek_to; destruct (is_playing _); reflexivity).
  rewrite A1, A2, A3, A4, A5, Ecalls, Epath, Estat.
  subst w1. unfold markers_ok. fields. rewrite Ed.
  repeat match goal with |- _ /\ _ => split end;
    try reflexivity; try exact E0; try lra.
  - intros ->. split; [exact E0 | reflexivity].
  - intros ->. split; reflexivity.
Qed.

Lemma X20_cut_witness :
  let w' := cut_in_place short_range 9 (Some (mkClip 0.005)) in
  clip w' = Some (mkClip 0.005) /\
  end_marker (timeline w') == 0.005 /\ playhead (timeline w') == 0 /\
  cut_in_place (init_window 1300) 9 None = init_window 1300.
Proof.
  intro w'.
  destruct (X20_cut_in_place short_range 9 (Some (mkClip 0.005)))
    as (_ & _ & _ & H).
  assert (Hc : clip short_range <> None) by (vm_compute; discriminate).
  assert (Hr : start_marker (timeline short_range)
               < end_marker (timeline short_range))
    by (vm_compute; reflexivity).
  assert (Hd : 0 <= duration (mkClip 0.005)) by (vm_compute; discriminate).
  destruct (H (mkClip 0.005) Hc Hr eq_refl Hd)
    as (A & _ & _ & _ & _ & _ & B & C & _).
  destruct (X20_cut_in_place (init_window 1300) 9 None) as (H0 & _).
  refine (conj A (conj B (conj C (H0 eq_refl)))).
Defined.

(** ** The tick step and the labels *)

(** Being at least as near to [raw] as a larger (smaller) candidate puts
    [raw] at or below (above) the midpoint of the two. *)
Lemma nearer_than_above (s y raw : Q) :
  s < y -> Qabs (s - raw) <= Qabs (y - raw) -> 2 * raw <= s + y.
Proof.
  intros Hsy H.
  destruct (Qlt_le_dec (s - raw) 0) as [H1 | H1];
    [rewrite (Qabs_neg (s - raw)) in H by lra
    | rewrite (Qabs_pos (s - raw)) in H by lra];
  (destruct (Qlt_le_dec (y - raw) 0) as [H2 | H2];
    [rewrite (Qabs_neg (y - raw)) in H by lra
    | rewrite (Qabs_pos (y - raw)) in H by lra]); lra.
Qed.

Lemma nearer_than_below (s y raw : Q) :
  y < s -> Qabs (s - raw) <= Qabs (y - raw) -> s + y <= 2 * raw.
Proof.
  intros Hsy H.
  destruct (Qlt_le_dec (s - raw) 0) as [H1 | H1];
    [rewrite (Qabs_neg (s - raw)) in H by lra
    | rewrite (Qabs_pos (s - raw)) in H by lra];
  (destruct (Qlt_le_dec (y - raw) 0) as [H2 | H2];
    [rewrite (Qabs_neg (y - raw)) in H by lra
    | rewrite (Qabs_pos (y - raw)) in H by lra]); lra.
Qed.

(** X21: how far the snapped step is from the wanted one.  For a wanted
    step between 1 and 600 seconds per tick, the nice step chosen is within
    the factors 4/7 and 10/7 of it, so ticks wanted 120 px apart are drawn
    between about 69 and 171 px apart; a wanted step of 600 or more is
    snapped to 600; and the step [paintEvent] asks for is never below 1. *)
Theorem X21_snap_within_factor :
  (forall raw, 1 <= raw -> raw <= 600 ->
     4 * raw <= 7 * inject_Z (snap raw) /\
     7 * inject_Z (snap raw) <= 10 * raw) /\
  (forall raw, 600 <= raw -> snap raw = 600%Z) /\
  (forall raw, raw <= 1 -> snap raw = 1%Z) /\
  (forall tl, 1 <= raw_seconds_per_tick tl).
Proof.
  assert (Hnear : forall raw y, In y nice ->
            Qabs (inject_Z (snap raw) - raw) <= Qabs (inject_Z y - raw))
    by (intros raw y; apply (first_min_least _ _ _ (snap_first_min raw))).
  assert (Hin : forall raw, In (snap raw) nice)
    by (intro raw; apply (first_min_In _ _ _ (snap_first_min raw))).
  assert (Hup : forall raw (s y : Z), snap raw = s -> In y nice -> (s < y)%Z ->
            2 * raw <= inject_Z s + inject_Z y).
  { intros raw s y Es Hy Hlt. apply nearer_than_above.
    - rewrite <- Zlt_Qlt. exact Hlt.
    - rewrite <- Es. apply Hnear, Hy. }
  assert (Hdn : forall raw (s y : Z), snap raw = s -> In y nice -> (y < s)%Z ->
            inject_Z s + inject_Z y <= 2 * raw).
  { intros raw s y Es Hy Hlt. apply nearer_than_below.
    - rewrite <- Zlt_Qlt. exact Hlt.
    - rewrite <- Es. apply Hnear, Hy. }
  assert (Hmem : forall y, In y nice ->
            y = 1%Z \/ y = 2%Z \/ y = 5%Z \/ y = 10%Z \/ y = 15%Z \/
            y = 30%Z \/ y = 60%Z \/ y = 120%Z \/ y = 300%Z \/ y = 600%Z).
  { intros y Hy. unfold nice in Hy. cbn [In] in Hy.
    repeat (destruct Hy as [Hy | Hy]; [auto 12 | ]). destruct Hy. }
  assert (Hn : forall y, y = 1%Z \/ y = 2%Z \/ y = 5%Z \/ y = 10%Z \/
                          y = 15%Z \/ y = 30%Z \/ y = 60%Z \/ y = 120%Z \/
                          y = 300%Z \/ y = 600%Z -> In y nice).
  { intros y Hy. unfold nice. cbn [In].
    repeat (destruct Hy as [Hy | Hy]; [auto 12 | ]). auto 12. }
  repeat match goal with |- _ /\ _ => split end.
  - intros raw H1 H600.
    destruct (Hmem _ (Hin raw)) as
      [E | [E | [E | [E | [E | [E | [E | [E | [E | E]]]]]]]]]; rewrite E.
    + pose proof (Hup raw 1%Z 2%Z E ltac:(apply Hn; auto 12) ltac:(lia)).
      change (inject_Z 1) with 1 in *. change (inject_Z 2) with 2 in *. lra.
    + pose proof (Hup raw 2%Z 5%Z E ltac:(apply Hn; auto 12) ltac:(lia)).
      pose proof (Hdn raw 2%Z 1%Z E ltac:(apply Hn; auto 12) ltac:(lia)).
      change (inject_Z 1) with 1 in *. change (inject_Z 2) with 2 in *.
      change (inject_Z 5) with 5 in *. lra.
    + pose proof (Hup raw 5%Z 10%Z E ltac:(apply Hn; auto 12) ltac:(lia)).
      pose proof (Hdn raw 5%Z 2%Z E ltac:(apply Hn; auto 12) ltac:(lia)).
      change (inject_Z 10) with 10 in *. change (inject_Z 2) with 2 in *.
      change (inject_Z 5) with 5 in *. lra.
    + pose proof (Hup raw 10%Z 15%Z E ltac:(apply Hn; auto 12) ltac:(lia)).
      pose proof (Hdn raw 10%Z 5%Z E ltac:(apply Hn; auto 12) ltac:(lia)).
      change (inject_Z 10) with 10 in *. change (inject_Z 15) with 15 in *.
      change (inject_Z 5) with 5 in *. lra.
    + pose proof (Hup raw 15%Z 30%Z E ltac:(apply Hn; auto 12) ltac:(lia)).
      pose proof (Hdn raw 15%Z 10%Z E ltac:(apply Hn; auto 12) ltac:(lia)).
      change (inject_Z 10) with 10 in *. change (inject_Z 15) with 15 in *.
      change (inject_Z 30) with 30 in *. lra.
    + pose proof (Hup raw 30%Z 60%Z E ltac:(apply Hn; auto 12) ltac:(lia)).
      pose proof (Hdn raw 30%Z 15%Z E ltac:(apply Hn; auto 12) ltac:(lia)).
      change (inject_Z 60) with 60 in *. change (inject_Z 15) with 15 in *.
      change (inject_Z 30) with 30 in *. lra.
    + pose proof (Hup raw 60%Z 120%Z E ltac:(apply Hn; auto 12) ltac:(lia)).
      pose proof (Hdn raw 60%Z 30%Z E ltac:(apply Hn; auto 12) ltac:(lia)).
      change (inject_Z 60) with 60 in *. change (inject_Z 120) with 120 in *.
      change (inject_Z 30) with 30 in *. lra.
    + pose proof (Hup raw 120%Z 300%Z E ltac:(apply Hn; auto 12) ltac:(lia)).
      pose proof (Hdn raw 120%Z 60%Z E ltac:(apply Hn; auto 12) ltac:(lia)).
      change (inject_Z 60) with 60 in *. change (inject_Z 120) with 120 in *.
      change (inject_Z 300) with 300 in *. lra.
    + pose proof (Hup raw 300%Z 600%Z E ltac:(apply Hn; auto 12) ltac:(lia)).
      pose proof (Hdn raw 300%Z 120%Z E ltac:(apply Hn; auto 12) ltac:(lia)).
      change (inject_Z 600) with 600 in *. change (inject_Z 120) with 120 in *.
      change (inject_Z 300) with 300 in *. lra.
    + pose proof (Hdn raw 600%Z 300%Z E ltac:(apply Hn; auto 12) ltac:(lia)).
      change (inject_Z 600) with 600 in *.
      change (inject_Z 300) with 300 in *. lra.
  - intros raw H600.
    destruct (Z.eq_dec (snap raw) 600) as [E | Hne]; [exact E | exfalso].
    assert (Hlt : (snap raw < 600)%Z).
    { destruct (Hmem _ (Hin raw)) as
        [E | [E | [E | [E | [E | [E | [E | [E | [E | E]]]]]]]]]; lia. }
    pose proof (Hup raw (snap raw) 600%Z eq_refl ltac:(apply Hn; auto 12) Hlt) as H.
    change (inject_Z 600) with 600 in H.
    assert (Hq : inject_Z (snap raw) < 600)
      by (change 600 with (inject_Z 600); rewrite <- Zlt_Qlt; exact Hlt).
    lra.
  - intros raw H1.
    destruct (Z.eq_dec (snap raw) 1) as [E | Hne]; [exact E | exfalso].
    assert (Hgt : (1 < snap raw)%Z).
    { destruct (Hmem _ (Hin raw)) as
        [E | [E | [E | [E | [E | [E | [E | [E | [E | E]]]]]]]]]; lia. }
    (* the first match wins a tie, so being as near as 1 is not enough *)
    destruct (snap_first_min raw) as (pre & post & Esplit & Hpre & _).
    cbv beta in Hpre. clear Hne. revert Esplit Hpre Hgt.
    generalize (snap raw). intros s Esplit Hpre Hgt.
    assert (Hone : In 1%Z pre).
    { unfold nice in Esplit. destruct pre as [ | p pre'].
      - cbn [app] in Esplit. injection Esplit as E _. lia.
      - cbn [app] in Esplit. injection Esplit as E _. left. auto. }
    specialize (Hpre 1%Z Hone).
    assert (Hq : 1 < inject_Z s)
      by (change 1 with (inject_Z 1); rewrite <- Zlt_Qlt; exact Hgt).
    change (inject_Z 1) with 1 in Hpre.
    rewrite (Qabs_pos (inject_Z s - raw)) in Hpre by lra.
    rewrite (Qabs_pos (1 - raw)) in Hpre by lra. lra.
  - intro tl. unfold raw_seconds_per_tick. py_cases; lra.
Qed.

Lemma X21_snap_witness :
  snap 3.4 = 2%Z /\ snap 3.6 = 5%Z /\ snap 3.5 = 2%Z /\
  4 * 3.5 <= 7 * inject_Z (snap 3.5) /\
  7 * inject_Z (snap 3.6) <= 10 * 3.6 /\
  snap 100000 = 600%Z.
Proof.
  destruct X21_snap_within_factor as (Hf & Hhi & _ & _).
  destruct (Hf 3.5) as (A & _); try (vm_compute; discriminate).
  destruct (Hf 3.6) as (_ & B); try (vm_compute; discriminate).
  refine (conj eq_refl (conj eq_refl (conj eq_refl (conj A (conj B _))))).
  apply Hhi. vm_compute. discriminate.
Defined.

(** X22: a label shows whole seconds only.  [sec_to_hms] gives a time the
    label of its whole seconds, a negative time counting as 0: two times
    within the same second have the same label. *)
Theorem X22_label_of_whole_seconds :
  (forall t,
     sec_to_hms (Some t) = sec_to_hms (Some (inject_Z (Z.max 0 (Qfloor t))))) /\
  (forall t u, 0 <= t -> 0 <= u -> Qfloor t = Qfloor u ->
     sec_to_hms (Some t) = sec_to_hms (Some u)).
Proof.
  assert (Hfl : forall t, 0 <= t ->
            sec_to_hms (Some t) = sec_to_hms (Some (inject_Z (Qfloor t)))).
  { intros t Ht.
    assert (Hn : (0 <= Qfloor t)%Z) by (apply floor_nonneg, Ht).
    assert (Hz : 0 <= inject_Z (Qfloor t))
      by (change 0 with (inject_Z 0); rewrite <- Zle_Qle; exact Hn).
    rewrite (sec_to_hms_of_floor t Ht).
    rewrite (sec_to_hms_of_floor _ Hz). rewrite Qfloor_Z. reflexivity. }
  split.
  - intro t. destruct (Qlt_le_dec t 0) as [Hneg | Hpos].
    + assert (Hf : (Qfloor t <= 0)%Z).
      { change 0%Z with (Qfloor 0). apply Qfloor_resp_le. lra. }
      rewrite Z.max_l by exact Hf.
      unfold sec_to_hms at 1.
      assert (E : Py.max 0 t = 0)
        by (unfold Py.max; apply Qlt_le_weak, ltb_false in Hneg;
            rewrite Hneg; reflexivity).
      rewrite E. reflexivity.
    + rewrite Z.max_r by (apply floor_nonneg, Hpos). apply Hfl, Hpos.
  - intros t u Ht Hu E. rewrite (Hfl t Ht), (Hfl u Hu), E. reflexivity.
Qed.

Lemma X22_label_witness :
  sec_to_hms (Some 59.999) = sec_to_hms (Some 59.001).
Proof.
  destruct X22_label_of_whole_seconds as (_ & H).
  apply H; vm_compute; congruence.
Defined.

(** ** The clip box *)

Lemma total_width_nonneg tl : 0 <= pixels_per_second tl -> 0 <= total_width tl.
Proof.
  intro Hp. unfold total_width. apply Qmult_le_0_compat; [exact Hp | ].
  py_cases; lra.
Qed.

(** The width of the clip box: the total width without its fraction in fit
    mode, the usable width in scroll mode. *)
Lemma clip_w_bounds tl :
  0 <= pixels_per_second tl ->
  0 <= inject_Z (clip_w tl) <= inject_Z (usable tl) /\
  (fit_mode tl = true ->
     inject_Z (clip_w tl) <= total_width tl < inject_Z (clip_w tl) + 1).
Proof.
  intro Hp. pose proof (total_width_nonneg tl Hp) as Ht.
  pose proof (usable_ge_10 tl) as Hu. unfold clip_w.
  destruct (fit_mode tl) eqn:Hf.
  - unfold fit_mode in Hf. apply leb_iff in Hf.
    rewrite (int_floor _ (floor_nonneg _ Ht)).
    pose proof (Qfloor_le (total_width tl)) as Hlo.
    pose proof (Qlt_floor (total_width tl)) as Hhi.
    rewrite inject_Z_plus in Hhi. change (inject_Z 1) with 1 in Hhi.
    assert (H0 : 0 <= inject_Z (Qfloor (total_width tl))).
    { change 0 with (inject_Z 0). rewrite <- Zle_Qle.
      apply floor_nonneg, Ht. }
    repeat split; try lra.
  - split; [split; lra | discriminate].
Qed.

(** X23: where [paintEvent] draws.  For a zoom >= 0 the clip box lies
    inside the usable width, with equal margins on both sides; its left
    edge is less than half a pixel right of the pixel [seconds_to_x] gives
    to time 0 and, in fit mode, its right edge less than half a pixel left
    of the pixel of time max(1, D): the box is centred with its width
    truncated to whole pixels, the mapper with the width as it is.  The
    shaded range is at least 2 px wide, and as wide as the distance of the
    markers when that is 2 px or more. *)
Theorem X23_clip_box_geometry tl :
  0 <= pixels_per_second tl ->
  let Lp := inject_Z (left_padding tl) in
  let box_right := clip_x tl + inject_Z (clip_w tl) in
  (Lp <= clip_x tl /\ box_right <= Lp + inject_Z (usable tl) /\
   clip_x tl - Lp == Lp + inject_Z (usable tl) - box_right) /\
  (seconds_to_x tl 0 <= clip_x tl /\ 2 * (clip_x tl - seconds_to_x tl 0) < 1) /\
  (fit_mode tl = true ->
   box_right <= seconds_to_x tl (Py.max 1 (clip_duration tl)) /\
   2 * (seconds_to_x tl (Py.max 1 (clip_duration tl)) - box_right) < 1) /\
  (2 <= sel_w tl /\
   (2 <= seconds_to_x tl (end_marker tl) - seconds_to_x tl (start_marker tl) ->
    sel_w tl == seconds_to_x tl (end_marker tl)
                - seconds_to_x tl (start_marker tl))).
Proof.
  intros Hp Lp box_right. subst box_right.
  assert (Hsel : 2 <= sel_w tl /\
    (2 <= seconds_to_x tl (end_marker tl) - seconds_to_x tl (start_marker tl) ->
     sel_w tl == seconds_to_x tl (end_marker tl)
                 - seconds_to_x tl (start_marker tl))).
  { unfold sel_w.
    set (d := seconds_to_x tl (end_marker tl) - seconds_to_x tl (start_marker tl)).
    split; [ | intro]; py_cases; lra. }
  destruct (clip_w_bounds tl Hp) as ((Hw0 & Hw1) & Hfit).
  refine (conj _ (conj _ (conj _ Hsel))); clear Hsel;
    rewrite ?seconds_to_x_eq; unfold clip_x, start_x, effective_scale in *;
    assert (Ediv : forall a, a / 2 == a * (1 # 2)) by (intro a; reflexivity);
    pose proof (usable_ge_10 tl) as Hu; subst Lp;
    (destruct (fit_mode tl) eqn:Hf;
     [ destruct (Hfit eq_refl) as (Hlo & Hhi); unfold total_width in *;
       rewrite ?Ediv
     | assert (Ec : clip_w tl = usable tl)
         by (unfold clip_w; rewrite Hf; reflexivity); rewrite ?Ec ]);
    try discriminate; try (intros _); repeat split; lra.
Qed.

Lemma X23_clip_box_witness :
  let tl := with_pps (timeline loaded_10) 97.35 in
  clip_w tl = 973%Z /\ total_width tl == 973.5 /\
  seconds_to_x tl 0 <= clip_x tl /\ 2 * (clip_x tl - seconds_to_x tl 0) < 1 /\
  2 <= sel_w tl.
Proof.
  intro tl.
  assert (Hp : 0 <= pixels_per_second tl) by (vm_compute; discriminate).
  destruct (X23_clip_box_geometry tl Hp) as (_ & (A & B) & _ & (C & _)).
  refine (conj _ (conj _ (conj A (conj B C)))); vm_compute; reflexivity.
Defined.

(** The stripes of [k] rounds of the loop from column [x]. *)
Lemma stripe_loop_rounds (right : Q) :
  forall k x fuel,
    (forall j, (j < k)%nat -> x + inject_Z (Z.of_nat j) * 18 < right) ->
    right <= x + inject_Z (Z.of_nat k) * 18 ->
    (k < fuel)%nat ->
    exists stripes,
      stripe_loop fuel right x = Some stripes /\
      List.length stripes = k /\
      forall j s, nth_error stripes j = Some s ->
        exists xj, xj == x + inject_Z (Z.of_nat j) * 18 /\ xj < right /\
                   stripe_x s = Py.int xj /\
                   stripe_width s = Py.int (Py.min 6 (right - xj)).
Proof.
  induction k as [ | k IH]; intros x fuel Hin Hout Hfuel.
  - destruct fuel as [ | fuel]; [lia | ]. cbn [stripe_loop].
    change (inject_Z (Z.of_nat 0)) with 0 in Hout.
    assert (E : Py.ltb x right = false) by (apply ltb_false; lra).
    rewrite E. exists []. repeat split. intros [ | j] s H; discriminate.
  - destruct fuel as [ | fuel]; [lia | ]. cbn [stripe_loop].
    assert (E : Py.ltb x right = true).
    { apply ltb_iff. specialize (Hin 0%nat ltac:(lia)).
      change (inject_Z (Z.of_nat 0)) with 0 in Hin. lra. }
    rewrite E. change (inject_Z (stripe_w + 10)) with 18.
    change (inject_Z (stripe_w - 2)) with 6.
    destruct (IH (x + 18) fuel) as (r & Hr & Hlen & Hnth).
    + intros j Hj. specialize (Hin (S j) ltac:(lia)).
      rewrite Nat2Z.inj_succ in Hin. unfold Z.succ in Hin.
      rewrite inject_Z_plus in Hin. change (inject_Z 1) with 1 in Hin. lra.
    + rewrite Nat2Z.inj_succ in Hout. unfold Z.succ in Hout.
      rewrite inject_Z_plus in Hout. change (inject_Z 1) with 1 in Hout. lra.
    + lia.
    + rewrite Hr. eexists. split; [reflexivity | split; [cbn; lia | ] ].
      intros [ | j] s H; cbn in H.
      * injection H as <-. exists x. cbn [stripe_x stripe_width].
        apply ltb_iff in E. change (inject_Z (Z.of_nat 0)) with 0.
        repeat split; try reflexivity; lra.
      * destruct (Hnth j s H) as (xj & Ex & Hlt & Hx & Hwd).
        exists xj. rewrite Nat2Z.inj_succ. unfold Z.succ.
        rewrite inject_Z_plus. change (inject_Z 1) with 1.
        repeat split; trivial. rewrite Ex. lra.
Qed.

(** X24: the stripes of the clip box.  For a zoom >= 0 the stripe loop of
    [paintEvent] ends after ceil(clip_w / 18) stripes (none for an empty
    box): the stripe number j starts 18 * j pixels right of the left edge,
    inside the box, and is given a width between 0 and 6, cut down to what
    is left of the box. *)
Theorem X24_stripes_fill_the_box tl :
  0 <= pixels_per_second tl ->
  let n := Z.to_nat ((clip_w tl + 17) / 18) in
  exists stripes,
    (forall fuel, (n < fuel)%nat -> paint_stripes fuel tl = Some stripes) /\
    List.length stripes = n /\
    (forall j s, nth_error stripes j = Some s ->
       exists xj,
         xj == clip_x tl + inject_Z (Z.of_nat j) * 18 /\
         clip_x tl <= xj < clip_x tl + inject_Z (clip_w tl) /\
         stripe_x s = Py.int xj /\
         (0 <= stripe_width s <= 6)%Z /\
         inject_Z (stripe_width s) <= clip_x tl + inject_Z (clip_w tl) - xj).
Proof.
  intros Hp n.
  destruct (clip_w_bounds tl Hp) as ((Hw0 & _) & _).
  assert (Hcw : (0 <= clip_w tl)%Z)
    by (rewrite Zle_Qle; exact Hw0).
  set (cw := clip_w tl) in *.
  assert (Hq : (0 <= (cw + 17) / 18)%Z) by (apply Z.div_pos; lia).
  assert (Hdiv : (18 * ((cw + 17) / 18) <= cw + 17 < 18 * ((cw + 17) / 18) + 18)%Z).
  { pose proof (Z.mul_div_le (cw + 17) 18 ltac:(lia)).
    pose proof (Z.mul_succ_div_gt (cw + 17) 18 ltac:(lia)). lia. }
  assert (Hin : forall j, (j < n)%nat ->
            clip_x tl + inject_Z (Z.of_nat j) * 18 < clip_x tl + inject_Z cw).
  { intros j Hj. subst n.
    assert (Hz : (Z.of_nat j * 18 < cw)%Z) by lia.
    rewrite Zlt_Qlt, inject_Z_mult in Hz. change (inject_Z 18) with 18 in Hz.
    lra. }
  assert (Hout : clip_x tl + inject_Z cw
                 <= clip_x tl + inject_Z (Z.of_nat n) * 18).
  { subst n. rewrite Z2Nat.id by exact Hq.
    assert (Hz : (cw <= (cw + 17) / 18 * 18)%Z) by lia.
    rewrite Zle_Qle, inject_Z_mult in Hz. change (inject_Z 18) with 18 in Hz.
    lra. }
  assert (Hall : forall fuel, (n < fuel)%nat ->
            exists stripes,
              paint_stripes fuel tl = Some stripes /\
              List.length stripes = n /\
              forall j s, nth_error stripes j = Some s ->
                exists xj, xj == clip_x tl + inject_Z (Z.of_nat j) * 18 /\
                  xj < clip_x tl + inject_Z cw /\
                  stripe_x s = Py.int xj /\
                  stripe_width s
                  = Py.int (Py.min 6 (clip_x tl + inject_Z cw - xj)))
    by (intros fuel Hf; apply (stripe_loop_rounds _ n _ fuel Hin Hout Hf)).
  destruct (Hall (S n) ltac:(lia)) as (stripes & Hrun & Hlen & Hnth).
  exists stripes. split; [ | split; [exact Hlen | ] ].
  - intros fuel Hf. destruct (Hall fuel Hf) as (st' & Hrun' & _).
    unfold paint_stripes in *.
    destruct (stripe_loop_rounds _ n _ (S n) Hin Hout ltac:(lia))
      as (a & Ha & _).
    assert (Hmono : forall f x l, stripe_loop f (clip_x tl + inject_Z cw) x = Some l ->
              forall f', (f <= f')%nat ->
              stripe_loop f' (clip_x tl + inject_Z cw) x = Some l).
    { induction f as [ | f IHf]; intros x l H f' Hle; [discriminate | ].
      destruct f' as [ | f']; [lia | ]. cbn [stripe_loop] in *.
      destruct (Py.ltb x _); [ | exact H].
      destruct (stripe_loop f _ _) as [r | ] eqn:Er; [ | discriminate].
      rewrite (IHf _ _ Er f'); [exact H | lia]. }
    apply (Hmono (S n)); [exact Hrun | lia].
  - intros j s Hs. destruct (Hnth j s Hs) as (xj & Ex & Hlt & Hx & Hwd).
    exists xj. split; [exact Ex | ].
    assert (Hj0 : 0 <= inject_Z (Z.of_nat j) * 18).
    { apply Qmult_le_0_compat; [ | lra].
      change 0 with (inject_Z 0). rewrite <- Zle_Qle. lia. }
    split; [split; [rewrite Ex; lra | exact Hlt] | split; [exact Hx | ] ].
    set (m := Py.min 6 (clip_x tl + inject_Z cw - xj)) in *.
    assert (Hm : 0 <= m <= 6) by (subst m; py_cases; split; lra).
    assert (Hm' : m <= clip_x tl + inject_Z cw - xj) by (subst m; py_cases; lra).
    assert (Hfl : (0 <= Qfloor m)%Z) by (apply floor_nonneg, Hm).
    rewrite Hwd, (int_floor _ Hfl).
    split; [split; [exact Hfl | ] | ].
    + change 6%Z with (Qfloor 6). apply Qfloor_resp_le, Hm.
    + apply Qle_trans with m; [apply Qfloor_le | exact Hm'].
Qed.

Lemma X24_stripes_witness :
  exists stripes,
    paint_stripes 100 (timeline loaded_10) = Some stripes /\
    List.length stripes = 67%nat.
Proof.
  assert (Hp : 0 <= pixels_per_second (timeline loaded_10))
    by (vm_compute; discriminate).
  destruct (X24_stripes_fill_the_box (timeline loaded_10) Hp)
    as (stripes & Hrun & Hlen & _).
  exists stripes. split; [apply Hrun; vm_compute; lia | ].
  rewrite Hlen. vm_compute. reflexivity.
Defined.

(** ** Playing against the out point *)

Lemma range_changed_end_behind w now s e :
  s <= e -> e < playhead (timeline w) ->
  _on_range_changed w now s e =
    _seek_to
      (with_timeline
         (with_marker_labels w ("Start: " ++ sec_to_hms (Some s))
                               ("End: " ++ sec_to_hms (Some e)))
         (with_end_marker (with_start_marker (timeline w) s) e))
      now e.
Proof.
  intros Hse Hlt. unfold _on_range_changed. cbv zeta.
  cbn [timeline with_timeline with_marker_labels playhead with_end_marker
       with_start_marker].
  assert (E1 : Py.ltb (playhead (timeline w)) s = false)
    by (apply ltb_false; lra).
  assert (E2 : Py.ltb e (playhead (timeline w)) = true)
    by (apply ltb_iff; exact Hlt).
  rewrite E1.
  cbn [timeline with_timeline with_marker_labels playhead with_end_marker
       with_start_marker].
  rewrite E2. reflexivity.
Qed.

(** X25: the out point dragged behind the playhead during playback.  In a
    window that satisfies the invariant and is playing, a move that drags
    the end marker to a time E' before the playhead puts the playhead on
    E' and re-anchors the clock at offset E' and the reading [now]; the
    derived position is then at the out point at once, so the next tick,
    whenever it comes, stops playback and resets the playhead and the
    offset to 0. *)
Theorem X25_out_point_behind_playhead w c now now' x :
  inv w -> 0 < now -> clip w = Some c -> is_playing w = true ->
  dragging (timeline w) = Some DragEnd ->
  let w1 := step w now now' (Move x) in
  end_marker (timeline w1) < playhead (timeline w) ->
  (playhead (timeline w1) == end_marker (timeline w1) /\
   is_playing w1 = true /\ play_start_sys w1 = Some now /\
   play_offset w1 == end_marker (timeline w1)) /\
  (forall t t', now <= t ->
     let w2 := _on_timer w1 t t' in
     stopped w2 /\ playhead (timeline w2) = 0 /\ play_offset w2 = 0).
Proof.
  intros Hinv Hnow Hc Hp Hd w1.
  pose proof Hinv as (Hm & Hcl & _).
  pose proof (mouseMove_markers (timeline w) x Hm) as (Hm' & _ & _ & HE & _).
  destruct (HE Hd) as (Ee & Es & Hs1 & He1).
  assert (Ew1 : w1 = _on_range_changed
                       (with_timeline w (fst (mouseMoveEvent (timeline w) x)))
                       now (start_marker (timeline w))
                       (Py.max (move_seconds (timeline w) x)
                               (start_marker (timeline w)))).
  { subst w1. cbn [step]. unfold mouseMoveEvent, dispatch. rewrite Hd.
    reflexivity. }
  set (e := Py.max (move_seconds (timeline w) x) (start_marker (timeline w))) in *.
  set (tl1 := fst (mouseMoveEvent (timeline w) x)) in *.
  assert (Ep1 : playhead tl1 = playhead (timeline w))
    by (subst tl1; unfold mouseMoveEvent; rewrite Hd; reflexivity).
  assert (Ed1 : clip_duration tl1 = clip_duration (timeline w))
    by (subst tl1; unfold mouseMoveEvent; rewrite Hd; reflexivity).
  assert (Eend : end_marker (timeline w1) = e).
  { rewrite Ew1.
    destruct (on_range_changed_range (with_timeline w tl1) now
                (start_marker (timeline w)) e) as (_ & _ & H). exact H. }
  rewrite Eend. intro Hlt.
  rewrite Ee in Hs1, He1. fold e in Hs1, He1.
  rewrite range_changed_end_behind in Ew1;
    [ | exact Hs1 | cbn [timeline with_timeline]; rewrite Ep1; exact Hlt].
  set (w0 := with_timeline (with_marker_labels _ _ _) _) in Ew1.
  assert (Hc0 : clip w0 = Some c) by exact Hc.
  assert (Hp0 : is_playing w0 = true) by exact Hp.
  assert (Et : seek_target w0 e == e).
  { unfold seek_target. rewrite Hc0. apply clamp_inside.
    unfold clip_ok in Hcl. rewrite Hc in Hcl. destruct Hm as (M0 & M1 & M2).
    split; lra. }
  destruct (seek_to_spec w0 now e) as (A1 & A2 & A3 & A4 & A5).
  rewrite <- Ew1 in A1, A2, A3, A4, A5. rewrite Hp0 in A2, A4, A5.
  rewrite Hc0 in A1.
  assert (Eph : playhead (timeline w1) == e) by (rewrite A3; exact Et).
  assert (Eoff : play_offset w1 == e) by (rewrite A5; exact Et).
  split; [auto | ].
  intros t t' Ht w2. subst w2.
  assert (Hout : Py.min (duration c) (end_marker (timeline w1))
                 <= derived_position w1 now t).
  { unfold derived_position. rewrite Eend, Eoff. py_cases; lra. }
  rewrite (on_timer_past_out_point w1 c now t t' A1 A2 A4 Hout).
  apply (stop_resets w1 c A1).
Qed.

Lemma X25_out_point_witness :
  let grabbed := step playing_from_2 1001 1001 (Press 1250) in
  let w1 := step grabbed 1002 1002 (Move 230) in
  end_marker (timeline w1) == 1.5 /\ playhead (timeline w1) == 1.5 /\
  stopped (_on_timer w1 1002.08 1002.08) /\
  playhead (timeline (_on_timer w1 1002.08 1002.08)) = 0.
Proof.
  intros grabbed w1.
  assert (Hinv : inv grabbed).
  { unfold inv, markers_ok, clip_ok.
    repeat match goal with |- _ /\ _ => split end;
      try (vm_compute; discriminate); try reflexivity.
    intros s E. vm_compute in E. injection E as <-. reflexivity. }
  assert (Hnow : 0 < 1002) by reflexivity.
  assert (Hlt : end_marker (timeline (step grabbed 1002 1002 (Move 230)))
                < playhead (timeline grabbed)) by (vm_compute; reflexivity).
  destruct (X25_out_point_behind_playhead grabbed (mkClip 10) 1002 1002 230
              Hinv Hnow eq_refl eq_refl eq_refl Hlt)
    as ((A & _) & H).
  destruct (H 1002.08 1002.08) as (B & C & _); [vm_compute; discriminate | ].
  fold w1 in A, B, C.
  assert (E : end_marker (timeline w1) == 1.5) by (vm_compute; reflexivity).
  refine (conj E (conj _ (conj B C))). rewrite A. exact E.
Defined.
